(** * Verification of the bluetooth-service USOCK transport and message router

    A shallow embedding of the Go sources of librescoot/bluetooth-service:
    - [Usock]: the frame codec of [pkg/usock] (CRC-16 table, frame
      construction of [WriteWithFrameID], the byte-wise receive state machine
      [processByte]);
    - [Ble]: the message-type and subtype constants of [pkg/ble/types.go];
    - [Service]: the inbound router [HandleUSockMessage] with its handlers, the
      store client of [pkg/redis] as a trace of store operations, and the
      outbound translation of [pkg/service/redis_handlers.go].

    Bytes and the unsigned 16-bit integers of the Go code are integers in [Z]
    with the wrap-around of every conversion written out.  Calls of
    [log.Printf] have no effect on the store or on the serial line and are
    left out. *)

From Stdlib Require Import ZArith List String Ascii Bool Lia DecimalString.
From stdpp Require Import gmap strings list.
Import ListNotations.
Local Open Scope Z_scope.

(** ** Fixed-width integers *)

Definition uint8 (z : Z) : Z := z mod 256.
Definition uint16 (z : Z) : Z := z mod 65536.

Definition is_byte (z : Z) : Prop := 0 <= z < 256.
Definition is_uint16 (z : Z) : Prop := 0 <= z < 65536.

Module Usock.

Definition MaxPayloadLength : Z := 1024.
Definition SyncByte1 : Z := 0xF6.
Definition SyncByte2 : Z := 0xD9.

(** State machine states *)
Inductive State : Type :=
  | StateSync1
  | StateSync2
  | StateFrameID
  | StatePayloadLen1
  | StatePayloadLen2
  | StateHeaderCRC1
  | StateHeaderCRC2
  | StatePayload
  | StatePayloadCRC1
  | StatePayloadCRC2.

(** [Frame] represents a USOCK frame *)
Record Frame : Type := mkFrame {
  frame_ID : Z;
  frame_PayloadLen : Z;
  frame_HeaderCRC : Z;
  frame_Payload : list Z;
  frame_PayloadCRC : Z
}.

(** [Payload] represents a received message payload *)
Record Payload : Type := mkPayload {
  payload_ID : Z;
  payload_Data : list Z;
  payload_Size : Z
}.

(** The fields of [USOCK] the state machine reads and writes. *)
Record USOCK : Type := mkUSOCK {
  state : State;
  frame : Frame;
  buffer : list Z
}.

(** CRC-16/ARC lookup table *)
Definition crc16Table : list Z := [
    0x0000; 0xc0c1; 0xc181; 0x0140; 0xc301; 0x03c0; 0x0280; 0xc241;
    0xc601; 0x06c0; 0x0780; 0xc741; 0x0500; 0xc5c1; 0xc481; 0x0440;
    0xcc01; 0x0cc0; 0x0d80; 0xcd41; 0x0f00; 0xcfc1; 0xce81; 0x0e40;
    0x0a00; 0xcac1; 0xcb81; 0x0b40; 0xc901; 0x09c0; 0x0880; 0xc841;
    0xd801; 0x18c0; 0x1980; 0xd941; 0x1b00; 0xdbc1; 0xda81; 0x1a40;
    0x1e00; 0xdec1; 0xdf81; 0x1f40; 0xdd01; 0x1dc0; 0x1c80; 0xdc41;
    0x1400; 0xd4c1; 0xd581; 0x1540; 0xd701; 0x17c0; 0x1680; 0xd641;
    0xd201; 0x12c0; 0x1380; 0xd341; 0x1100; 0xd1c1; 0xd081; 0x1040;
    0xf001; 0x30c0; 0x3180; 0xf141; 0x3300; 0xf3c1; 0xf281; 0x3240;
    0x3600; 0xf6c1; 0xf781; 0x3740; 0xf501; 0x35c0; 0x3480; 0xf441;
    0x3c00; 0xfcc1; 0xfd81; 0x3d40; 0xff01; 0x3fc0; 0x3e80; 0xfe41;
    0xfa01; 0x3ac0; 0x3b80; 0xfb41; 0x3900; 0xf9c1; 0xf881; 0x3840;
    0x2800; 0xe8c1; 0xe981; 0x2940; 0xeb01; 0x2bc0; 0x2a80; 0xea41;
    0xee01; 0x2ec0; 0x2f80; 0xef41; 0x2d00; 0xedc1; 0xec81; 0x2c40;
    0xe401; 0x24c0; 0x2580; 0xe541; 0x2700; 0xe7c1; 0xe681; 0x2640;
    0x2200; 0xe2c1; 0xe381; 0x2340; 0xe101; 0x21c0; 0x2080; 0xe041;
    0xa001; 0x60c0; 0x6180; 0xa141; 0x6300; 0xa3c1; 0xa281; 0x6240;
    0x6600; 0xa6c1; 0xa781; 0x6740; 0xa501; 0x65c0; 0x6480; 0xa441;
    0x6c00; 0xacc1; 0xad81; 0x6d40; 0xaf01; 0x6fc0; 0x6e80; 0xae41;
    0xaa01; 0x6ac0; 0x6b80; 0xab41; 0x6900; 0xa9c1; 0xa881; 0x6840;
    0x7800; 0xb8c1; 0xb981; 0x7940; 0xbb01; 0x7bc0; 0x7a80; 0xba41;
    0xbe01; 0x7ec0; 0x7f80; 0xbf41; 0x7d00; 0xbdc1; 0xbc81; 0x7c40;
    0xb401; 0x74c0; 0x7580; 0xb541; 0x7700; 0xb7c1; 0xb681; 0x7640;
    0x7200; 0xb2c1; 0xb381; 0x7340; 0xb101; 0x71c0; 0x7080; 0xb041;
    0x5000; 0x90c1; 0x9181; 0x5140; 0x9301; 0x53c0; 0x5280; 0x9241;
    0x9601; 0x56c0; 0x5780; 0x9741; 0x5500; 0x95c1; 0x9481; 0x5440;
    0x9c01; 0x5cc0; 0x5d80; 0x9d41; 0x5f00; 0x9fc1; 0x9e81; 0x5e40;
    0x5a00; 0x9ac1; 0x9b81; 0x5b40; 0x9901; 0x59c0; 0x5880; 0x9841;
    0x8801; 0x48c0; 0x4980; 0x8941; 0x4b00; 0x8bc1; 0x8a81; 0x4a40;
    0x4e00; 0x8ec1; 0x8f81; 0x4f40; 0x8d01; 0x4dc0; 0x4c80; 0x8c41;
    0x4400; 0x84c1; 0x8581; 0x4540; 0x8701; 0x47c0; 0x4680; 0x8641;
    0x8201; 0x42c0; 0x4380; 0x8341; 0x4100; 0x81c1; 0x8081; 0x4040
  ].

(** [calculateCRC16]: one iteration of the loop body, then the loop. *)
Definition crc16_update (crc b : Z) : Z :=
  let idx := Z.land (uint16 (Z.lxor crc (uint16 b))) 0xff in
  Z.lxor (Z.shiftr crc 8) (nth (Z.to_nat idx) crc16Table 0).

Definition calculateCRC16 (data : list Z) (seed : Z) : Z :=
  fold_left crc16_update data seed.

Definition len (data : list Z) : Z := Z.of_nat (length data).

(** [binary.LittleEndian.PutUint16] *)
Definition PutUint16 (v : Z) : list Z := [uint8 v; uint8 (Z.shiftr v 8)].

(** The header of [WriteWithFrameID]: sync bytes, frame ID, payload length. *)
Definition header (frameID : Z) (data : list Z) : list Z :=
  [SyncByte1; SyncByte2; frameID] ++ PutUint16 (uint16 (len data)).

(** [WriteWithFrameID]: [None] is the error return for an oversize payload,
    [Some completeFrame] the buffer handed to the port in one write. *)
Definition WriteWithFrameID (frameID : Z) (data : list Z) : option (list Z) :=
  if len data >? MaxPayloadLength then None
  else
    let hdr := header frameID data in
    let headerCRC := calculateCRC16 hdr 0 in
    let payloadCRC := calculateCRC16 data 0 in
    Some (hdr
          ++ [uint8 (Z.land headerCRC 0xFF); uint8 (Z.land (Z.shiftr headerCRC 8) 0xFF)]
          ++ data
          ++ [uint8 (Z.land payloadCRC 0xFF); uint8 (Z.land (Z.shiftr payloadCRC 8) 0xFF)]).

(** [Write]: the first byte is the frame ID, the rest the payload. *)
Definition Write (data : list Z) : option (list Z) :=
  match data with
  | [] => None
  | frameID :: payload => WriteWithFrameID frameID payload
  end.

Definition set_state (u : USOCK) (s : State) : USOCK :=
  mkUSOCK s (frame u) (buffer u).

(** [processByte]: the new state of the receiver and the payload handed to
    the handler, if the byte completes a frame. *)
Definition processByte (u : USOCK) (b : Z) : USOCK * option Payload :=
  let f := frame u in
  match state u with
  | StateSync1 =>
      if b =? SyncByte1 then (mkUSOCK StateSync2 f [b], None)
      else (u, None)
  | StateSync2 =>
      if b =? SyncByte2 then (mkUSOCK StateFrameID f (buffer u ++ [b]), None)
      else (set_state u StateSync1, None)
  | StateFrameID =>
      (mkUSOCK StatePayloadLen1
         (mkFrame b (frame_PayloadLen f) (frame_HeaderCRC f) (frame_Payload f) (frame_PayloadCRC f))
         (buffer u ++ [b]), None)
  | StatePayloadLen1 =>
      (mkUSOCK StatePayloadLen2
         (mkFrame (frame_ID f) (uint16 b) (frame_HeaderCRC f) (frame_Payload f) (frame_PayloadCRC f))
         (buffer u ++ [b]), None)
  | StatePayloadLen2 =>
      let plen := Z.lor (frame_PayloadLen f) (uint16 (Z.shiftl (uint16 b) 8)) in
      let buf := buffer u ++ [b] in
      let f' := mkFrame (frame_ID f) plen (calculateCRC16 buf 0) (frame_Payload f) (frame_PayloadCRC f) in
      if plen >? MaxPayloadLength then (mkUSOCK StateSync1 f' buf, None)
      else (mkUSOCK StateHeaderCRC1 f' buf, None)
  | StateHeaderCRC1 =>
      (mkUSOCK StateHeaderCRC2
         (mkFrame (frame_ID f) (frame_PayloadLen f) (uint16 b) (frame_Payload f) (frame_PayloadCRC f))
         (buffer u), None)
  | StateHeaderCRC2 =>
      let hcrc := Z.lor (frame_HeaderCRC f) (uint16 (Z.shiftl (uint16 b) 8)) in
      let calculatedCRC := calculateCRC16 (buffer u) 0 in
      if negb (calculatedCRC =? hcrc) then
        (mkUSOCK StateSync1
           (mkFrame (frame_ID f) (frame_PayloadLen f) hcrc (frame_Payload f) (frame_PayloadCRC f))
           (buffer u), None)
      else
        (mkUSOCK StatePayload
           (mkFrame (frame_ID f) (frame_PayloadLen f) hcrc [] (frame_PayloadCRC f))
           [], None)
  | StatePayload =>
      let pl := frame_Payload f ++ [b] in
      let buf := buffer u ++ [b] in
      if uint16 (len pl) >=? frame_PayloadLen f then
        (mkUSOCK StatePayloadCRC1
           (mkFrame (frame_ID f) (frame_PayloadLen f) (frame_HeaderCRC f) pl (calculateCRC16 buf 0))
           buf, None)
      else
        (mkUSOCK StatePayload
           (mkFrame (frame_ID f) (frame_PayloadLen f) (frame_HeaderCRC f) pl (frame_PayloadCRC f))
           buf, None)
  | StatePayloadCRC1 =>
      (mkUSOCK StatePayloadCRC2
         (mkFrame (frame_ID f) (frame_PayloadLen f) (frame_HeaderCRC f) (frame_Payload f) (uint16 b))
         (buffer u), None)
  | StatePayloadCRC2 =>
      let pcrc := Z.lor (frame_PayloadCRC f) (uint16 (Z.shiftl (uint16 b) 8)) in
      let calculatedCRC := calculateCRC16 (buffer u) 0 in
      let f' := mkFrame (frame_ID f) (frame_PayloadLen f) (frame_HeaderCRC f) (frame_Payload f) pcrc in
      if negb (calculatedCRC =? pcrc) then (mkUSOCK StateSync1 f' (buffer u), None)
      else
        (mkUSOCK StateSync1 f' (buffer u),
         Some (mkPayload (frame_ID f) (frame_Payload f) (len (frame_Payload f))))
  end.

(** The receiver as [New] creates it. *)
Definition New : USOCK := mkUSOCK StateSync1 (mkFrame 0 0 0 [] 0) [].

(** [readLoop] hands the bytes read from the port to [processByte] one by
    one; [feed] is that loop over the bytes received, with the payloads
    delivered to the handler in order. *)
Fixpoint feed (u : USOCK) (bs : list Z) : USOCK * list Payload :=
  match bs with
  | [] => (u, [])
  | b :: bs' =>
      let '(u1, o) := processByte u b in
      let '(u2, out) := feed u1 bs' in
      (u2, match o with Some p => p :: out | None => out end)
  end.

Definition delivered (u : USOCK) (bs : list Z) : list Payload := snd (feed u bs).
Definition after (u : USOCK) (bs : list Z) : USOCK := fst (feed u bs).

(** [calculateCRC8]: the XOR of all bytes. *)
Definition calculateCRC8 (data : list Z) : Z :=
  fold_left (fun crc b => uint8 (Z.lxor crc b)) data 0.

End Usock.

(** * Message types and subtypes ([pkg/ble/types.go]) *)

Module Ble.

(** Message types *)
Definition TypeDataStream : Z := 0x00C0.
Definition TypeBLEParam : Z := 0xA080.
Definition TypeBattery : Z := 0x00E0.
Definition TypeVehicleState : Z := 0x0020.
Definition TypeScooterInfo : Z := 0xA040.
Definition TypePowerManagement : Z := 0x0800.
Definition TypeBLEPairingPinDisplay : Z := 0xA080 + 2.
Definition TypeBLEPairingPinRemove : Z := 0xA080 + 3.
Definition TypeBLEStatus : Z := 0xA080 + 4.
Definition TypeBLECommand : Z := 0xAA00.
Definition TypeBLEDebug : Z := 0xA020.
Definition TypeBLEReset : Z := 0xA020 + 1.
Definition TypeBLEVersion : Z := 0xA000.
Definition TypeAuxBattery : Z := 0x0040.
Definition TypeBatteryInfo : Z := 0x0060.
Definition TypePowerMux : Z := 0x0100.

(** Data stream sub-types *)
Definition TypeDataStreamEnable : Z := 1.
Definition TypeDataStreamSync : Z := 2.

(** BLE parameter sub-types *)
Definition TypeBLEParamMACAddress : Z := 1.
Definition TypeBLEParamDeleteBonds : Z := 2.
Definition TypeBLEParamAdvertising : Z := 3.
Definition TypeBLEParamData : Z := 24.

(** Battery sub-types (Slot 1) *)
Definition TypeBatterySlot1Base : Z := 0x00E0.
Definition TypeBatterySlot1State : Z := 0x00E2.
Definition TypeBatterySlot1Presence : Z := 0x00E3.
Definition TypeBatterySlot1CycleCount : Z := 0x00E6.
Definition TypeBatterySlot1Charge : Z := 0x00E9.

(** Battery sub-types (Slot 2) *)
Definition TypeBatterySlot2Base : Z := 0x00EC.
Definition TypeBatterySlot2State : Z := 0x00EE.
Definition TypeBatterySlot2Presence : Z := 0x00EF.
Definition TypeBatterySlot2CycleCount : Z := 0x00F2.
Definition TypeBatterySlot2Charge : Z := 0x00F5.

(** Vehicle state sub-types *)
Definition TypeVehicleStateState : Z := 1.
Definition TypeVehicleStateSeatbox : Z := 2.
Definition TypeVehicleStateHandlebar : Z := 3.

(** Scooter info sub-types *)
Definition TypeSoftwareVersion : Z := 1.
Definition TypeMileage : Z := 2.

(** Power management sub-types *)
Definition TypePowerManagementState : Z := 1.
Definition TypePowerManagementPowerRequest : Z := 2.

(** BLE debug sub-types *)
Definition TypeBLEDebugResetAck : Z := 3.

(** BLE version sub-types *)
Definition TypeBLEVersionString : Z := 1.
Definition TypeBLEVersionRequest : Z := 2.

(** Aux battery sub-types *)
Definition TypeAuxBatteryVoltage : Z := 1.
Definition TypeAuxBatteryCharge : Z := 4.
Definition TypeAuxBatteryChargerStatus : Z := 3.

(** Battery Info (CB Battery) sub-types *)
Definition TypeBatteryInfoCharge : Z := 1.
Definition TypeBatteryInfoCurrent : Z := 2.
Definition TypeBatteryInfoRemCapacity : Z := 3.
Definition TypeBatteryInfoFullCapacity : Z := 4.
Definition TypeBatteryInfoCellVoltage : Z := 5.
Definition TypeBatteryInfoTemp : Z := 6.
Definition TypeBatteryInfoCycleCount : Z := 7.
Definition TypeBatteryInfoStatus : Z := 8.
Definition TypeBatteryInfoTTE : Z := 9.
Definition TypeBatteryInfoTTF : Z := 10.
Definition TypeBatteryInfoProtectionStatus : Z := 11.
Definition TypeBatteryInfoSOH : Z := 12.
Definition TypeBatteryInfoUniqueID : Z := 13.
Definition TypeBatteryInfoSerialNumber : Z := 14.
Definition TypeBatteryInfoBattStatus : Z := 15.
Definition TypeBatteryInfoPartNo : Z := 16.
Definition TypeBatteryInfoPresent : Z := 17.
Definition TypeBatteryInfoChargeStatus : Z := 18.

(** BLE control commands *)
Definition BLECommandAdvStartWithWhitelist : Z := 1.
Definition BLECommandAdvRestartNoWhitelist : Z := 2.
Definition BLECommandAdvStop : Z := 3.
Definition BLECommandDeleteBond : Z := 4.
Definition BLECommandDeleteAllBonds : Z := 5.

End Ble.

(** * The service: store client, inbound router, outbound translation *)

Module Service.
Import Ble.

(** ** Constants ([pkg/service/constants.go]) *)

Definition KeyBatterySlot1 : string := "battery:0".
Definition KeyBatterySlot2 : string := "battery:1".
Definition KeyVehicle : string := "vehicle".
Definition KeyPowerManager : string := "power-manager".
Definition KeyMileage : string := "engine-ecu".
Definition KeyFirmwareVersion : string := "system".
Definition KeyBLEPairingPin : string := "ble".
Definition KeyBLEStatus : string := "ble".
Definition KeyBLECommand : string := "ble".
Definition KeyCBBattery : string := "cb-battery".
Definition KeyCBBatteryAlert : string := "cb-battery:alert".
Definition KeyCBBatteryFault : string := "cb-battery:fault".
Definition KeyBLECommandList : string := "scooter:bluetooth".

Definition BatteryStateUnknown : Z := 0.
Definition BatteryStateAsleep : Z := 1.
Definition BatteryStateIdle : Z := 2.
Definition BatteryStateActive : Z := 3.

(** MAX1730X Status bits (Subtype 8) *)
Definition MAX1730X_STATUS_CURR_MIN_ALERT : Z := Z.shiftl 1 2.
Definition MAX1730X_STATUS_CURR_MAX_ALERT : Z := Z.shiftl 1 6.
Definition MAX1730X_STATUS_VOLT_MIN_ALERT : Z := Z.shiftl 1 8.
Definition MAX1730X_STATUS_VOLT_MAX_ALERT : Z := Z.shiftl 1 12.
Definition MAX1730X_STATUS_TEMP_MIN_ALERT : Z := Z.shiftl 1 9.
Definition MAX1730X_STATUS_TEMP_MAX_ALERT : Z := Z.shiftl 1 13.
Definition MAX1730X_STATUS_SOC_MIN_ALERT : Z := Z.shiftl 1 10.
Definition MAX1730X_STATUS_SOC_MAX_ALERT : Z := Z.shiftl 1 14.
Definition CB_BATTERY_STATUS_FILTER : Z :=
  Z.lor MAX1730X_STATUS_CURR_MIN_ALERT (Z.lor MAX1730X_STATUS_CURR_MAX_ALERT
  (Z.lor MAX1730X_STATUS_VOLT_MIN_ALERT (Z.lor MAX1730X_STATUS_VOLT_MAX_ALERT
  (Z.lor MAX1730X_STATUS_TEMP_MIN_ALERT (Z.lor MAX1730X_STATUS_TEMP_MAX_ALERT
  (Z.lor MAX1730X_STATUS_SOC_MIN_ALERT MAX1730X_STATUS_SOC_MAX_ALERT)))))).

(** MAX1730X Protection Status bits (Subtype 11) *)
Definition MAX1730X_PROTSTATUS_ODCP : Z := Z.shiftl 1 2.
Definition MAX1730X_PROTSTATUS_UVP : Z := Z.shiftl 1 3.
Definition MAX1730X_PROTSTATUS_TOOHOTD : Z := Z.shiftl 1 4.
Definition MAX1730X_PROTSTATUS_DIEHOT : Z := Z.shiftl 1 5.
Definition MAX1730X_PROTSTATUS_TOOCOLDC : Z := Z.shiftl 1 12.
Definition MAX1730X_PROTSTATUS_OVP : Z := Z.shiftl 1 11.
Definition MAX1730X_PROTSTATUS_OCCP : Z := Z.shiftl 1 10.
Definition MAX1730X_PROTSTATUS_QOVFLW : Z := Z.shiftl 1 9.
Definition MAX1730X_PROTSTATUS_TOOHOTC : Z := Z.shiftl 1 14.
Definition MAX1730X_PROTSTATUS_FULL : Z := Z.shiftl 1 13.
Definition CB_BATTERY_PROTECTION_STATUS_FILTER : Z :=
  Z.lor MAX1730X_PROTSTATUS_ODCP (Z.lor MAX1730X_PROTSTATUS_UVP
  (Z.lor MAX1730X_PROTSTATUS_TOOHOTD (Z.lor MAX1730X_PROTSTATUS_DIEHOT
  (Z.lor MAX1730X_PROTSTATUS_TOOCOLDC (Z.lor MAX1730X_PROTSTATUS_OVP
  (Z.lor MAX1730X_PROTSTATUS_OCCP (Z.lor MAX1730X_PROTSTATUS_QOVFLW
  (Z.lor MAX1730X_PROTSTATUS_TOOHOTC MAX1730X_PROTSTATUS_FULL)))))))).

(** MAX1730X Battery Status bits (Subtype 15) *)
Definition MAX1730X_BATTSTATUS_CHG_FET_FAIL : Z := Z.shiftl 1 12.
Definition MAX1730X_BATTSTATUS_DISCHG_FET_FAIL : Z := Z.shiftl 1 11.
Definition MAX1730X_BATTSTATUS_FET_FAIL_OPEN : Z := Z.shiftl 1 10.
Definition CB_BATTERY_BATT_STATUS_FILTER : Z :=
  Z.lor MAX1730X_BATTSTATUS_CHG_FET_FAIL
  (Z.lor MAX1730X_BATTSTATUS_DISCHG_FET_FAIL MAX1730X_BATTSTATUS_FET_FAIL_OPEN).

(** ** Decoded values

    The dynamic types of Go's [interface{}] that the handlers tell apart:
    the integer types of [convertToInt], [string], [[]byte],
    [[]interface{}], [map[interface{}]interface{}], and anything else. *)

Inductive IntKind : Type :=
  | KInt | KInt8 | KInt16 | KInt32 | KInt64
  | KUint | KUint8 | KUint16 | KUint32 | KUint64.

#[warnings="-register-all"]
Inductive Value : Type :=
  | VInteger (k : IntKind) (n : Z)
  | VString (s : string)
  | VBytes (bs : list Byte.byte)
  | VArray (l : list Value)
  | VMap (m : list (Value * Value))
  | VBool (b : bool)
  | VNil.

(** ** Operations on the store and on the serial line

    What a handler does is the sequence of calls it makes on the store
    client and on the USOCK, in program order. *)

Inductive RedisValue : Type :=
  | RString (s : string)
  | RInt (n : Z).

Inductive OutValue : Type :=
  | OUint16 (v : Z)
  | OText (s : string).

(** The message [{messageType: {absoluteKey: value}}] that
    [writeUARTMessage] marshals. *)
Record Envelope : Type := mkEnvelope {
  env_messageType : Z;
  env_absoluteKey : Z;
  env_value : OutValue
}.

Inductive Effect : Type :=
  | EHSet (key field : string) (value : RedisValue)
  | EHDel (key field : string)
  | EPublish (channel message : string)
  | ELPush (key value : string)
  | EWriteWithFrameID (frameID : Z) (message : Envelope).

(** [fmt.Sprintf("%d", n)] *)
Definition itoa (n : Z) : string := NilZero.string_of_int (Z.to_int n).

(** ** The store client ([pkg/redis/client.go]) *)

Definition WriteString (key field value : string) : list Effect :=
  [EHSet key field (RString value)].

Definition WriteAndPublishString (key field value : string) : list Effect :=
  [EHSet key field (RString value); EPublish key (field +:+ ":" +:+ value)].

Definition WriteInt (key field : string) (value : Z) : list Effect :=
  [EHSet key field (RInt value)].

Definition WriteAndPublishInt (key field : string) (value : Z) : list Effect :=
  [EHSet key field (RInt value); EPublish key (field +:+ ":" +:+ itoa value)].

Definition HDel (key field : string) : list Effect := [EHDel key field].

Definition LPush (key value : string) : list Effect := [ELPush key value].

(** The hashes of the store: the value of a field of a key. *)
Abbreviation Store := (gmap (string * string) string).

Definition render (v : RedisValue) : string :=
  match v with
  | RString s => s
  | RInt n => itoa n
  end.

Definition apply_effect (st : Store) (e : Effect) : Store :=
  match e with
  | EHSet key field value => <[(key, field) := render value]> st
  | EHDel key field => delete (key, field) st
  | _ => st
  end.

Definition apply_effects (st : Store) (es : list Effect) : Store :=
  fold_left apply_effect es st.

(** [GetString]: [None] is the error return (field not found). *)
Definition GetString (st : Store) (key field : string) : option string :=
  st !! (key, field).

Section Platform.

(** The largest value of Go's [int] ([^uint(0)>>1]): [2^31-1] on the ARM
    target of the Makefile, [2^63-1] on amd64. *)
Variable MaxInt : Z.

(** [strconv.Atoi]; [None] is the error return. *)
Variable Atoi : string -> option Z.

Definition GetInt (st : Store) (key field : string) : option Z :=
  match st !! (key, field) with
  | None => None
  | Some val => Atoi val
  end.

Definition GetStateString (st : Store) (key field : string) : option string :=
  st !! (key, field).

Definition GetStateInt (st : Store) (key field : string) : option Z :=
  match GetStateString st key field with
  | None => None
  | Some val =>
      if String.eqb val "standby" then Some 0
      else if String.eqb val "parked" then Some 1
      else if String.eqb val "ready-to-drive" then Some 2
      else if String.eqb val "shutting-down" then Some 3
      else if String.eqb val "updating" then Some 4
      else if String.eqb val "off" then Some 5
      else if String.eqb val "running" then Some 1
      else if String.eqb val "closed" then Some 0
      else if String.eqb val "open" then Some 1
      else Atoi val
  end.

(** ** Helpers ([pkg/service/helpers.go]) *)

Definition batteryStateToInt (state : string) : Z :=
  if String.eqb state "unknown" then BatteryStateUnknown
  else if String.eqb state "asleep" then BatteryStateAsleep
  else if String.eqb state "idle" then BatteryStateIdle
  else if String.eqb state "active" then BatteryStateActive
  else BatteryStateUnknown.

Definition batteryStateToString (state : Z) : string :=
  if state =? BatteryStateUnknown then "unknown"
  else if state =? BatteryStateAsleep then "asleep"
  else if state =? BatteryStateIdle then "idle"
  else if state =? BatteryStateActive then "active"
  else "unknown".

(** [writeUARTMessage] with the USOCK connected: one frame, whose ID is the
    low byte of the message type and whose payload is the marshalled
    [{messageType: {messageType + subType: value}}]. *)
Definition writeUARTMessage (messageType subType value : Z) : list Effect :=
  let absoluteKey := uint16 (uint16 messageType + uint16 subType) in
  let frameID := uint8 (Z.land messageType 0xFF) in
  [EWriteWithFrameID frameID (mkEnvelope (uint16 messageType) absoluteKey (OUint16 value))].

Definition writeUARTMessageString (messageType subType : Z) (value : string) : list Effect :=
  let absoluteKey := uint16 (uint16 messageType + uint16 subType) in
  let frameID := uint8 (Z.land messageType 0xFF) in
  [EWriteWithFrameID frameID (mkEnvelope (uint16 messageType) absoluteKey (OText value))].

(** [convertToInt]: the value and the [ok] flag. *)
Definition convertToInt (value : Value) : Z * bool :=
  match value with
  | VInteger KInt v => (v, true)
  | VInteger KInt8 v => (v, true)
  | VInteger KInt16 v => (v, true)
  | VInteger KInt32 v => (v, true)
  | VInteger KInt64 v =>
      if (v <=? MaxInt) && (v >=? MaxInt * -1 - 1) then (v, true) else (0, false)
  | VInteger KUint v => if v <=? MaxInt then (v, true) else (0, false)
  | VInteger KUint8 v => (v, true)
  | VInteger KUint16 v => (v, true)
  | VInteger KUint32 v => if v <=? MaxInt then (v, true) else (0, false)
  | VInteger KUint64 v => if v <=? MaxInt then (v, true) else (0, false)
  | _ => (0, false)
  end.

(** [convertToString] *)
Definition convertToString (value : Value) : string * bool :=
  match value with
  | VString v => (v, true)
  | VBytes v => (string_of_list_byte v, true)
  | _ => (EmptyString, false)
  end.

(** ** Inbound handlers *)

Definition handleBLECommandMessage (msgType absSubTypeKey : Z) (value : Value) : list Effect :=
  [].

Definition handleBatteryMessage (subType : Z) (value : Value) (slot : Z) : list Effect :=
  let redisKey := if slot =? 2 then KeyBatterySlot2 else KeyBatterySlot1 in
  if (subType =? TypeBatterySlot1State) || (subType =? TypeBatterySlot2State) then
    let '(state, ok) := convertToInt value in
    if ok then WriteInt redisKey "state" state else []
  else if (subType =? TypeBatterySlot1Presence) || (subType =? TypeBatterySlot2Presence) then
    let '(present, ok) := convertToInt value in
    if ok then
      let presentBool := negb (present =? 0) in
      let presentStr := if presentBool then "true" else "false" in
      WriteString redisKey "present" presentStr
    else []
  else if (subType =? TypeBatterySlot1CycleCount) || (subType =? TypeBatterySlot2CycleCount) then
    let '(count, ok) := convertToInt value in
    if ok then WriteInt redisKey "cycle-count" count else []
  else if (subType =? TypeBatterySlot1Charge) || (subType =? TypeBatterySlot2Charge) then
    let '(charge, ok) := convertToInt value in
    if ok then WriteInt redisKey "charge" charge else []
  else [].

(** The device echoes vehicle state; the three subtypes are only logged. *)
Definition handleVehicleStateMessage (subType : Z) (value : Value) : list Effect := [].

Definition handleScooterInfoMessage (msgType absSubTypeKey : Z) (value : Value) : list Effect :=
  let expectedMileageSubType := uint16 (uint16 TypeScooterInfo + uint16 TypeMileage) in
  let expectedVersionSubType := uint16 (uint16 TypeScooterInfo + uint16 TypeSoftwareVersion) in
  if absSubTypeKey =? expectedMileageSubType then
    let '(mileage, ok) := convertToInt value in
    if ok then WriteInt KeyMileage "odometer" mileage else []
  else if absSubTypeKey =? expectedVersionSubType then
    let '(versionStr, ok) := convertToString value in
    if ok then WriteString KeyFirmwareVersion "mdb-version" versionStr else []
  else [].

Definition handleBLEVersionMessage (msgType absSubTypeKey : Z) (value : Value) : list Effect :=
  let expectedAbsSubType := uint16 (uint16 TypeBLEVersion + uint16 TypeBLEVersionString) in
  if absSubTypeKey =? expectedAbsSubType then
    let '(versionStr, ok) := convertToString value in
    if ok then WriteString KeyBLEStatus "nrf-fw-version" versionStr else []
  else [].

Definition handleBLEDebugMessage (msgType absSubTypeKey : Z) (value : Value) : list Effect :=
  let expectedResetAckSubType := uint16 (uint16 TypeBLEDebug + uint16 TypeBLEDebugResetAck) in
  let expectedResetInfoSubType := uint16 TypeBLEReset in
  if absSubTypeKey =? expectedResetAckSubType then []
  else if absSubTypeKey =? expectedResetInfoSubType then
    match value with
    | VArray [r; c] =>
        let '(reason, reasonOk) := convertToInt r in
        let '(count, countOk) := convertToInt c in
        if reasonOk && countOk then
          WriteInt KeyPowerManager "nrf-reset-count" count
          ++ WriteAndPublishInt KeyPowerManager "nrf-reset-reason" reason
          ++ writeUARTMessage TypeBLEDebug TypeBLEDebugResetAck 0
        else []
    | _ => []
    end
  else [].

Definition handleDataStreamMessage (subType : Z) (value : Value) : list Effect :=
  if subType =? TypeDataStreamEnable then
    let '(enabled, ok) := convertToInt value in
    if ok then WriteInt "aux-battery" "data-stream-enable" enabled else []
  else if subType =? TypeDataStreamSync then []
  else [].

Definition handleAuxBatteryMessage (subType : Z) (value : Value) : list Effect :=
  if subType =? TypeAuxBatteryVoltage then
    let '(voltage, ok) := convertToInt value in
    if ok then WriteInt "aux-battery" "voltage" voltage else []
  else if subType =? TypeAuxBatteryCharge then
    let '(charge, ok) := convertToInt value in
    if ok then WriteInt "aux-battery" "charge" charge else []
  else if subType =? TypeAuxBatteryChargerStatus then
    let '(statusStr, ok) := convertToString value in
    if ok then WriteString "aux-battery" "charge-status" statusStr else []
  else [].

(** Subtypes 1 and 2 are acknowledgements of the device and only logged. *)
Definition handlePowerManagementMessage (subType : Z) (value : Value) : list Effect := [].

Definition handleBLEParamMessage (msgType absSubTypeKey : Z) (value : Value) : list Effect :=
  let expectedMACSubType := uint16 (uint16 TypeBLEParam + uint16 TypeBLEParamMACAddress) in
  let expectedParamDataSubType := uint16 (uint16 TypeBLEParam + uint16 TypeBLEParamData) in
  if absSubTypeKey =? expectedMACSubType then
    let '(macAddrStr, ok) := convertToString value in
    if ok then WriteString KeyBLEStatus "mac-address" macAddrStr else []
  else if absSubTypeKey =? uint16 TypeBLEPairingPinDisplay then
    let '(strValue, ok) := convertToString value in
    if ok then WriteAndPublishString KeyBLEPairingPin "pin-code" strValue else []
  else if absSubTypeKey =? uint16 TypeBLEPairingPinRemove then
    HDel KeyBLEPairingPin "pin-code"
    ++ WriteAndPublishString KeyBLEPairingPin "pin-code" EmptyString
  else if absSubTypeKey =? expectedParamDataSubType then []
  else if absSubTypeKey =? uint16 TypeBLEStatus then
    if msgType =? TypeBLEParam then
      let '(statusStr, ok) := convertToString value in
      if ok then WriteString KeyBLEStatus "connection-status" statusStr else []
    else []
  else [].

(** [writeFaultToRedis] *)
Definition writeFaultToRedis (key source : string) (code : Z) (message faultType : string)
  : list Effect :=
  let field := faultType in
  if (code =? 0xFF) && String.eqb message EmptyString then HDel key field
  else WriteString key field message.

Definition testbits (valueInt mask : Z) : bool := negb (Z.land valueInt mask =? 0).

(** [handleBatteryInfoMessage], the three bit-field subtypes first, then the
    standard ones with the flags of the source. *)
Definition handleBatteryInfoMessage (subType : Z) (value : Value) : list Effect :=
  let redisKey := KeyCBBattery in
  let '(intVal, intOk) := convertToInt value in
  let '(strVal, strOk) := convertToString value in
  let valueInt := if intOk then intVal else 0 in
  let isInt := intOk in
  let valueStr := if intOk then EmptyString else if strOk then strVal else EmptyString in
  let isString := negb intOk && strOk in
  let processed := intOk || strOk in
  if subType =? TypeBatteryInfoStatus then
    if isInt then
      if testbits valueInt MAX1730X_STATUS_CURR_MIN_ALERT then
        writeFaultToRedis KeyCBBatteryAlert KeyCBBattery 0 "Minimum Current Alert Threshold Exceeded" "alert"
      else if testbits valueInt MAX1730X_STATUS_CURR_MAX_ALERT then
        writeFaultToRedis KeyCBBatteryAlert KeyCBBattery 1 "Maximum Current Alert Threshold Exceeded" "alert"
      else if testbits valueInt MAX1730X_STATUS_VOLT_MIN_ALERT then
        writeFaultToRedis KeyCBBatteryAlert KeyCBBattery 2 "Minimum Voltage Alert Threshold Exceeded" "alert"
      else if testbits valueInt MAX1730X_STATUS_VOLT_MAX_ALERT then
        writeFaultToRedis KeyCBBatteryAlert KeyCBBattery 3 "Maximum Voltage Alert Threshold Exceeded" "alert"
      else if testbits valueInt MAX1730X_STATUS_TEMP_MIN_ALERT then
        writeFaultToRedis KeyCBBatteryAlert KeyCBBattery 4 "Minimum Temperature Alert Threshold Exceeded" "alert"
      else if testbits valueInt MAX1730X_STATUS_TEMP_MAX_ALERT then
        writeFaultToRedis KeyCBBatteryAlert KeyCBBattery 5 "Maximum Temperature Alert Threshold Exceeded" "alert"
      else if testbits valueInt MAX1730X_STATUS_SOC_MIN_ALERT then
        writeFaultToRedis KeyCBBatteryAlert KeyCBBattery 6 "Minimum SOC Alert Threshold Exceeded" "alert"
      else if testbits valueInt MAX1730X_STATUS_SOC_MAX_ALERT then
        writeFaultToRedis KeyCBBatteryAlert KeyCBBattery 7 "Maximum SOC Alert Threshold Exceeded" "alert"
      else if Z.land valueInt CB_BATTERY_STATUS_FILTER =? 0 then
        writeFaultToRedis KeyCBBatteryAlert KeyCBBattery 0xFF EmptyString "alert"
      else []
    else []
  else if subType =? TypeBatteryInfoProtectionStatus then
    if isInt then
      let dischargeFault :=
        testbits valueInt MAX1730X_PROTSTATUS_ODCP
        || testbits valueInt MAX1730X_PROTSTATUS_UVP
        || testbits valueInt MAX1730X_PROTSTATUS_TOOHOTD
        || testbits valueInt MAX1730X_PROTSTATUS_DIEHOT in
      let chargeFault :=
        testbits valueInt MAX1730X_PROTSTATUS_TOOCOLDC
        || testbits valueInt MAX1730X_PROTSTATUS_OVP
        || testbits valueInt MAX1730X_PROTSTATUS_OCCP
        || testbits valueInt MAX1730X_PROTSTATUS_QOVFLW
        || testbits valueInt MAX1730X_PROTSTATUS_TOOHOTC
        || testbits valueInt MAX1730X_PROTSTATUS_FULL
        || testbits valueInt MAX1730X_PROTSTATUS_DIEHOT in
      if dischargeFault then
        writeFaultToRedis KeyCBBatteryFault KeyCBBattery 0 "Discharging fault" "fault"
      else if chargeFault then
        writeFaultToRedis KeyCBBatteryFault KeyCBBattery 1 "Charging fault" "fault"
      else if Z.land valueInt CB_BATTERY_PROTECTION_STATUS_FILTER =? 0 then
        writeFaultToRedis KeyCBBatteryFault KeyCBBattery 0xFF EmptyString "fault"
      else []
    else []
  else if subType =? TypeBatteryInfoBattStatus then
    if isInt then
      if testbits valueInt MAX1730X_BATTSTATUS_CHG_FET_FAIL then
        writeFaultToRedis KeyCBBatteryFault KeyCBBattery 2 "ChargeFET Failure-Short Detected" "fault"
      else if testbits valueInt MAX1730X_BATTSTATUS_DISCHG_FET_FAIL then
        writeFaultToRedis KeyCBBatteryFault KeyCBBattery 3 "DischargeFET Failure-Short Detected" "fault"
      else if testbits valueInt MAX1730X_BATTSTATUS_FET_FAIL_OPEN then
        writeFaultToRedis KeyCBBatteryFault KeyCBBattery 4 "FET Failure open" "fault"
      else if Z.land valueInt CB_BATTERY_BATT_STATUS_FILTER =? 0 then
        writeFaultToRedis KeyCBBatteryFault KeyCBBattery 0xFF EmptyString "fault"
      else []
    else []
  else if negb processed then []
  else
    let intField (redisField : string) : list Effect :=
      if isInt then WriteInt redisKey redisField valueInt else [] in
    let stringField (redisField : string) : list Effect :=
      if isString then WriteString redisKey redisField valueStr else [] in
    if subType =? TypeBatteryInfoCharge then intField "charge"
    else if subType =? TypeBatteryInfoCurrent then intField "current"
    else if subType =? TypeBatteryInfoRemCapacity then intField "remaining-capacity"
    else if subType =? TypeBatteryInfoFullCapacity then intField "full-capacity"
    else if subType =? TypeBatteryInfoCellVoltage then intField "cell-voltage"
    else if subType =? TypeBatteryInfoTemp then intField "temperature"
    else if subType =? TypeBatteryInfoCycleCount then intField "cycle-count"
    else if subType =? TypeBatteryInfoTTE then intField "time-to-empty"
    else if subType =? TypeBatteryInfoTTF then intField "time-to-full"
    else if subType =? TypeBatteryInfoSOH then intField "state-of-health"
    else if subType =? TypeBatteryInfoUniqueID then stringField "unique-id"
    else if subType =? TypeBatteryInfoSerialNumber then stringField "serial-number"
    else if subType =? TypeBatteryInfoPartNo then
      if isInt then
        let valueStr :=
          if valueInt =? 5 then "MAX17301"
          else if valueInt =? 6 then "MAX17302"
          else if valueInt =? 7 then "MAX17303"
          else "MAX1730X (" +:+ itoa valueInt +:+ ")" in
        WriteString redisKey "part-number" valueStr
      else []
    else if subType =? TypeBatteryInfoPresent then
      if isInt then
        let presentBool := negb (valueInt =? 0) in
        let strVal := if presentBool then "true" else "false" in
        WriteString redisKey "present" strVal
      else []
    else if subType =? TypeBatteryInfoChargeStatus then
      if isInt then
        let valueStr :=
          if valueInt =? 0 then "not-charging"
          else if valueInt =? 1 then "charging"
          else "unknown" in
        WriteString redisKey "charge-status" valueStr
      else []
    else [].

(** [handleEventMessage]: the value must be a Go [string]. *)
Definition handleEventMessage (msgType absSubTypeKey : Z) (value : Value) : list Effect :=
  match value with
  | VString eventStr =>
      if String.eqb eventStr "scooter:state unlock" then LPush "scooter:state" "unlock"
      else if String.eqb eventStr "scooter:state lock" then LPush "scooter:state" "lock"
      else if String.eqb eventStr "scooter:seatbox open" then LPush "scooter:seatbox" "open"
      else if String.eqb eventStr "scooter:blinker right" then LPush "scooter:blinker" "right"
      else if String.eqb eventStr "scooter:blinker left" then LPush "scooter:blinker" "left"
      else if String.eqb eventStr "scooter:blinker both" then LPush "scooter:blinker" "both"
      else if String.eqb eventStr "scooter:blinker off" then LPush "scooter:blinker" "off"
      else []
  | _ => []
  end.

Definition handlePowerMuxMessage (subType : Z) (value : Value) : list Effect :=
  let '(powerMuxState, ok) := convertToInt value in
  if negb ok then []
  else
    let selectedInput := if powerMuxState =? 0 then "aux" else "cb" in
    WriteAndPublishString "power-mux" "selected-input" selectedInput.

(** ** The router: [HandleUSockMessage] *)

(** The relative subtype computed at the head of the loop body. *)
Definition relativeSubTypeOf (msgType absSubTypeKey : Z) : Z :=
  if absSubTypeKey >=? uint16 msgType then uint16 (absSubTypeKey - uint16 msgType)
  else 0.

(** The slot an absolute subtype key of the battery family is routed to
    ([0]: none). *)
Definition batterySlotOf (absSubTypeKey : Z) : Z :=
  if (absSubTypeKey >=? uint16 (uint16 TypeBattery + uint16 TypeBatterySlot1State))
     && (absSubTypeKey <=? uint16 (uint16 TypeBattery + uint16 TypeBatterySlot1Charge))
  then 1
  else if (absSubTypeKey >=? uint16 (uint16 TypeBattery + uint16 TypeBatterySlot2State))
          && (absSubTypeKey <=? uint16 (uint16 TypeBattery + uint16 TypeBatterySlot2Charge))
  then 2
  else 0.

(** The switch on the outer message type, with the relative subtype as
    computed by the caller. *)
Definition dispatch (msgType relativeSubType absSubTypeKey : Z) (value : Value) : list Effect :=
  if msgType =? TypeBattery then
    let slot := batterySlotOf absSubTypeKey in
    if negb (slot =? 0) then handleBatteryMessage relativeSubType value slot else []
  else if msgType =? TypeVehicleState then handleVehicleStateMessage relativeSubType value
  else if msgType =? TypeScooterInfo then handleScooterInfoMessage msgType absSubTypeKey value
  else if (msgType =? TypeBLEParam) || (msgType =? TypeBLEPairingPinDisplay)
          || (msgType =? TypeBLEPairingPinRemove) || (msgType =? TypeBLEStatus)
  then handleBLEParamMessage msgType absSubTypeKey value
  else if msgType =? TypeBLEVersion then handleBLEVersionMessage msgType absSubTypeKey value
  else if (msgType =? TypeBLEDebug) || (msgType =? TypeBLEReset)
  then handleBLEDebugMessage msgType absSubTypeKey value
  else if msgType =? TypeDataStream then handleDataStreamMessage relativeSubType value
  else if msgType =? TypePowerManagement then handlePowerManagementMessage relativeSubType value
  else if msgType =? TypeAuxBattery then handleAuxBatteryMessage relativeSubType value
  else if msgType =? TypeBLECommand then handleBLECommandMessage msgType absSubTypeKey value
  else if msgType =? TypeBatteryInfo then handleBatteryInfoMessage relativeSubType value
  else if msgType =? TypePowerMux then handlePowerMuxMessage relativeSubType value
  else if msgType =? 0x0000 then handleEventMessage msgType absSubTypeKey value
  else [].

(** The body of the loop over [paramMap]. *)
Definition handleEntry (msgType absSubTypeKey : Z) (value : Value) : list Effect :=
  dispatch msgType (relativeSubTypeOf msgType absSubTypeKey) absSubTypeKey value.

(** The conversion of the inner map to [paramMap]: entries whose key is a
    [uint64] of at most [0xFFFF] are kept, under the key truncated to
    sixteen bits. *)
Definition paramMapOf (interMap : list (Value * Value)) : list (Z * Value) :=
  flat_map (fun kv =>
    match fst kv with
    | VInteger KUint64 keyInt =>
        if keyInt >? 0xFFFF then [] else [(uint16 keyInt, snd kv)]
    | _ => []
    end) interMap.

(** The four-byte acknowledgement shape tested on the raw payload. *)
Definition isAckShape (frameID : Z) (data : list Z) : bool :=
  match data with
  | [d0; _; d2; d3] => (d0 =? 0xa1) && (d2 =? frameID) && (d3 =? 0xa0)
  | _ => false
  end.

(** [HandleUSockMessage].  [unmarshalled] is what
    [cbor.Unmarshal(payload.Data, &msgData)] returns: [None] for an error,
    otherwise the entries of [msgData]; the entries of a map are listed in
    the order in which Go's [range] visits them. *)
Definition HandleUSockMessage (frameID : Z) (payload : Usock.Payload)
    (unmarshalled : option (list (Z * Value))) : list Effect :=
  match unmarshalled with
  | None => []
  | Some msgData =>
      if negb (Z.of_nat (length msgData) =? 1) then
        if (Z.of_nat (length msgData) =? 0) && isAckShape frameID (Usock.payload_Data payload)
        then []   (* acknowledgement: logged by frame ID *)
        else []   (* unexpected top-level structure: logged *)
      else
        match msgData with
        | (absoluteMsgType, params) :: _ =>
            let msgType := absoluteMsgType in
            match params with
            | VMap interMap =>
                let paramMap := paramMapOf interMap in
                flat_map (fun kv => handleEntry msgType (fst kv) (snd kv)) paramMap
            | _ => []
            end
        | [] => []
        end
  end.

(** ** Outbound translation ([pkg/service/redis_handlers.go]) *)

Definition UpdateVehicleState (st : Store) : list Effect :=
  let state := match GetStateInt st KeyVehicle "state" with Some v => v | None => 0 end in
  writeUARTMessage TypeVehicleState TypeVehicleStateState (uint16 state).

Definition UpdateSeatboxLock (st : Store) : list Effect :=
  let state := match GetStateInt st KeyVehicle "seatbox:lock" with Some v => v | None => 0 end in
  writeUARTMessage TypeVehicleState TypeVehicleStateSeatbox (uint16 state).

Definition UpdateHandlebarLock (st : Store) : list Effect :=
  let stateInt :=
    match GetString st KeyVehicle "handlebar:lock-sensor" with
    | None => 0
    | Some stateStr =>
        if String.eqb stateStr "locked" then 0
        else if String.eqb stateStr "unlocked" then 1
        else 0
    end in
  writeUARTMessage TypeVehicleState TypeVehicleStateHandlebar stateInt.

Definition UpdateMileage (st : Store) : list Effect :=
  let mileage := match GetInt st KeyMileage "odometer" with Some v => v | None => 0 end in
  writeUARTMessage TypeScooterInfo TypeMileage (uint16 mileage).

Definition UpdateFirmwareVersion (st : Store) : list Effect :=
  let version := match GetString st KeyFirmwareVersion "mdb-version" with Some v => v | None => EmptyString end in
  writeUARTMessageString TypeScooterInfo TypeSoftwareVersion version.

Definition UpdateBatteryActiveStatus (st : Store) (slot : Z) : list Effect :=
  let key := if slot =? 2 then KeyBatterySlot2 else KeyBatterySlot1 in
  let baseSubType := if slot =? 2 then TypeBatterySlot2State else TypeBatterySlot1State in
  let stateStr := match GetString st key "state" with Some s => s | None => "unknown" end in
  let status := batteryStateToInt stateStr in
  writeUARTMessage TypeBattery baseSubType (uint16 status).

Definition UpdateBatteryPresentStatus (st : Store) (slot : Z) : list Effect :=
  let key := if slot =? 2 then KeyBatterySlot2 else KeyBatterySlot1 in
  let baseSubType := if slot =? 2 then TypeBatterySlot2Presence else TypeBatterySlot1Presence in
  let present :=
    match GetInt st key "present" with
    | Some v => v
    | None =>
        match GetString st key "present" with
        | None => 0
        | Some presentStr =>
            if String.eqb presentStr "true" || String.eqb presentStr "1" then 1 else 0
        end
    end in
  writeUARTMessage TypeBattery baseSubType (uint16 present).

Definition UpdateBatteryCycleCount (st : Store) (slot : Z) : list Effect :=
  let key := if slot =? 2 then KeyBatterySlot2 else KeyBatterySlot1 in
  let baseSubType := if slot =? 2 then TypeBatterySlot2CycleCount else TypeBatterySlot1CycleCount in
  let cycles := match GetInt st key "cycle-count" with Some v => v | None => 0 end in
  writeUARTMessage TypeBattery baseSubType (uint16 cycles).

Definition UpdateBatteryRemainingCharge (st : Store) (slot : Z) : list Effect :=
  let key := if slot =? 2 then KeyBatterySlot2 else KeyBatterySlot1 in
  let baseSubType := if slot =? 2 then TypeBatterySlot2Charge else TypeBatterySlot1Charge in
  let charge := match GetInt st key "charge" with Some v => v | None => 0 end in
  writeUARTMessage TypeBattery baseSubType (uint16 charge).

Definition UpdatePowerManagementState (st : Store) : list Effect :=
  let stateStr := match GetString st KeyPowerManager "state" with Some s => s | None => "running" end in
  let stateInt :=
    if String.eqb stateStr "running" then 1
    else if String.eqb stateStr "suspending" then 0
    else if String.eqb stateStr "hibernating" then 2
    else if String.eqb stateStr "hibernating-l2" then 2
    else if String.eqb stateStr "suspending-imminent" then 3
    else if String.eqb stateStr "hibernating-imminent" then 4
    else if String.eqb stateStr "reboot" then 5
    else if String.eqb stateStr "reboot-imminent" then 1
    else 1 in
  writeUARTMessage TypePowerManagement TypePowerManagementState stateInt
  ++ (if String.eqb stateStr "hibernating-l2" then
        let level := 1 in
        writeUARTMessage TypePowerManagement TypePowerManagementPowerRequest level
      else []).

(** The channels [SubscribeToRedisChannels] subscribes to, each once. *)
Definition channels : list string :=
  [KeyVehicle; KeyBatterySlot1; KeyBatterySlot2; KeyPowerManager; KeyMileage;
   KeyFirmwareVersion; KeyBLEPairingPin].

Fixpoint uniqueOf (processedKeys : list string) (chs : list string) : list string :=
  match chs with
  | [] => []
  | ch :: rest =>
      if existsb (String.eqb ch) processedKeys then uniqueOf processedKeys rest
      else ch :: uniqueOf (ch :: processedKeys) rest
  end.

Definition uniqueChannels : list string := uniqueOf [] channels.

(** The body of the loop of the subscriber of channel [chName], for a
    message whose payload is [field]. *)
Definition onRedisMessage (st : Store) (chName field : string) : list Effect :=
  if String.eqb chName KeyVehicle then
    if String.eqb field "state" then UpdateVehicleState st
    else if String.eqb field "seatbox:lock" then UpdateSeatboxLock st
    else if String.eqb field "handlebar:lock-sensor" then UpdateHandlebarLock st
    else []
  else if String.eqb chName KeyBatterySlot1 then
    if String.eqb field "state" then UpdateBatteryActiveStatus st 1
    else if String.eqb field "present" then
      UpdateBatteryPresentStatus st 1 ++ UpdateBatteryCycleCount st 1
    else if String.eqb field "charge" then UpdateBatteryRemainingCharge st 1
    else if String.eqb field "cycle-count" then UpdateBatteryCycleCount st 1
    else []
  else if String.eqb chName KeyBatterySlot2 then
    if String.eqb field "state" then UpdateBatteryActiveStatus st 2
    else if String.eqb field "present" then
      UpdateBatteryPresentStatus st 2 ++ UpdateBatteryCycleCount st 2
    else if String.eqb field "charge" then UpdateBatteryRemainingCharge st 2
    else if String.eqb field "cycle-count" then UpdateBatteryCycleCount st 2
    else []
  else if String.eqb chName KeyPowerManager then
    if String.eqb field "state" then UpdatePowerManagementState st else []
  else if String.eqb chName KeyMileage then
    if String.eqb field "odometer" then UpdateMileage st else []
  else if String.eqb chName KeyFirmwareVersion then
    if String.eqb field "mdb-version" then UpdateFirmwareVersion st else []
  else if String.eqb chName KeyBLEPairingPin then
    if String.eqb field "pin-code" then
      match GetString st KeyBLEPairingPin "pin-code" with
      | None => writeUARTMessage TypeBLEPairingPinRemove 0 1
      | Some pin =>
          if String.eqb pin EmptyString then writeUARTMessage TypeBLEPairingPinRemove 0 1
          else []
      end
    else []
  else [].

(** A message published on [channel] reaches the subscriber of that
    channel, if the service has one. *)
Definition deliver (st : Store) (channel message : string) : list Effect :=
  if existsb (String.eqb channel) uniqueChannels then onRedisMessage st channel message
  else [].

(** The messages a sequence of store operations publishes. *)
Definition published (es : list Effect) : list (string * string) :=
  flat_map (fun e => match e with EPublish ch m => [(ch, m)] | _ => [] end) es.

(** The frames a sequence of operations sends to the device. *)
Definition sent (es : list Effect) : list (Z * Envelope) :=
  flat_map (fun e => match e with EWriteWithFrameID i m => [(i, m)] | _ => [] end) es.

(** The body of the loop of [WatchRedisCommands] for one command popped
    from the list. *)
Definition handleCommand (command : string) : list Effect :=
  if String.eqb command "advertising-start-with-whitelisting" then
    writeUARTMessage TypeBLECommand BLECommandAdvStartWithWhitelist 0
  else if String.eqb command "advertising-restart-no-whitelisting" then
    writeUARTMessage TypeBLECommand BLECommandAdvRestartNoWhitelist 0
  else if String.eqb command "advertising-stop" then
    writeUARTMessage TypeBLECommand BLECommandAdvStop 0
  else if String.eqb command "delete-bond" then
    writeUARTMessage TypeBLECommand BLECommandDeleteBond 0
  else if String.eqb command "delete-all-bonds" then
    writeUARTMessage TypeBLECommand BLECommandDeleteAllBonds 0
  else if String.eqb command "remove" then
    writeUARTMessage TypeBLEPairingPinRemove 0 1
  else [].

(** [InitializeNRF52]: the six commands of the initialization sequence, in
    order (the pauses between them are left out). *)
Definition InitializeNRF52 : list Effect :=
  writeUARTMessage TypeDataStream TypeDataStreamEnable 0
  ++ writeUARTMessage TypeBLEVersion TypeBLEVersionString 0
  ++ writeUARTMessage TypeBLEParam TypeBLEParamMACAddress 0
  ++ writeUARTMessage TypeDataStream TypeDataStreamEnable 1
  ++ writeUARTMessage TypeDataStream TypeDataStreamSync 1
  ++ writeUARTMessage TypeBLECommand BLECommandAdvRestartNoWhitelist 0.

End Platform.

End Service.

(** * Reference definitions, written from the specification

    These follow the words of the specification and are compared with the
    code in the theorems below. *)

Module Reference.

(** CRC-16/ARC: polynomial [0xA001] (reflected), initial value 0, no final
    XOR, one bit at a time. *)
Definition crc16_arc_bit (crc : Z) : Z :=
  if Z.odd crc then Z.lxor (Z.shiftr crc 1) 0xA001 else Z.shiftr crc 1.

Definition crc16_arc_byte (crc b : Z) : Z :=
  Nat.iter 8 crc16_arc_bit (Z.lxor crc b).

Definition crc16_arc (data : list Z) : Z := fold_left crc16_arc_byte data 0.

(** The header CRC field of a frame on the wire: the sixth and seventh
    byte, little-endian. *)
Definition storedHeaderCRC (bs : list Z) : Z :=
  Z.lor (nth 5 bs 0) (Z.shiftl (nth 6 bs 0) 8).

(** The status bits of battery-info subtype 8 in the order in which they
    are checked, each with its message. *)
Definition statusAlerts : list (Z * string) :=
  [(0x0004, "Minimum Current Alert Threshold Exceeded");
   (0x0040, "Maximum Current Alert Threshold Exceeded");
   (0x0100, "Minimum Voltage Alert Threshold Exceeded");
   (0x1000, "Maximum Voltage Alert Threshold Exceeded");
   (0x0200, "Minimum Temperature Alert Threshold Exceeded");
   (0x2000, "Maximum Temperature Alert Threshold Exceeded");
   (0x0400, "Minimum SOC Alert Threshold Exceeded");
   (0x4000, "Maximum SOC Alert Threshold Exceeded")].

(** The message of the first bit of [statusAlerts] set in [v], if any. *)
Definition firstAlert (v : Z) : option string :=
  option_map snd (find (fun p => negb (Z.land v (fst p) =? 0)) statusAlerts).

(** The union of the eight status bits. *)
Definition statusMask : Z := 0x7744.

(** Power-management state string mapping. *)
Definition powerStateTable : list (string * Z) :=
  [("running", 1); ("suspending", 0); ("hibernating", 2); ("hibernating-l2", 2);
   ("suspending-imminent", 3); ("hibernating-imminent", 4); ("reboot", 5);
   ("reboot-imminent", 1)].

Fixpoint lookupString (table : list (string * Z)) (s : string) : option Z :=
  match table with
  | [] => None
  | (k, v) :: rest => if String.eqb s k then Some v else lookupString rest s
  end.

Definition powerStateImage (s : string) : Z :=
  match lookupString powerStateTable s with
  | Some v => v
  | None => 1
  end.

(** Battery-state mapping: unknown=0, asleep=1, idle=2, active=3, any
    unrecognized string 0. *)
Definition batteryStateTable : list (string * Z) :=
  [("unknown", 0); ("asleep", 1); ("idle", 2); ("active", 3)].

Definition batteryStateImage (s : string) : Z :=
  match lookupString batteryStateTable s with
  | Some v => v
  | None => 0
  end.

(** The bytes successive calls of [WriteWithFrameID] put on the line, one
    frame after the other; [None] if one of the calls returns an error. *)
Fixpoint writeAll (frames : list (Z * list Z)) : option (list Z) :=
  match frames with
  | [] => Some []
  | (frameID, data) :: rest =>
      match Usock.WriteWithFrameID frameID data, writeAll rest with
      | Some bs, Some bss => Some (bs ++ bss)
      | _, _ => None
      end
  end.

(** The number of bytes of the frame under way that a receiver in a given
    state has taken at least. *)
Definition bytesTaken (s : Usock.State) : Z :=
  match s with
  | Usock.StateSync1 => 0
  | Usock.StateSync2 => 1
  | Usock.StateFrameID => 2
  | Usock.StatePayloadLen1 => 3
  | Usock.StatePayloadLen2 => 4
  | Usock.StateHeaderCRC1 => 5
  | Usock.StateHeaderCRC2 => 6
  | Usock.StatePayload => 7
  | Usock.StatePayloadCRC1 => 8
  | Usock.StatePayloadCRC2 => 9
  end.

(** What the receiver keeps between bytes: once the header is accepted the
    announced length is at most 1024; while the payload is read it is also
    the buffer and is shorter than announced (or still empty); once the
    payload is complete it has 1 to 1024 bytes. *)
Definition receiverInvariant (u : Usock.USOCK) : Prop :=
  match Usock.state u with
  | Usock.StateHeaderCRC1 | Usock.StateHeaderCRC2 =>
      Usock.frame_PayloadLen (Usock.frame u) <= 1024
  | Usock.StatePayload =>
      Usock.frame_PayloadLen (Usock.frame u) <= 1024 /\
      Usock.buffer u = Usock.frame_Payload (Usock.frame u) /\
      (Usock.frame_Payload (Usock.frame u) = [] \/
       Usock.len (Usock.frame_Payload (Usock.frame u)) < Usock.frame_PayloadLen (Usock.frame u))
  | Usock.StatePayloadCRC1 | Usock.StatePayloadCRC2 =>
      Usock.buffer u = Usock.frame_Payload (Usock.frame u) /\
      1 <= Usock.len (Usock.frame_Payload (Usock.frame u)) <= 1024
  | _ => True
  end.

(** The keys of the store the CB battery handler works on. *)
Definition cbBatteryKeys : list string :=
  ["cb-battery"; "cb-battery:alert"; "cb-battery:fault"].

(** The battery-info subtypes whose value is stored as an integer, with
    the field each is stored in. *)
Definition cbBatteryIntFields : list (Z * string) :=
  [(1, "charge"); (2, "current"); (3, "remaining-capacity"); (4, "full-capacity");
   (5, "cell-voltage"); (6, "temperature"); (7, "cycle-count"); (9, "time-to-empty");
   (10, "time-to-full"); (12, "state-of-health")].

(** The battery-info subtypes whose value is stored as a string. *)
Definition cbBatteryStringFields : list (Z * string) :=
  [(13, "unique-id"); (14, "serial-number")].

(** The key an operation on the store is made on, if it is one. *)
Definition storeKey (e : Service.Effect) : option string :=
  match e with
  | Service.EHSet key _ _ => Some key
  | Service.EHDel key _ => Some key
  | Service.EPublish channel _ => Some channel
  | Service.ELPush key _ => Some key
  | Service.EWriteWithFrameID _ _ => None
  end.

Definition isSend (e : Service.Effect) : bool :=
  match e with
  | Service.EWriteWithFrameID _ _ => true
  | _ => false
  end.

End Reference.

(** * Properties of the frame codec *)

Module UsockFacts.
Import Usock.

(** ** Sixteen-bit arithmetic *)

Lemma lxor_uint16 (a b : Z) : is_uint16 a -> is_uint16 b -> is_uint16 (Z.lxor a b).
Proof.
  unfold is_uint16. intros [Ha0 Ha] [Hb0 Hb].
  assert (H0 : 0 <= Z.lxor a b) by (apply Z.lxor_nonneg; lia).
  split; [exact H0 |].
  destruct (Z.eq_dec (Z.lxor a b) 0) as [E | N]; [lia |].
  change 65536 with (2 ^ 16). apply Z.log2_lt_pow2; [lia |].
  pose proof (Z.log2_lxor a b Ha0 Hb0) as Hl.
  assert (La : Z.log2 a < 16).
  { destruct (Z.eq_dec a 0) as [-> | ?]; [reflexivity |].
    apply Z.log2_lt_pow2; [lia | exact Ha]. }
  assert (Lb : Z.log2 b < 16).
  { destruct (Z.eq_dec b 0) as [-> | ?]; [reflexivity |].
    apply Z.log2_lt_pow2; [lia | exact Hb]. }
  lia.
Qed.

Lemma shiftr8_uint16 (c : Z) : is_uint16 c -> is_uint16 (Z.shiftr c 8).
Proof.
  unfold is_uint16. intros [H0 H]. rewrite Z.shiftr_div_pow2 by lia.
  change (2 ^ 8) with 256. split.
  - apply Z.div_pos; lia.
  - apply Z.div_lt_upper_bound; lia.
Qed.

Lemma split_join_bits (c : Z) :
  0 <= c -> Z.lor (c mod 256) (Z.shiftl (c / 256) 8) = c.
Proof.
  intros H0. apply Z.bits_inj'. intros n Hn.
  rewrite Z.lor_spec, Z.shiftl_spec by exact Hn.
  change 256 with (2 ^ 8).
  destruct (Z.lt_ge_cases n 8) as [Hlt | Hge].
  - rewrite Z.mod_pow2_bits_low by lia.
    rewrite (Z.testbit_neg_r _ (n - 8)) by lia. apply orb_false_r.
  - rewrite Z.mod_pow2_bits_high by lia.
    rewrite <- Z.shiftr_div_pow2 by lia.
    rewrite Z.shiftr_spec by lia. simpl. f_equal. lia.
Qed.

Lemma uint16_small (z : Z) : is_uint16 z -> uint16 z = z.
Proof. unfold is_uint16, uint16. intros H. apply Z.mod_small. exact H. Qed.

Lemma uint8_small (z : Z) : is_byte z -> uint8 z = z.
Proof. unfold is_byte, uint8. intros H. apply Z.mod_small. exact H. Qed.

Lemma lo_is_byte (c : Z) : is_byte (c mod 256).
Proof. unfold is_byte. apply Z.mod_pos_bound. lia. Qed.

Lemma hi_is_byte (c : Z) : is_uint16 c -> is_byte (c / 256).
Proof.
  unfold is_uint16, is_byte. intros [H0 H]. split.
  - apply Z.div_pos; lia.
  - apply Z.div_lt_upper_bound; lia.
Qed.

Lemma byte_is_uint16 (b : Z) : is_byte b -> is_uint16 b.
Proof. unfold is_byte, is_uint16. lia. Qed.

(** The two bytes a 16-bit value is sent as ([byte(v & 0xFF)] and
    [byte((v >> 8) & 0xFF)]) are its little-endian digits. *)
Lemma lo_byte (c : Z) : uint8 (Z.land c 0xFF) = c mod 256.
Proof.
  unfold uint8. change 0xFF with (Z.ones 8). rewrite Z.land_ones by lia.
  change (2 ^ 8) with 256. apply Z.mod_mod. lia.
Qed.

Lemma hi_byte (c : Z) : is_uint16 c -> uint8 (Z.land (Z.shiftr c 8) 0xFF) = c / 256.
Proof.
  intros H. rewrite lo_byte. rewrite Z.shiftr_div_pow2 by lia.
  change (2 ^ 8) with 256. apply Z.mod_small. apply (hi_is_byte c H).
Qed.

Lemma put_hi_byte (c : Z) : is_uint16 c -> uint8 (Z.shiftr c 8) = c / 256.
Proof.
  intros H. unfold uint8. rewrite Z.shiftr_div_pow2 by lia.
  change (2 ^ 8) with 256. apply Z.mod_small. apply (hi_is_byte c H).
Qed.

(** What the receiver rebuilds from the two bytes:
    [uint16(lo) | uint16(hi) << 8]. *)
Lemma join_bytes (c : Z) :
  is_uint16 c ->
  Z.lor (uint16 (c mod 256)) (uint16 (Z.shiftl (uint16 (c / 256)) 8)) = c.
Proof.
  intros H. pose proof (hi_is_byte c H) as Hh. pose proof (lo_is_byte c) as Hl.
  rewrite (uint16_small (c mod 256)) by (apply byte_is_uint16; exact Hl).
  rewrite (uint16_small (c / 256)) by (apply byte_is_uint16; exact Hh).
  rewrite (uint16_small (Z.shiftl (c / 256) 8)).
  - apply split_join_bits. destruct H; assumption.
  - unfold is_uint16, is_byte in *. rewrite Z.shiftl_mul_pow2 by lia.
    change (2 ^ 8) with 256. lia.
Qed.

(** ** The CRC stays within sixteen bits *)

Lemma crc16Table_bounded : Forall is_uint16 crc16Table.
Proof. unfold crc16Table, is_uint16. repeat (constructor; [lia |]). constructor. Qed.

Lemma crc16Table_nth (i : nat) : is_uint16 (nth i crc16Table 0).
Proof.
  destruct (nth_in_or_default i crc16Table 0) as [Hin | ->].
  - pose proof crc16Table_bounded as HF. rewrite List.Forall_forall in HF.
    apply HF. exact Hin.
  - unfold is_uint16. lia.
Qed.

Lemma crc16_update_bounded (crc b : Z) : is_uint16 crc -> is_uint16 (crc16_update crc b).
Proof.
  intros H. unfold crc16_update.
  apply lxor_uint16; [apply shiftr8_uint16; exact H | apply crc16Table_nth].
Qed.

Lemma calculateCRC16_bounded (data : list Z) (seed : Z) :
  is_uint16 seed -> is_uint16 (calculateCRC16 data seed).
Proof.
  unfold calculateCRC16. revert seed.
  induction data as [| b data IH]; intros seed H; simpl; [exact H |].
  apply IH. apply crc16_update_bounded. exact H.
Qed.

Lemma calculateCRC16_0_bounded (data : list Z) : is_uint16 (calculateCRC16 data 0).
Proof. apply calculateCRC16_bounded. unfold is_uint16. lia. Qed.

(** ** Feeding bytes *)

Lemma feed_cons (u : USOCK) (b : Z) (bs : list Z) :
  feed u (b :: bs) =
  (after (fst (processByte u b)) bs,
   match snd (processByte u b) with
   | Some p => p :: delivered (fst (processByte u b)) bs
   | None => delivered (fst (processByte u b)) bs
   end).
Proof.
  unfold after, delivered. simpl.
  destruct (processByte u b) as [u1 o]. simpl.
  destruct (feed u1 bs) as [u2 out]. reflexivity.
Qed.

(** Feeding [xs ++ ys] is feeding [xs] and then [ys]. *)
Lemma feed_app (u : USOCK) (xs ys : list Z) :
  feed u (xs ++ ys) =
  (after (after u xs) ys, delivered u xs ++ delivered (after u xs) ys).
Proof.
  revert u. induction xs as [| x xs IH]; intros u.
  - unfold after, delivered. simpl. destruct (feed u ys); reflexivity.
  - unfold after, delivered. simpl.
    destruct (processByte u x) as [u1 o]. rewrite IH.
    unfold after, delivered. destruct (feed u1 xs) as [u2 o2]. simpl.
    destruct (feed u2 ys) as [u3 o3]. simpl.
    destruct o; reflexivity.
Qed.

Lemma after_app (u : USOCK) (xs ys : list Z) :
  after u (xs ++ ys) = after (after u xs) ys.
Proof. unfold after at 1. rewrite feed_app. reflexivity. Qed.

Lemma delivered_app (u : USOCK) (xs ys : list Z) :
  delivered u (xs ++ ys) = delivered u xs ++ delivered (after u xs) ys.
Proof. unfold delivered at 1. rewrite feed_app. reflexivity. Qed.

(** ** Single steps of the receiver *)

Lemma feed_none (u u1 : USOCK) (b : Z) (bs : list Z) :
  processByte u b = (u1, None) -> feed u (b :: bs) = feed u1 bs.
Proof. intros H. simpl. rewrite H. destruct (feed u1 bs); reflexivity. Qed.

Lemma feed_some (u u1 : USOCK) (p : Payload) (b : Z) (bs : list Z) :
  processByte u b = (u1, Some p) ->
  feed u (b :: bs) = (after u1 bs, p :: delivered u1 bs).
Proof.
  intros H. unfold after, delivered. simpl. rewrite H.
  destruct (feed u1 bs); reflexivity.
Qed.

Lemma step_Sync1_sync (f : Frame) (buf : list Z) :
  processByte (mkUSOCK StateSync1 f buf) SyncByte1 =
  (mkUSOCK StateSync2 f [SyncByte1], None).
Proof. reflexivity. Qed.

Lemma step_Sync1_other (f : Frame) (buf : list Z) (b : Z) :
  b <> SyncByte1 ->
  processByte (mkUSOCK StateSync1 f buf) b = (mkUSOCK StateSync1 f buf, None).
Proof.
  intros H. unfold processByte. cbn [state].
  destruct (Z.eqb_spec b SyncByte1); [contradiction | reflexivity].
Qed.

Lemma step_Sync2_sync (f : Frame) (buf : list Z) :
  processByte (mkUSOCK StateSync2 f buf) SyncByte2 =
  (mkUSOCK StateFrameID f (buf ++ [SyncByte2]), None).
Proof. reflexivity. Qed.

Lemma step_Sync2_other (f : Frame) (buf : list Z) (b : Z) :
  b <> SyncByte2 ->
  processByte (mkUSOCK StateSync2 f buf) b = (mkUSOCK StateSync1 f buf, None).
Proof.
  intros H. unfold processByte. cbn [state].
  destruct (Z.eqb_spec b SyncByte2); [contradiction | reflexivity].
Qed.

Lemma step_FrameID (f : Frame) (buf : list Z) (b : Z) :
  processByte (mkUSOCK StateFrameID f buf) b =
  (mkUSOCK StatePayloadLen1
     (mkFrame b (frame_PayloadLen f) (frame_HeaderCRC f) (frame_Payload f) (frame_PayloadCRC f))
     (buf ++ [b]), None).
Proof. reflexivity. Qed.

Lemma step_PayloadLen1 (f : Frame) (buf : list Z) (b : Z) :
  processByte (mkUSOCK StatePayloadLen1 f buf) b =
  (mkUSOCK StatePayloadLen2
     (mkFrame (frame_ID f) (uint16 b) (frame_HeaderCRC f) (frame_Payload f) (frame_PayloadCRC f))
     (buf ++ [b]), None).
Proof. reflexivity. Qed.

Lemma step_PayloadLen2 (f : Frame) (buf : list Z) (b : Z) :
  let plen := Z.lor (frame_PayloadLen f) (uint16 (Z.shiftl (uint16 b) 8)) in
  processByte (mkUSOCK StatePayloadLen2 f buf) b =
  (mkUSOCK (if plen >? MaxPayloadLength then StateSync1 else StateHeaderCRC1)
     (mkFrame (frame_ID f) plen (calculateCRC16 (buf ++ [b]) 0) (frame_Payload f) (frame_PayloadCRC f))
     (buf ++ [b]), None).
Proof.
  intros plen. unfold processByte. cbn [state frame buffer]. fold plen.
  destruct (plen >? MaxPayloadLength); reflexivity.
Qed.

Lemma step_HeaderCRC1 (f : Frame) (buf : list Z) (b : Z) :
  processByte (mkUSOCK StateHeaderCRC1 f buf) b =
  (mkUSOCK StateHeaderCRC2
     (mkFrame (frame_ID f) (frame_PayloadLen f) (uint16 b) (frame_Payload f) (frame_PayloadCRC f))
     buf, None).
Proof. reflexivity. Qed.

(** The header check: the receiver goes on to the payload exactly when the
    two CRC bytes received rebuild the CRC of the buffered header. *)
Lemma step_HeaderCRC2 (f : Frame) (buf : list Z) (b : Z) :
  let hcrc := Z.lor (frame_HeaderCRC f) (uint16 (Z.shiftl (uint16 b) 8)) in
  processByte (mkUSOCK StateHeaderCRC2 f buf) b =
  if calculateCRC16 buf 0 =? hcrc then
    (mkUSOCK StatePayload
       (mkFrame (frame_ID f) (frame_PayloadLen f) hcrc [] (frame_PayloadCRC f)) [], None)
  else
    (mkUSOCK StateSync1
       (mkFrame (frame_ID f) (frame_PayloadLen f) hcrc (frame_Payload f) (frame_PayloadCRC f))
       buf, None).
Proof.
  intros hcrc. unfold processByte. cbn [state frame buffer]. fold hcrc.
  destruct (calculateCRC16 buf 0 =? hcrc); reflexivity.
Qed.

Lemma step_Payload_more (f : Frame) (buf : list Z) (b : Z) :
  uint16 (len (frame_Payload f ++ [b])) < frame_PayloadLen f ->
  processByte (mkUSOCK StatePayload f buf) b =
  (mkUSOCK StatePayload
     (mkFrame (frame_ID f) (frame_PayloadLen f) (frame_HeaderCRC f)
        (frame_Payload f ++ [b]) (frame_PayloadCRC f))
     (buf ++ [b]), None).
Proof.
  intros H. unfold processByte. cbn [state frame buffer].
  replace (uint16 (len (frame_Payload f ++ [b])) >=? frame_PayloadLen f) with false;
    [reflexivity |].
  symmetry. rewrite Z.geb_leb. apply Z.leb_gt. exact H.
Qed.

Lemma step_Payload_last (f : Frame) (buf : list Z) (b : Z) :
  frame_PayloadLen f <= uint16 (len (frame_Payload f ++ [b])) ->
  processByte (mkUSOCK StatePayload f buf) b =
  (mkUSOCK StatePayloadCRC1
     (mkFrame (frame_ID f) (frame_PayloadLen f) (frame_HeaderCRC f)
        (frame_Payload f ++ [b]) (calculateCRC16 (buf ++ [b]) 0))
     (buf ++ [b]), None).
Proof.
  intros H. unfold processByte. cbn [state frame buffer].
  replace (uint16 (len (frame_Payload f ++ [b])) >=? frame_PayloadLen f) with true;
    [reflexivity |].
  symmetry. apply Z.geb_le. exact H.
Qed.

Lemma step_PayloadCRC1 (f : Frame) (buf : list Z) (b : Z) :
  processByte (mkUSOCK StatePayloadCRC1 f buf) b =
  (mkUSOCK StatePayloadCRC2
     (mkFrame (frame_ID f) (frame_PayloadLen f) (frame_HeaderCRC f) (frame_Payload f) (uint16 b))
     buf, None).
Proof. reflexivity. Qed.

Lemma step_PayloadCRC2 (f : Frame) (buf : list Z) (b : Z) :
  let pcrc := Z.lor (frame_PayloadCRC f) (uint16 (Z.shiftl (uint16 b) 8)) in
  let f' := mkFrame (frame_ID f) (frame_PayloadLen f) (frame_HeaderCRC f) (frame_Payload f) pcrc in
  processByte (mkUSOCK StatePayloadCRC2 f buf) b =
  if calculateCRC16 buf 0 =? pcrc then
    (mkUSOCK StateSync1 f' buf,
     Some (mkPayload (frame_ID f) (frame_Payload f) (len (frame_Payload f))))
  else (mkUSOCK StateSync1 f' buf, None).
Proof.
  intros pcrc f'. unfold processByte. cbn [state frame buffer]. fold pcrc. fold f'.
  destruct (calculateCRC16 buf 0 =? pcrc); reflexivity.
Qed.

(** ** The three phases of a frame *)

(** Header: from [StateSync1], whatever the receiver holds from earlier
    bytes, the five header bytes lead to [StateHeaderCRC1] with exactly
    these five bytes buffered. *)
Lemma feed_header_bytes (f : Frame) (buf : list Z) (frameID n : Z) (rest : list Z) :
  0 <= n <= MaxPayloadLength ->
  let hdr := [SyncByte1; SyncByte2; frameID] ++ PutUint16 n in
  feed (mkUSOCK StateSync1 f buf) (hdr ++ rest) =
  feed (mkUSOCK StateHeaderCRC1
          (mkFrame frameID n (calculateCRC16 hdr 0) (frame_Payload f) (frame_PayloadCRC f))
          hdr) rest.
Proof.
  intros Hn hdr.
  assert (Hn16 : is_uint16 n) by (unfold is_uint16, MaxPayloadLength in *; lia).
  assert (Hlen : Z.lor (uint16 (uint8 n)) (uint16 (Z.shiftl (uint16 (uint8 (Z.shiftr n 8))) 8)) = n).
  { rewrite (put_hi_byte n Hn16). unfold uint8 at 1. apply join_bytes. exact Hn16. }
  subst hdr. unfold PutUint16 in *. cbn [app] in *.
  rewrite (feed_none _ _ _ _ (step_Sync1_sync _ _)).
  rewrite (feed_none _ _ _ _ (step_Sync2_sync _ _)).
  rewrite (feed_none _ _ _ _ (step_FrameID _ _ _)).
  rewrite (feed_none _ _ _ _ (step_PayloadLen1 _ _ _)).
  rewrite (feed_none _ _ _ _ (step_PayloadLen2 _ _ _)).
  cbn [app frame_ID frame_PayloadLen frame_HeaderCRC frame_Payload frame_PayloadCRC].
  rewrite Hlen.
  replace (n >? MaxPayloadLength) with false by (symmetry; rewrite Z.gtb_ltb; apply Z.ltb_ge; lia).
  reflexivity.
Qed.

(** The two bytes that follow the header are compared, little-endian, with
    the CRC of the five buffered bytes. *)
Lemma feed_header_crc (f : Frame) (hdr : list Z) (c1 c2 : Z) (rest : list Z) :
  let hcrc := Z.lor (uint16 c1) (uint16 (Z.shiftl (uint16 c2) 8)) in
  feed (mkUSOCK StateHeaderCRC1 f hdr) (c1 :: c2 :: rest) =
  if calculateCRC16 hdr 0 =? hcrc then
    feed (mkUSOCK StatePayload
            (mkFrame (frame_ID f) (frame_PayloadLen f) hcrc [] (frame_PayloadCRC f)) []) rest
  else
    feed (mkUSOCK StateSync1
            (mkFrame (frame_ID f) (frame_PayloadLen f) hcrc (frame_Payload f) (frame_PayloadCRC f))
            hdr) rest.
Proof.
  intros hcrc.
  rewrite (feed_none _ _ _ _ (step_HeaderCRC1 _ _ _)).
  pose proof (step_HeaderCRC2
                (mkFrame (frame_ID f) (frame_PayloadLen f) (uint16 c1)
                   (frame_Payload f) (frame_PayloadCRC f)) hdr c2) as Hstep.
  cbn [frame_ID frame_PayloadLen frame_HeaderCRC frame_Payload frame_PayloadCRC] in Hstep.
  cbv zeta in Hstep. fold hcrc in Hstep.
  destruct (calculateCRC16 hdr 0 =? hcrc); rewrite (feed_none _ _ _ _ Hstep); reflexivity.
Qed.

(** With the CRC of the header as the encoder sends it, the receiver goes
    on to [StatePayload] with the frame ID and payload length of the
    header, an empty payload and an empty buffer. *)
Lemma feed_header (f : Frame) (buf : list Z) (frameID n : Z) (rest : list Z) :
  0 <= n <= MaxPayloadLength ->
  let hdr := [SyncByte1; SyncByte2; frameID] ++ PutUint16 n in
  let crc := calculateCRC16 hdr 0 in
  feed (mkUSOCK StateSync1 f buf)
       (hdr ++ [uint8 (Z.land crc 0xFF); uint8 (Z.land (Z.shiftr crc 8) 0xFF)] ++ rest) =
  feed (mkUSOCK StatePayload (mkFrame frameID n crc [] (frame_PayloadCRC f)) []) rest.
Proof.
  intros Hn hdr crc.
  assert (Hcrc : is_uint16 crc) by apply calculateCRC16_0_bounded.
  assert (Hjoin : Z.lor (uint16 (uint8 (Z.land crc 0xFF)))
                        (uint16 (Z.shiftl (uint16 (uint8 (Z.land (Z.shiftr crc 8) 0xFF))) 8)) = crc).
  { rewrite lo_byte, (hi_byte crc Hcrc). apply join_bytes. exact Hcrc. }
  rewrite (feed_header_bytes f buf frameID n _ Hn). cbn [app].
  rewrite feed_header_crc.
  cbn [frame_ID frame_PayloadLen frame_HeaderCRC frame_Payload frame_PayloadCRC].
  fold hdr. fold crc. rewrite Hjoin, Z.eqb_refl. reflexivity.
Qed.

(** Payload: in [StatePayload], with [acc] received so far, the bytes that
    complete a payload of [n <= 1024] bytes are accumulated and the receiver
    then expects the payload CRC. *)
Lemma feed_payload (rest acc tail : list Z) (frameID n hcrc pcrc : Z) :
  rest <> [] -> len acc + len rest = n -> n <= MaxPayloadLength ->
  feed (mkUSOCK StatePayload (mkFrame frameID n hcrc acc pcrc) acc) (rest ++ tail) =
  feed (mkUSOCK StatePayloadCRC1
          (mkFrame frameID n hcrc (acc ++ rest) (calculateCRC16 (acc ++ rest) 0))
          (acc ++ rest)) tail.
Proof.
  revert acc pcrc. induction rest as [| b rest IH]; intros acc pcrc Hne Hlen Hmax;
    [contradiction |].
  rewrite <- app_comm_cons.
  assert (Hacc : len (acc ++ [b]) = len acc + 1).
  { unfold len. rewrite length_app. simpl. lia. }
  assert (Hrest : len (b :: rest) = len rest + 1).
  { unfold len. simpl length. lia. }
  assert (H0a : 0 <= len acc) by (unfold len; lia).
  assert (H0r : 0 <= len rest) by (unfold len; lia).
  unfold MaxPayloadLength in Hmax.
  assert (Hsmall : uint16 (len (acc ++ [b])) = len acc + 1).
  { rewrite uint16_small; [exact Hacc | unfold is_uint16; lia]. }
  destruct rest as [| b' rest'].
  - assert (Hlast : frame_PayloadLen (mkFrame frameID n hcrc acc pcrc) <=
                    uint16 (len (frame_Payload (mkFrame frameID n hcrc acc pcrc) ++ [b]))).
    { cbn [frame_PayloadLen frame_Payload]. rewrite Hsmall.
      change (len []) with 0 in Hrest. lia. }
    rewrite (feed_none _ _ _ _ (step_Payload_last _ acc b Hlast)).
    reflexivity.
  - assert (0 <= len rest') by (unfold len; lia).
    assert (len (b' :: rest') = len rest' + 1) by (unfold len; simpl length; lia).
    assert (Hmore : uint16 (len (frame_Payload (mkFrame frameID n hcrc acc pcrc) ++ [b])) <
                    frame_PayloadLen (mkFrame frameID n hcrc acc pcrc)).
    { cbn [frame_PayloadLen frame_Payload]. rewrite Hsmall. lia. }
    rewrite (feed_none _ _ _ _ (step_Payload_more _ acc b Hmore)).
    cbn [frame_ID frame_PayloadLen frame_HeaderCRC frame_Payload frame_PayloadCRC].
    rewrite (IH (acc ++ [b]) pcrc); [| discriminate | lia | unfold MaxPayloadLength; lia].
    rewrite <- !app_assoc. reflexivity.
Qed.

(** Payload CRC: the two bytes of the CRC of the buffered payload deliver
    the frame and return the receiver to [StateSync1]. *)
Lemma feed_payload_crc (frameID n hcrc pcrc0 : Z) (pl : list Z) :
  let pcrc := calculateCRC16 pl 0 in
  feed (mkUSOCK StatePayloadCRC1 (mkFrame frameID n hcrc pl pcrc0) pl)
       [uint8 (Z.land pcrc 0xFF); uint8 (Z.land (Z.shiftr pcrc 8) 0xFF)] =
  (mkUSOCK StateSync1 (mkFrame frameID n hcrc pl pcrc) pl,
   [mkPayload frameID pl (len pl)]).
Proof.
  intros pcrc.
  assert (Hcrc : is_uint16 pcrc) by apply calculateCRC16_0_bounded.
  assert (Hjoin : Z.lor (uint16 (uint8 (Z.land pcrc 0xFF)))
                        (uint16 (Z.shiftl (uint16 (uint8 (Z.land (Z.shiftr pcrc 8) 0xFF))) 8)) = pcrc).
  { rewrite lo_byte, (hi_byte pcrc Hcrc). apply join_bytes. exact Hcrc. }
  rewrite (feed_none _ _ _ _ (step_PayloadCRC1 _ _ _)).
  cbn [frame_ID frame_PayloadLen frame_HeaderCRC frame_Payload frame_PayloadCRC].
  erewrite feed_some; [reflexivity |].
  rewrite step_PayloadCRC2.
  cbn [frame_ID frame_PayloadLen frame_HeaderCRC frame_Payload frame_PayloadCRC].
  fold pcrc. rewrite Hjoin, Z.eqb_refl. reflexivity.
Qed.

(** ** A frame received from [StateSync1] *)

(** Whatever the receiver holds from earlier bytes, from [StateSync1] the
    encoding of a non-empty payload of at most 1024 bytes delivers exactly
    that frame and leaves the receiver in [StateSync1]. *)
Lemma feed_encoded (f : Frame) (buf : list Z) (frameID : Z) (data bs : list Z) :
  data <> [] ->
  WriteWithFrameID frameID data = Some bs ->
  exists f', feed (mkUSOCK StateSync1 f buf) bs =
             (mkUSOCK StateSync1 f' data, [mkPayload frameID data (len data)]).
Proof.
  intros Hne Hw. unfold WriteWithFrameID in Hw.
  destruct (len data >? MaxPayloadLength) eqn:Hgt; [discriminate |].
  rewrite Z.gtb_ltb in Hgt. apply Z.ltb_ge in Hgt.
  assert (H0 : 0 <= len data) by (unfold len; lia).
  apply (inj Some) in Hw. subst bs. unfold header.
  rewrite (uint16_small (len data)) by (unfold is_uint16, MaxPayloadLength in *; lia).
  rewrite (feed_header f buf frameID (len data)) by lia.
  rewrite (feed_payload data [] _ frameID (len data)); [| exact Hne | reflexivity | exact Hgt].
  cbn [app]. rewrite feed_payload_crc. eexists. reflexivity.
Qed.

Lemma state_Sync1_inv (u : USOCK) :
  state u = StateSync1 -> u = mkUSOCK StateSync1 (frame u) (buffer u).
Proof. destruct u as [s f b]. simpl. intros ->. reflexivity. Qed.

(** Bytes other than the first sync byte leave a receiver in [StateSync1]
    as it is. *)
Lemma feed_no_sync (u : USOCK) (G : list Z) :
  state u = StateSync1 -> Forall (fun b => b <> SyncByte1) G -> feed u G = (u, []).
Proof.
  intros Hs HG. induction HG as [| b G Hb HG IH]; [reflexivity |].
  rewrite (state_Sync1_inv u Hs) at 1.
  rewrite (feed_none _ _ _ _ (step_Sync1_other _ _ b Hb)).
  rewrite <- (state_Sync1_inv u Hs). exact IH.
Qed.

(** ** The table computes CRC-16/ARC *)

Import Reference.

Lemma crc16_arc_bit_lxor (x y : Z) :
  crc16_arc_bit (Z.lxor x y) = Z.lxor (crc16_arc_bit x) (crc16_arc_bit y).
Proof.
  unfold crc16_arc_bit.
  assert (Hodd : Z.odd (Z.lxor x y) = xorb (Z.odd x) (Z.odd y)).
  { rewrite <- !Z.bit0_odd. apply Z.lxor_spec. }
  rewrite Hodd, Z.shiftr_lxor.
  destruct (Z.odd x), (Z.odd y); cbn [xorb];
    apply Z.bits_inj'; intros n Hn; rewrite !Z.lxor_spec;
    destruct (Z.testbit (Z.shiftr x 1) n), (Z.testbit (Z.shiftr y 1) n),
             (Z.testbit 0xA001 n); reflexivity.
Qed.

Lemma iter_crc16_arc_bit_lxor (n : nat) (x y : Z) :
  Nat.iter n crc16_arc_bit (Z.lxor x y) =
  Z.lxor (Nat.iter n crc16_arc_bit x) (Nat.iter n crc16_arc_bit y).
Proof.
  induction n as [| n IH]; [reflexivity |].
  cbn [Nat.iter nat_rect]. unfold Nat.iter in IH. rewrite IH.
  apply crc16_arc_bit_lxor.
Qed.

Lemma crc16_arc_bit_shiftl (h : Z) (k : nat) :
  crc16_arc_bit (Z.shiftl h (Z.of_nat (S k))) = Z.shiftl h (Z.of_nat k).
Proof.
  unfold crc16_arc_bit.
  assert (Hodd : Z.odd (Z.shiftl h (Z.of_nat (S k))) = false).
  { rewrite <- Z.bit0_odd. apply Z.shiftl_spec_low. lia. }
  rewrite Hodd. rewrite Z.shiftr_shiftl_l by lia. f_equal. lia.
Qed.

Lemma iter_crc16_arc_bit_shiftl (h : Z) (k : nat) :
  Nat.iter k crc16_arc_bit (Z.shiftl h (Z.of_nat k)) = h.
Proof.
  induction k as [| k IH]; [apply Z.shiftl_0_r |].
  rewrite Nat.iter_succ_r, crc16_arc_bit_shiftl. exact IH.
Qed.

Lemma crc16Table_spec :
  crc16Table = map (fun i => Nat.iter 8 crc16_arc_bit (Z.of_nat i)) (seq 0 256).
Proof. vm_compute. reflexivity. Qed.

Lemma crc16Table_entry (i : Z) :
  is_byte i -> nth (Z.to_nat i) crc16Table 0 = Nat.iter 8 crc16_arc_bit i.
Proof.
  unfold is_byte. intros Hi. rewrite crc16Table_spec.
  rewrite (nth_indep _ 0 ((fun i => Nat.iter 8 crc16_arc_bit (Z.of_nat i)) 0%nat))
    by (rewrite length_map, length_seq; lia).
  rewrite (map_nth (fun i => Nat.iter 8 crc16_arc_bit (Z.of_nat i))).
  rewrite seq_nth by lia. rewrite Nat.add_0_l, Z2Nat.id by lia. reflexivity.
Qed.

Lemma split_join_lxor (c : Z) :
  0 <= c -> Z.lxor (Z.shiftl (c / 256) 8) (c mod 256) = c.
Proof.
  intros H0. apply Z.bits_inj'. intros n Hn.
  rewrite Z.lxor_spec, Z.shiftl_spec by exact Hn.
  change 256 with (2 ^ 8).
  destruct (Z.lt_ge_cases n 8) as [Hlt | Hge].
  - rewrite Z.mod_pow2_bits_low by lia.
    rewrite (Z.testbit_neg_r _ (n - 8)) by lia. reflexivity.
  - rewrite Z.mod_pow2_bits_high by lia.
    rewrite <- Z.shiftr_div_pow2 by lia.
    rewrite Z.shiftr_spec by lia. rewrite xorb_false_r. f_equal. lia.
Qed.

(** One step of the table-driven loop is eight steps of the bit-wise
    definition. *)
Lemma crc16_update_arc (crc b : Z) :
  is_uint16 crc -> is_byte b -> crc16_update crc b = crc16_arc_byte crc b.
Proof.
  intros Hc Hb. unfold crc16_update, crc16_arc_byte.
  pose proof (byte_is_uint16 b Hb) as Hb16.
  pose proof (lxor_uint16 crc b Hc Hb16) as Hx.
  rewrite (uint16_small b Hb16), (uint16_small _ Hx).
  set (x := Z.lxor crc b) in *.
  assert (Hlo : Z.land x 0xff = x mod 256).
  { change 0xff with (Z.ones 8). rewrite Z.land_ones by lia. reflexivity. }
  assert (Hhi : x / 256 = Z.shiftr crc 8).
  { change 256 with (2 ^ 8). rewrite <- Z.shiftr_div_pow2 by lia.
    subst x. rewrite Z.shiftr_lxor.
    replace (Z.shiftr b 8) with 0; [apply Z.lxor_0_r |].
    symmetry. rewrite Z.shiftr_div_pow2 by lia. apply Z.div_small. exact Hb. }
  rewrite Hlo, (crc16Table_entry (x mod 256) (lo_is_byte x)).
  transitivity (Nat.iter 8 crc16_arc_bit (Z.lxor (Z.shiftl (x / 256) (Z.of_nat 8)) (x mod 256))).
  - rewrite iter_crc16_arc_bit_lxor, iter_crc16_arc_bit_shiftl, Hhi. reflexivity.
  - f_equal. apply split_join_lxor. destruct Hx; assumption.
Qed.

Lemma crc16_arc_byte_bounded (crc b : Z) :
  is_uint16 crc -> is_byte b -> is_uint16 (crc16_arc_byte crc b).
Proof.
  intros Hc Hb. rewrite <- crc16_update_arc by assumption.
  apply crc16_update_bounded. exact Hc.
Qed.

(** [calculateCRC16] with seed 0 is CRC-16/ARC on sequences of bytes. *)
Lemma calculateCRC16_arc (data : list Z) :
  Forall is_byte data -> calculateCRC16 data 0 = crc16_arc data.
Proof.
  unfold calculateCRC16, crc16_arc.
  assert (H0 : is_uint16 0) by (unfold is_uint16; lia).
  revert H0. generalize 0 as seed.
  induction data as [| b data IH]; intros seed Hs Hd; [reflexivity |].
  apply List.Forall_cons_iff in Hd as [Hb Hd]. cbn [fold_left].
  rewrite (crc16_update_arc seed b Hs Hb).
  apply IH; [apply crc16_arc_byte_bounded; assumption | exact Hd].
Qed.

End UsockFacts.

(** * The frame codec: round trip, header CRC, resynchronization *)

Module FrameCodec.
Import Usock Reference UsockFacts.

(** Round trip for non-empty payloads: the encoding of a frame ID and a
    payload of 1 to 1024 bytes, fed to a fresh receiver, delivers exactly
    that frame. *)
Lemma roundtrip_nonempty (frameID : Z) (data bs : list Z) :
  data <> [] ->
  WriteWithFrameID frameID data = Some bs ->
  delivered New bs = [mkPayload frameID data (len data)] /\
  state (after New bs) = StateSync1.
Proof.
  intros Hne Hw. unfold delivered, after, New.
  destruct (feed_encoded (mkFrame 0 0 0 [] 0) [] frameID data bs Hne Hw) as [f' ->].
  split; reflexivity.
Qed.

Example roundtrip_scenario_1 :
  exists bs, WriteWithFrameID 0xC0 [0xA1; 0x01; 0xC0; 0x01] = Some bs /\
             delivered New bs = [mkPayload 0xC0 [0xA1; 0x01; 0xC0; 0x01] 4].
Proof. eexists. split; [reflexivity | vm_compute; reflexivity]. Qed.

(** C1 (the code does not do what the claim says for the empty payload).
    For every frame ID the encoder accepts the empty payload and builds a
    nine-byte frame, but a fresh receiver fed these nine bytes delivers
    nothing: in [StatePayload] it takes the first byte of the payload CRC as
    a payload byte, and it is left in [StatePayloadCRC2] waiting for one
    more byte. *)
Theorem C1_empty_payload_frame_is_not_delivered (frameID : Z) :
  exists bs,
    WriteWithFrameID frameID [] = Some bs /\
    length bs = 9%nat /\
    delivered New bs = [] /\
    state (after New bs) = StatePayloadCRC2.
Proof.
  eexists. split; [reflexivity |]. split; [reflexivity |].
  unfold delivered, after, New, header.
  change (uint16 (len [])) with 0.
  rewrite (feed_header _ _ frameID 0) by (unfold MaxPayloadLength; lia).
  change (calculateCRC16 [] 0) with 0. cbn [app].
  assert (Hlast : frame_PayloadLen (mkFrame frameID 0
                    (calculateCRC16 ([SyncByte1; SyncByte2; frameID] ++ PutUint16 0) 0) [] 0) <=
                  uint16 (len (frame_Payload (mkFrame frameID 0
                    (calculateCRC16 ([SyncByte1; SyncByte2; frameID] ++ PutUint16 0) 0) [] 0)
                    ++ [uint8 (Z.land 0 255)]))).
  { cbn [frame_PayloadLen frame_Payload app]. vm_compute. discriminate. }
  rewrite (feed_none _ _ _ _ (step_Payload_last _ [] _ Hlast)).
  rewrite (feed_none _ _ _ _ (step_PayloadCRC1 _ _ _)).
  split; reflexivity.
Qed.

Example C1_failing_input :
  WriteWithFrameID 0 [] = Some [0xF6; 0xD9; 0x00; 0x00; 0x00; 0xF3; 0x49; 0x00; 0x00] /\
  feed New [0xF6; 0xD9; 0x00; 0x00; 0x00; 0xF3; 0x49; 0x00; 0x00] =
  (mkUSOCK StatePayloadCRC2 (mkFrame 0 0 0x49F3 [0] 0) [0], []).
Proof. split; vm_compute; reflexivity. Qed.

(** C2, as stated, fails: in the frame of frame ID 0 with the empty payload
    the header CRC field holds [0x49F3], while CRC-16/ARC of the first seven
    bytes of the frame (first sync byte through the header CRC) is 0. *)
Lemma C2_counterexample_seven_bytes :
  let bs := [0xF6; 0xD9; 0x00; 0x00; 0x00; 0xF3; 0x49; 0x00; 0x00] in
  WriteWithFrameID 0 [] = Some bs /\
  storedHeaderCRC bs = 0x49F3 /\
  crc16_arc (firstn 7 bs) = 0 /\
  storedHeaderCRC bs <> crc16_arc (firstn 7 bs).
Proof. cbv zeta. repeat split; try (vm_compute; reflexivity). vm_compute. discriminate. Qed.

(** C2 (amended).  For every frame the encoder builds, the bytes from the
    first sync byte through the payload-length field are five bytes
    ([0xF6], [0xD9], the frame ID and the little-endian payload length); the
    header CRC field of the frame is CRC-16/ARC of these five bytes; and a
    receiver in [StateSync1] that has taken these five bytes goes on to
    [StatePayload] exactly when the next two bytes are, little-endian,
    CRC-16/ARC of these five bytes, and returns to [StateSync1] otherwise. *)
Theorem C2_header_crc_covers_five_bytes (frameID : Z) (data bs : list Z) :
  is_byte frameID ->
  WriteWithFrameID frameID data = Some bs ->
  firstn 5 bs = [SyncByte1; SyncByte2; frameID; len data mod 256; len data / 256] /\
  storedHeaderCRC bs = crc16_arc (firstn 5 bs) /\
  (forall (f : Frame) (buf : list Z) (c1 c2 : Z),
      is_byte c1 -> is_byte c2 ->
      state (after (mkUSOCK StateSync1 f buf) (firstn 5 bs ++ [c1; c2])) =
      if Z.lor c1 (Z.shiftl c2 8) =? crc16_arc (firstn 5 bs)
      then StatePayload else StateSync1).
Proof.
  intros Hid Hw. unfold WriteWithFrameID in Hw.
  destruct (len data >? MaxPayloadLength) eqn:Hgt; [discriminate |].
  rewrite Z.gtb_ltb in Hgt. apply Z.ltb_ge in Hgt.
  assert (H0 : 0 <= len data) by (unfold len; lia).
  assert (Hn16 : is_uint16 (len data)) by (unfold is_uint16, MaxPayloadLength in *; lia).
  apply (inj Some) in Hw. subst bs. unfold header.
  rewrite (uint16_small (len data) Hn16).
  set (hdr := [SyncByte1; SyncByte2; frameID] ++ PutUint16 (len data)).
  set (crc := calculateCRC16 hdr 0).
  assert (Hcrc : is_uint16 crc) by apply calculateCRC16_0_bounded.
  assert (Hhdr : hdr = [SyncByte1; SyncByte2; frameID; len data mod 256; len data / 256]).
  { subst hdr. unfold PutUint16. cbn [app]. rewrite (put_hi_byte _ Hn16). reflexivity. }
  assert (Hbytes : Forall is_byte hdr).
  { rewrite Hhdr. repeat apply List.Forall_cons; try (unfold is_byte, SyncByte1, SyncByte2; lia).
    - exact Hid.
    - apply lo_is_byte.
    - apply hi_is_byte. exact Hn16.
    - constructor. }
  assert (Harc : crc = crc16_arc hdr) by (apply calculateCRC16_arc; exact Hbytes).
  assert (Hfirst : firstn 5 (hdr ++ [uint8 (Z.land crc 0xFF); uint8 (Z.land (Z.shiftr crc 8) 0xFF)]
                               ++ data
                               ++ [uint8 (Z.land (calculateCRC16 data 0) 0xFF);
                                   uint8 (Z.land (Z.shiftr (calculateCRC16 data 0) 8) 0xFF)]) = hdr).
  { rewrite Hhdr. reflexivity. }
  rewrite Hfirst. split; [exact Hhdr |]. split.
  - rewrite <- Harc. unfold storedHeaderCRC. rewrite Hhdr. cbn [app nth].
    rewrite lo_byte, (hi_byte crc Hcrc).
    apply split_join_bits. destruct Hcrc; assumption.
  - intros f buf c1 c2 Hc1 Hc2. unfold after.
    subst hdr. rewrite (feed_header_bytes f buf frameID (len data) [c1; c2]) by lia.
    rewrite feed_header_crc.
    rewrite (uint16_small c1), (uint16_small c2) by (apply byte_is_uint16; assumption).
    rewrite (uint16_small (Z.shiftl c2 8)).
    2:{ unfold is_uint16, is_byte in *. rewrite Z.shiftl_mul_pow2 by lia.
        change (2 ^ 8) with 256. lia. }
    fold crc. rewrite <- Harc. rewrite (Z.eqb_sym crc).
    destruct (Z.lor c1 (Z.shiftl c2 8) =? crc); reflexivity.
Qed.

Lemma C2_header_crc_covers_five_bytes_witness :
  is_byte 0xC0 /\
  WriteWithFrameID 0xC0 [0xA1; 0x01; 0xC0; 0x01] =
    Some [0xF6; 0xD9; 0xC0; 0x04; 0x00; 0xF1; 0xB5; 0xA1; 0x01; 0xC0; 0x01; 0xE3; 0xFC] /\
  storedHeaderCRC [0xF6; 0xD9; 0xC0; 0x04; 0x00; 0xF1; 0xB5; 0xA1; 0x01; 0xC0; 0x01; 0xE3; 0xFC] =
    crc16_arc [0xF6; 0xD9; 0xC0; 0x04; 0x00] /\
  state (after New ([0xF6; 0xD9; 0xC0; 0x04; 0x00] ++ [0xF1; 0xB5])) = StatePayload /\
  state (after New ([0xF6; 0xD9; 0xC0; 0x04; 0x00] ++ [0xF1; 0xB4])) = StateSync1.
Proof.
  assert (Hb : is_byte 0xC0) by (unfold is_byte; lia).
  assert (Hw : WriteWithFrameID 0xC0 [0xA1; 0x01; 0xC0; 0x01] =
    Some [0xF6; 0xD9; 0xC0; 0x04; 0x00; 0xF1; 0xB5; 0xA1; 0x01; 0xC0; 0x01; 0xE3; 0xFC])
    by (vm_compute; reflexivity).
  assert (Hc1 : is_byte 0xF1) by (unfold is_byte; lia).
  assert (Hc2 : is_byte 0xB5) by (unfold is_byte; lia).
  assert (Hc3 : is_byte 0xB4) by (unfold is_byte; lia).
  split; [exact Hb |]. split; [exact Hw |].
  destruct (C2_header_crc_covers_five_bytes 0xC0 _ _ Hb Hw) as [_ [Hcrc Hrx]].
  split; [exact Hcrc |]. split.
  - exact (Hrx (mkFrame 0 0 0 [] 0) [] 0xF1 0xB5 Hc1 Hc2).
  - exact (Hrx (mkFrame 0 0 0 [] 0) [] 0xF1 0xB4 Hc1 Hc3).
Defined.

(** Garbage without the first sync byte leaves a fresh receiver as it is. *)
Lemma garbage_without_sync_byte (G : list Z) :
  Forall (fun b => b <> SyncByte1) G ->
  state (after New G) = StateSync1 /\ delivered New G = [].
Proof.
  intros HG. unfold after, delivered.
  rewrite (feed_no_sync New G eq_refl HG). split; reflexivity.
Qed.

(** C6, as stated, fails: after the single garbage byte [0xF6] the receiver
    is in [StateSync2]; the first byte of the frame that follows sends it
    back to [StateSync1], the rest of the frame is discarded, and nothing is
    delivered. *)
Lemma C6_counterexample_stray_sync_byte :
  let G := [0xF6] in
  let F := [0xF6; 0xD9; 0xC0; 0x04; 0x00; 0xF1; 0xB5; 0xA1; 0x01; 0xC0; 0x01; 0xE3; 0xFC] in
  WriteWithFrameID 0xC0 [0xA1; 0x01; 0xC0; 0x01] = Some F /\
  delivered New F = [mkPayload 0xC0 [0xA1; 0x01; 0xC0; 0x01] 4] /\
  delivered New (G ++ F) = [].
Proof. cbv zeta. repeat split; vm_compute; reflexivity. Qed.

(** C6 (amended).  For every sequence of garbage bytes [G] after which the
    receiver is back in [StateSync1], and every frame [F] the encoder builds
    from a frame ID and a payload of 1 to 1024 bytes, feeding [G] followed
    by [F] to a fresh receiver delivers what [G] delivers and then the
    frame, and leaves the receiver in [StateSync1]. *)
Theorem C6_resynchronization_from_Sync1 (G : list Z) (frameID : Z) (data F : list Z) :
  state (after New G) = StateSync1 ->
  data <> [] ->
  WriteWithFrameID frameID data = Some F ->
  delivered New (G ++ F) = delivered New G ++ [mkPayload frameID data (len data)] /\
  state (after New (G ++ F)) = StateSync1.
Proof.
  intros Hs Hne Hw.
  rewrite delivered_app, after_app.
  destruct (after New G) as [s f buf]. cbn [state] in Hs. subst s.
  destruct (feed_encoded f buf frameID data F Hne Hw) as [f' Hf].
  unfold delivered at 2, after at 1. rewrite Hf.
  split; reflexivity.
Qed.

Lemma C6_resynchronization_from_Sync1_witness :
  state (after New [0x00; 0xF6; 0x42; 0xD9]) = StateSync1 /\
  [0xA1; 0x01; 0xC0; 0x01] <> [] /\
  delivered New ([0x00; 0xF6; 0x42; 0xD9] ++
                 [0xF6; 0xD9; 0xC0; 0x04; 0x00; 0xF1; 0xB5; 0xA1; 0x01; 0xC0; 0x01; 0xE3; 0xFC]) =
  delivered New [0x00; 0xF6; 0x42; 0xD9] ++ [mkPayload 0xC0 [0xA1; 0x01; 0xC0; 0x01] 4].
Proof.
  assert (Hs : state (after New [0x00; 0xF6; 0x42; 0xD9]) = StateSync1) by reflexivity.
  assert (Hne : [0xA1; 0x01; 0xC0; 0x01] <> []) by discriminate.
  assert (Hw : WriteWithFrameID 0xC0 [0xA1; 0x01; 0xC0; 0x01] =
    Some [0xF6; 0xD9; 0xC0; 0x04; 0x00; 0xF1; 0xB5; 0xA1; 0x01; 0xC0; 0x01; 0xE3; 0xFC])
    by (vm_compute; reflexivity).
  split; [exact Hs |]. split; [exact Hne |].
  exact (proj1 (C6_resynchronization_from_Sync1 _ 0xC0 _ _ Hs Hne Hw)).
Defined.

End FrameCodec.

(** * The router and the outbound translation *)

Module Router.
Import Ble Service Reference UsockFacts.

(** ** Relative subtypes *)

(** C10.  For a 16-bit message type and a 16-bit absolute subtype key, the
    relative subtype of the loop body is 0 when the key is smaller than the
    message type and the difference otherwise, hence never a wrapped-around
    difference; and an entry whose key is smaller than the message type is
    dispatched with relative subtype 0. *)
Theorem C10_relative_subtype_guard (MaxInt msgType absSubTypeKey : Z) (value : Value) :
  is_uint16 msgType -> is_uint16 absSubTypeKey ->
  relativeSubTypeOf msgType absSubTypeKey =
    (if absSubTypeKey <? msgType then 0 else absSubTypeKey - msgType) /\
  is_uint16 (relativeSubTypeOf msgType absSubTypeKey) /\
  (absSubTypeKey < msgType ->
   relativeSubTypeOf msgType absSubTypeKey = 0 /\
   handleEntry MaxInt msgType absSubTypeKey value =
   dispatch MaxInt msgType 0 absSubTypeKey value).
Proof.
  intros Hm Ha.
  assert (Hrel : relativeSubTypeOf msgType absSubTypeKey =
                 (if absSubTypeKey <? msgType then 0 else absSubTypeKey - msgType)).
  { unfold relativeSubTypeOf. rewrite (uint16_small msgType Hm).
    rewrite Z.geb_leb.
    destruct (Z.leb_spec msgType absSubTypeKey) as [Hle | Hlt].
    - replace (absSubTypeKey <? msgType) with false by (symmetry; apply Z.ltb_ge; exact Hle).
      apply uint16_small. unfold is_uint16 in *. lia.
    - replace (absSubTypeKey <? msgType) with true by (symmetry; apply Z.ltb_lt; exact Hlt).
      reflexivity. }
  split; [exact Hrel |]. split.
  - rewrite Hrel. unfold is_uint16 in *.
    destruct (Z.ltb_spec absSubTypeKey msgType); lia.
  - intros Hlt.
    assert (H0 : relativeSubTypeOf msgType absSubTypeKey = 0).
    { rewrite Hrel. apply Z.ltb_lt in Hlt. rewrite Hlt. reflexivity. }
    split; [exact H0 |]. unfold handleEntry. rewrite H0. reflexivity.
Qed.

Lemma C10_relative_subtype_guard_witness :
  is_uint16 0x0060 /\ is_uint16 0x0010 /\
  relativeSubTypeOf 0x0060 0x0010 = 0 /\
  handleEntry (2 ^ 31 - 1) 0x0060 0x0010 (VInteger KUint64 3) =
  dispatch (2 ^ 31 - 1) 0x0060 0 0x0010 (VInteger KUint64 3).
Proof.
  assert (Hm : is_uint16 0x0060) by (unfold is_uint16; lia).
  assert (Ha : is_uint16 0x0010) by (unfold is_uint16; lia).
  split; [exact Hm |]. split; [exact Ha |].
  apply (proj2 (proj2 (C10_relative_subtype_guard (2 ^ 31 - 1) 0x0060 0x0010
                         (VInteger KUint64 3) Hm Ha))).
  lia.
Defined.

(** ** Messages that are discarded *)

(** C9.  A decoded payload whose top-level map has more than one key, and
    one whose top-level map is empty and whose raw bytes do not have the
    four-byte acknowledgement shape, is discarded: the handler makes no call
    on the store and sends no frame. *)
Theorem C9_unexpected_structure_discarded (MaxInt frameID : Z) (payload : Usock.Payload)
    (msgData : list (Z * Value)) :
  (1 < length msgData)%nat \/
  (msgData = [] /\ isAckShape frameID (Usock.payload_Data payload) = false) ->
  HandleUSockMessage MaxInt frameID payload (Some msgData) = [].
Proof.
  intros [Hlen | [-> Hack]].
  - unfold HandleUSockMessage.
    replace (Z.of_nat (length msgData) =? 1) with false
      by (symmetry; apply Z.eqb_neq; lia).
    cbn [negb]. destruct (_ && _); reflexivity.
  - unfold HandleUSockMessage. cbn [length]. rewrite Hack. reflexivity.
Qed.

Lemma C9_unexpected_structure_discarded_witness :
  (Nat.lt 1 (length [(0x00E0, VNil); (0x0060, VNil)]) \/
   ([(0x00E0, VNil); (0x0060, VNil)] = [] /\
    isAckShape 0xE0 (Usock.payload_Data (Usock.mkPayload 0xE0 [0xA2; 0x18; 0xE0; 0xF6; 0x18; 0x60; 0xF6] 7)) = false)) /\
  HandleUSockMessage (2 ^ 31 - 1) 0xE0 (Usock.mkPayload 0xE0 [0xA2; 0x18; 0xE0; 0xF6; 0x18; 0x60; 0xF6] 7)
    (Some [(0x00E0, VNil); (0x0060, VNil)]) = [].
Proof.
  assert (H : Nat.lt 1 (length [(0x00E0, VNil); (0x0060, VNil)]) \/
   ([(0x00E0, VNil); (0x0060, VNil)] = [] /\
    isAckShape 0xE0 (Usock.payload_Data (Usock.mkPayload 0xE0 [0xA2; 0x18; 0xE0; 0xF6; 0x18; 0x60; 0xF6] 7)) = false))
    by (left; unfold Nat.lt; simpl; lia).
  split; [exact H |].
  exact (C9_unexpected_structure_discarded (2 ^ 31 - 1) 0xE0 _ _ H).
Defined.

(** The acknowledgement itself has no effect either: every payload whose
    top-level map does not have exactly one key is only logged. *)
Lemma not_one_key_discarded (MaxInt frameID : Z) (payload : Usock.Payload)
    (msgData : list (Z * Value)) :
  length msgData <> 1%nat ->
  HandleUSockMessage MaxInt frameID payload (Some msgData) = [].
Proof.
  intros Hlen. unfold HandleUSockMessage.
  replace (Z.of_nat (length msgData) =? 1) with false
    by (symmetry; apply Z.eqb_neq; lia).
  cbn [negb]. destruct (_ && _); reflexivity.
Qed.

(** ** Battery slots *)

(** The range checks of the router add the family base [0x00E0] to
    constants that already hold absolute subtypes: slot 1 is keys
    [0x01C2..0x01C9], slot 2 is keys [0x01CE..0x01D5]. *)
Lemma batterySlotOf_ranges (k : Z) :
  batterySlotOf k =
  if (0x01C2 <=? k) && (k <=? 0x01C9) then 1
  else if (0x01CE <=? k) && (k <=? 0x01D5) then 2
  else 0.
Proof. unfold batterySlotOf. rewrite !Z.geb_leb. reflexivity. Qed.

Lemma batterySlotOf_claimed_range (k : Z) :
  0x00E0 <= k <= 0x00F5 -> batterySlotOf k = 0.
Proof.
  intros Hk. rewrite batterySlotOf_ranges.
  replace (0x01C2 <=? k) with false by (symmetry; apply Z.leb_gt; lia).
  replace (0x01CE <=? k) with false by (symmetry; apply Z.leb_gt; lia).
  reflexivity.
Qed.

(** No key of the ranges of the claim is routed to a slot. *)
Lemma battery_claimed_range_dropped (MaxInt k : Z) (v : Value) :
  0x00E0 <= k <= 0x00F5 -> handleEntry MaxInt TypeBattery k v = [].
Proof.
  intros Hk. unfold handleEntry, dispatch.
  rewrite (batterySlotOf_claimed_range k Hk). reflexivity.
Qed.

(** C3 (the code does not do what the claim says).  The envelope
    [{0x00E0: {0x00E2: v}}], battery state of slot 1, is dropped whatever
    the value: no slot is assigned to key [0x00E2] and nothing is written.
    The key the router does take as slot 1 state is [0x01C2]. *)
Theorem C3_battery_key_00E2_dropped (MaxInt : Z) (payload : Usock.Payload) (v : Value) :
  batterySlotOf 0x00E2 = 0 /\
  HandleUSockMessage MaxInt 0xE0 payload
    (Some [(0x00E0, VMap [(VInteger KUint64 0x00E2, v)])]) = [] /\
  HandleUSockMessage (2 ^ 31 - 1) 0xE0 payload
    (Some [(0x00E0, VMap [(VInteger KUint64 0x01C2, VInteger KUint64 3)])]) =
  [EHSet "battery:0" "state" (RInt 3)].
Proof.
  split; [reflexivity |]. split.
  - unfold HandleUSockMessage. cbn [length Z.of_nat negb paramMapOf flat_map fst snd app].
    change (Z.of_nat 1 =? 1) with true. cbn [negb].
    change (0x00E2 >? 0xFFFF) with false. cbn iota. cbn [flat_map app fst snd].
    rewrite app_nil_r. apply battery_claimed_range_dropped. change (uint16 226) with 226. lia.
  - reflexivity.
Qed.


(** ** Outbound translation *)

Lemma lookupString_cons (k : string) (v : Z) (rest : list (string * Z)) (s : string) :
  lookupString ((k, v) :: rest) s = if String.eqb s k then Some v else lookupString rest s.
Proof. reflexivity. Qed.

(** [batteryStateToInt] is the battery-state mapping of the specification. *)
Lemma batteryStateToInt_image (s : string) :
  batteryStateToInt s = batteryStateImage s.
Proof.
  unfold batteryStateToInt, batteryStateImage, batteryStateTable.
  rewrite !lookupString_cons. cbn [lookupString].
  repeat (match goal with
          | |- context [String.eqb s ?k] => destruct (String.eqb s k)
          end; try reflexivity).
Qed.

Lemma batteryStateImage_range (s : string) : 0 <= batteryStateImage s <= 3.
Proof.
  unfold batteryStateImage, batteryStateTable.
  rewrite !lookupString_cons. cbn [lookupString].
  repeat (match goal with
          | |- context [String.eqb s ?k] => destruct (String.eqb s k)
          end; try lia).
Qed.

(** What [UpdateBatteryActiveStatus] sends: one frame of ID [0xE0] whose
    envelope has outer key [0x00E0] and inner key the family base plus the
    constant of the slot, [0x00E0 + 0x00E2] or [0x00E0 + 0x00EE]. *)
Lemma UpdateBatteryActiveStatus_sends (st : Store) (slot : Z) :
  UpdateBatteryActiveStatus st slot =
  let key := if slot =? 2 then KeyBatterySlot2 else KeyBatterySlot1 in
  let s := match GetString st key "state" with Some s => s | None => "unknown" end in
  [EWriteWithFrameID 0xE0
     (mkEnvelope 0x00E0 (if slot =? 2 then 0x01CE else 0x01C2) (OUint16 (batteryStateImage s)))].
Proof.
  unfold UpdateBatteryActiveStatus, writeUARTMessage. cbv zeta.
  rewrite batteryStateToInt_image.
  rewrite (uint16_small (batteryStateImage _))
    by (pose proof (batteryStateImage_range
          match GetString st (if slot =? 2 then KeyBatterySlot2 else KeyBatterySlot1) "state" with
          | Some s => s | None => "unknown" end); unfold is_uint16; lia).
  destruct (slot =? 2); reflexivity.
Qed.

(** C4 (the code does not do what the claim says).  On a change
    notification for field [state] of [battery:0] (of [battery:1]) the
    service sends exactly one frame, of the battery family [0x00E0] and with
    the image of the stored string under the battery-state mapping as value,
    but its inner key is [0x01C2] (resp. [0x01CE]), not [0x00E2] (resp.
    [0x00EE]). *)
Theorem C4_battery_state_sent_under_key_01C2 (Atoi : string -> option Z) (st : Store) :
  onRedisMessage Atoi st "battery:0" "state" =
    [EWriteWithFrameID 0xE0
       (mkEnvelope 0x00E0 0x01C2
          (OUint16 (batteryStateImage
                      (match GetString st "battery:0" "state" with
                       | Some s => s | None => "unknown" end))))] /\
  onRedisMessage Atoi st "battery:1" "state" =
    [EWriteWithFrameID 0xE0
       (mkEnvelope 0x00E0 0x01CE
          (OUint16 (batteryStateImage
                      (match GetString st "battery:1" "state" with
                       | Some s => s | None => "unknown" end))))].
Proof.
  split.
  - change (onRedisMessage Atoi st "battery:0" "state") with (UpdateBatteryActiveStatus st 1).
    rewrite UpdateBatteryActiveStatus_sends. reflexivity.
  - change (onRedisMessage Atoi st "battery:1" "state") with (UpdateBatteryActiveStatus st 2).
    rewrite UpdateBatteryActiveStatus_sends. reflexivity.
Qed.

Example C4_failing_input (Atoi : string -> option Z) :
  onRedisMessage Atoi (<[("battery:0", "state") := "active"]> ∅) "battery:0" "state" =
  [EWriteWithFrameID 0xE0 (mkEnvelope 0x00E0 0x01C2 (OUint16 3))].
Proof. vm_compute. reflexivity. Qed.

(** [UpdatePowerManagementState] computes the power-management mapping of
    the specification. *)
Lemma UpdatePowerManagementState_sends (st : Store) :
  UpdatePowerManagementState st =
  let s := match GetString st KeyPowerManager "state" with Some s => s | None => "running" end in
  EWriteWithFrameID 0x00 (mkEnvelope 0x0800 0x0801 (OUint16 (powerStateImage s)))
  :: (if String.eqb s "hibernating-l2"
      then [EWriteWithFrameID 0x00 (mkEnvelope 0x0800 0x0802 (OUint16 1))]
      else []).
Proof.
  unfold UpdatePowerManagementState, writeUARTMessage. cbv zeta.
  set (s := match GetString st KeyPowerManager "state" with Some s => s | None => "running" end).
  unfold powerStateImage, powerStateTable.
  rewrite !lookupString_cons. cbn [lookupString].
  change (uint8 (Z.land TypePowerManagement 255)) with 0.
  change (uint16 TypePowerManagement) with 0x0800.
  change (uint16 (2048 + uint16 TypePowerManagementState)) with 0x0801.
  change (uint16 (2048 + uint16 TypePowerManagementPowerRequest)) with 0x0802.
  cbn [app].
  repeat (match goal with
          | |- context [String.eqb s ?k] => destruct (String.eqb s k) eqn:?
          end; try reflexivity; try discriminate).
Qed.

(** C8.  On a change notification for field [state] of [power-manager], the
    service sends a power-management message ([0x0800], relative subtype 1,
    key [0x0801]) whose value is the image of the stored string under the
    power-management mapping ("running" standing for a field that cannot be
    read), and after it, exactly when the string is "hibernating-l2", a
    second message (power-management, relative subtype 2, value 1). *)
Theorem C8_power_management_outbound (Atoi : string -> option Z) (st : Store) :
  let s := match GetString st "power-manager" "state" with Some s => s | None => "running" end in
  onRedisMessage Atoi st "power-manager" "state" =
    EWriteWithFrameID 0x00 (mkEnvelope 0x0800 (0x0800 + 1) (OUint16 (powerStateImage s)))
    :: (if String.eqb s "hibernating-l2"
        then [EWriteWithFrameID 0x00 (mkEnvelope 0x0800 (0x0800 + 2) (OUint16 1))]
        else []) /\
  (length (sent (onRedisMessage Atoi st "power-manager" "state")) = 2%nat <->
   s = "hibernating-l2") /\
  powerStateImage "running" = 1 /\ powerStateImage "suspending" = 0 /\
  powerStateImage "hibernating" = 2 /\ powerStateImage "hibernating-l2" = 2 /\
  powerStateImage "suspending-imminent" = 3 /\ powerStateImage "hibernating-imminent" = 4 /\
  powerStateImage "reboot" = 5 /\ powerStateImage "reboot-imminent" = 1 /\
  (lookupString powerStateTable s = None -> powerStateImage s = 1).
Proof.
  intros s.
  assert (Hsend : onRedisMessage Atoi st "power-manager" "state" =
    EWriteWithFrameID 0x00 (mkEnvelope 0x0800 (0x0800 + 1) (OUint16 (powerStateImage s)))
    :: (if String.eqb s "hibernating-l2"
        then [EWriteWithFrameID 0x00 (mkEnvelope 0x0800 (0x0800 + 2) (OUint16 1))]
        else [])).
  { change (onRedisMessage Atoi st "power-manager" "state") with (UpdatePowerManagementState st).
    rewrite UpdatePowerManagementState_sends. reflexivity. }
  clearbody s. split; [exact Hsend |]. split.
  - rewrite Hsend. destruct (String.eqb s "hibernating-l2") eqn:E.
    + apply String.eqb_eq in E. split; [intros _; exact E | reflexivity].
    + apply String.eqb_neq in E. split; [cbn; discriminate | intros; contradiction].
  - repeat split. intros Hnone. unfold powerStateImage. rewrite Hnone. reflexivity.
Qed.

(** ** CB battery status alerts *)

Lemma land_lor_zero (v a b : Z) :
  Z.land v (Z.lor a b) = 0 <-> Z.land v a = 0 /\ Z.land v b = 0.
Proof. rewrite Z.land_lor_distr_r. apply Z.lor_eq_0_iff. Qed.

(** The value is zero across the filter mask exactly when none of the
    eight bits is set. *)
Lemma statusMask_zero (v : Z) :
  Z.land v statusMask = 0 <->
  Z.land v 0x0004 = 0 /\ Z.land v 0x0040 = 0 /\ Z.land v 0x0100 = 0 /\ Z.land v 0x1000 = 0 /\
  Z.land v 0x0200 = 0 /\ Z.land v 0x2000 = 0 /\ Z.land v 0x0400 = 0 /\ Z.land v 0x4000 = 0.
Proof.
  change statusMask with
    (Z.lor 0x0004 (Z.lor 0x0040 (Z.lor 0x0100 (Z.lor 0x1000
       (Z.lor 0x0200 (Z.lor 0x2000 (Z.lor 0x0400 0x4000))))))).
  rewrite !land_lor_zero. reflexivity.
Qed.

Lemma CB_BATTERY_STATUS_FILTER_value : CB_BATTERY_STATUS_FILTER = statusMask.
Proof. reflexivity. Qed.

(** The chain of bit tests of subtype 8 on an integer value. *)
Lemma handleBatteryInfoMessage_status (MaxInt : Z) (value : Value) (v : Z) :
  convertToInt MaxInt value = (v, true) ->
  handleBatteryInfoMessage MaxInt TypeBatteryInfoStatus value =
  match firstAlert v with
  | Some message => [EHSet KeyCBBatteryAlert "alert" (RString message)]
  | None => [EHDel KeyCBBatteryAlert "alert"]
  end.
Proof.
  intros Hv. unfold handleBatteryInfoMessage. rewrite Hv.
  destruct (convertToString value) as [strVal strOk].
  change (TypeBatteryInfoStatus =? TypeBatteryInfoStatus) with true. cbv iota.
  unfold firstAlert, statusAlerts, testbits. cbn [find fst snd option_map].
  change MAX1730X_STATUS_CURR_MIN_ALERT with 0x0004.
  change MAX1730X_STATUS_CURR_MAX_ALERT with 0x0040.
  change MAX1730X_STATUS_VOLT_MIN_ALERT with 0x0100.
  change MAX1730X_STATUS_VOLT_MAX_ALERT with 0x1000.
  change MAX1730X_STATUS_TEMP_MIN_ALERT with 0x0200.
  change MAX1730X_STATUS_TEMP_MAX_ALERT with 0x2000.
  change MAX1730X_STATUS_SOC_MIN_ALERT with 0x0400.
  change MAX1730X_STATUS_SOC_MAX_ALERT with 0x4000.
  rewrite CB_BATTERY_STATUS_FILTER_value.
  destruct (Z.eqb_spec (Z.land v 0x0004) 0) as [H1 | ?]; [| reflexivity].
  destruct (Z.eqb_spec (Z.land v 0x0040) 0) as [H2 | ?]; [| reflexivity].
  destruct (Z.eqb_spec (Z.land v 0x0100) 0) as [H3 | ?]; [| reflexivity].
  destruct (Z.eqb_spec (Z.land v 0x1000) 0) as [H4 | ?]; [| reflexivity].
  destruct (Z.eqb_spec (Z.land v 0x0200) 0) as [H5 | ?]; [| reflexivity].
  destruct (Z.eqb_spec (Z.land v 0x2000) 0) as [H6 | ?]; [| reflexivity].
  destruct (Z.eqb_spec (Z.land v 0x0400) 0) as [H7 | ?]; [| reflexivity].
  destruct (Z.eqb_spec (Z.land v 0x4000) 0) as [H8 | ?]; [| reflexivity].
  cbn [negb option_map].
  assert (Hmask : Z.land v statusMask = 0) by (apply statusMask_zero; tauto).
  rewrite Hmask. reflexivity.
Qed.

Lemma firstAlert_None (v : Z) : firstAlert v = None <-> Z.land v statusMask = 0.
Proof.
  rewrite statusMask_zero.
  unfold firstAlert, statusAlerts. cbn [find fst snd].
  destruct (Z.eqb_spec (Z.land v 0x0004) 0); [| cbn; split; [discriminate | tauto]].
  destruct (Z.eqb_spec (Z.land v 0x0040) 0); [| cbn; split; [discriminate | tauto]].
  destruct (Z.eqb_spec (Z.land v 0x0100) 0); [| cbn; split; [discriminate | tauto]].
  destruct (Z.eqb_spec (Z.land v 0x1000) 0); [| cbn; split; [discriminate | tauto]].
  destruct (Z.eqb_spec (Z.land v 0x0200) 0); [| cbn; split; [discriminate | tauto]].
  destruct (Z.eqb_spec (Z.land v 0x2000) 0); [| cbn; split; [discriminate | tauto]].
  destruct (Z.eqb_spec (Z.land v 0x0400) 0); [| cbn; split; [discriminate | tauto]].
  destruct (Z.eqb_spec (Z.land v 0x4000) 0); [| cbn; split; [discriminate | tauto]].
  cbn. tauto.
Qed.

(** A write or a delete of one field leaves every other field as it is. *)
Lemma apply_EHSet_other (st : Store) (key field : string) (v : RedisValue) (k f : string) :
  (k, f) <> (key, field) ->
  apply_effects st [EHSet key field v] !! (k, f) = st !! (k, f).
Proof. intros Hne. cbn. apply lookup_insert_ne. congruence. Qed.

Lemma apply_EHDel_other (st : Store) (key field : string) (k f : string) :
  (k, f) <> (key, field) ->
  apply_effects st [EHDel key field] !! (k, f) = st !! (k, f).
Proof. intros Hne. cbn. apply lookup_delete_ne. congruence. Qed.

(** C7.  For an inbound battery-info entry ([0x0060]) with relative
    subtype 8 (absolute key [0x0068]) and an integer value [v], the handler
    writes to field [alert] of key [cb-battery:alert] the message of the
    first bit set in [v] among [0x0004, 0x0040, 0x0100, 0x1000, 0x0200,
    0x2000, 0x0400, 0x4000], taken in this order; there is no such bit
    exactly when [v] is zero across the union [0x7744] of the eight bits, and
    then the field [alert] is deleted instead; no other field of any key is
    modified. *)
Theorem C7_cb_battery_status_alert (MaxInt : Z) (value : Value) (v : Z) :
  convertToInt MaxInt value = (v, true) ->
  handleEntry MaxInt 0x0060 0x0068 value =
    match firstAlert v with
    | Some message => [EHSet "cb-battery:alert" "alert" (RString message)]
    | None => [EHDel "cb-battery:alert" "alert"]
    end /\
  (firstAlert v = None <-> Z.land v 0x7744 = 0) /\
  (forall (st : Store) (key field : string),
      (key, field) <> ("cb-battery:alert", "alert") ->
      apply_effects st (handleEntry MaxInt 0x0060 0x0068 value) !! (key, field) =
      st !! (key, field)).
Proof.
  intros Hv.
  assert (Hentry : handleEntry MaxInt 0x0060 0x0068 value =
                   match firstAlert v with
                   | Some message => [EHSet "cb-battery:alert" "alert" (RString message)]
                   | None => [EHDel "cb-battery:alert" "alert"]
                   end).
  { change (handleEntry MaxInt 0x0060 0x0068 value)
      with (handleBatteryInfoMessage MaxInt TypeBatteryInfoStatus value).
    apply handleBatteryInfoMessage_status. exact Hv. }
  split; [exact Hentry |]. split; [apply firstAlert_None |].
  intros st key field Hne. rewrite Hentry.
  destruct (firstAlert v) as [message |].
  - apply apply_EHSet_other. exact Hne.
  - apply apply_EHDel_other. exact Hne.
Qed.

Lemma C7_cb_battery_status_alert_witness :
  convertToInt (2 ^ 31 - 1) (VInteger KUint64 0x0040) = (0x0040, true) /\
  handleEntry (2 ^ 31 - 1) 0x0060 0x0068 (VInteger KUint64 0x0040) =
    [EHSet "cb-battery:alert" "alert" (RString "Maximum Current Alert Threshold Exceeded")].
Proof.
  assert (Hv : convertToInt (2 ^ 31 - 1) (VInteger KUint64 0x0040) = (0x0040, true))
    by reflexivity.
  split; [exact Hv |].
  exact (proj1 (C7_cb_battery_status_alert (2 ^ 31 - 1) (VInteger KUint64 0x0040) 0x0040 Hv)).
Defined.

Example scenario_3_clear :
  handleEntry (2 ^ 31 - 1) 0x0060 0x0068 (VInteger KUint64 0x0000) =
  [EHDel "cb-battery:alert" "alert"].
Proof. reflexivity. Qed.

(** ** Echo suppression *)

Lemma published_app (es1 es2 : list Effect) :
  published (es1 ++ es2) = published es1 ++ published es2.
Proof. unfold published. apply flat_map_app. Qed.

Lemma published_flat_map {A : Type} (f : A -> list Effect) (l : list A) :
  published (flat_map f l) = flat_map (fun a => published (f a)) l.
Proof.
  induction l as [| a l IH]; [reflexivity |].
  cbn [flat_map]. rewrite published_app, IH. reflexivity.
Qed.

(** Splits every test a handler makes, down to the calls on the store. *)
Ltac split_tests :=
  repeat match goal with
         | |- context [let '(_, _) := ?p in _] => destruct p
         | |- context [if ?c then _ else _] => destruct c
         | |- context [match ?v with _ => _ end] => destruct v
         end.

(** The handlers that write without publishing. *)
Lemma published_handleBatteryMessage (MaxInt subType : Z) (value : Value) (slot : Z) :
  published (handleBatteryMessage MaxInt subType value slot) = [].
Proof. unfold handleBatteryMessage. split_tests; reflexivity. Qed.

Lemma published_handleScooterInfoMessage (MaxInt msgType k : Z) (value : Value) :
  published (handleScooterInfoMessage MaxInt msgType k value) = [].
Proof. unfold handleScooterInfoMessage. split_tests; reflexivity. Qed.

Lemma published_handleBLEVersionMessage (msgType k : Z) (value : Value) :
  published (handleBLEVersionMessage msgType k value) = [].
Proof. unfold handleBLEVersionMessage. split_tests; reflexivity. Qed.

Lemma published_handleDataStreamMessage (MaxInt subType : Z) (value : Value) :
  published (handleDataStreamMessage MaxInt subType value) = [].
Proof. unfold handleDataStreamMessage. split_tests; reflexivity. Qed.

Lemma published_handleAuxBatteryMessage (MaxInt subType : Z) (value : Value) :
  published (handleAuxBatteryMessage MaxInt subType value) = [].
Proof. unfold handleAuxBatteryMessage. split_tests; reflexivity. Qed.

Lemma published_writeFaultToRedis (key source : string) (code : Z) (message faultType : string) :
  published (writeFaultToRedis key source code message faultType) = [].
Proof. unfold writeFaultToRedis. split_tests; reflexivity. Qed.

Lemma published_handleBatteryInfoMessage (MaxInt subType : Z) (value : Value) :
  published (handleBatteryInfoMessage MaxInt subType value) = [].
Proof.
  unfold handleBatteryInfoMessage.
  destruct (convertToInt MaxInt value) as [intVal intOk].
  destruct (convertToString value) as [strVal strOk].
  repeat match goal with
         | |- context [if ?c then _ else _] => destruct c
         end;
    first [reflexivity | apply published_writeFaultToRedis].
Qed.

Lemma published_handleEventMessage (msgType k : Z) (value : Value) :
  published (handleEventMessage msgType k value) = [].
Proof. unfold handleEventMessage. split_tests; reflexivity. Qed.

(** The three handlers that publish. *)
Lemma published_handleBLEDebugMessage (MaxInt msgType k : Z) (value : Value) :
  published (handleBLEDebugMessage MaxInt msgType k value) = [] \/
  exists reason : Z,
    published (handleBLEDebugMessage MaxInt msgType k value) =
    [("power-manager", "nrf-reset-reason" +:+ ":" +:+ itoa reason)].
Proof.
  unfold handleBLEDebugMessage.
  destruct (k =? _); [left; reflexivity |].
  destruct (k =? _); [| left; reflexivity].
  destruct value as [| | | l | | |]; try (left; reflexivity).
  destruct l as [| r [| c [| ? ?]]]; try (left; reflexivity).
  destruct (convertToInt MaxInt r) as [reason reasonOk].
  destruct (convertToInt MaxInt c) as [count countOk].
  destruct (reasonOk && countOk); [| left; reflexivity].
  right. exists reason. reflexivity.
Qed.

Lemma published_handleBLEParamMessage (msgType k : Z) (value : Value) :
  published (handleBLEParamMessage msgType k value) = [] \/
  exists pin : string,
    published (handleBLEParamMessage msgType k value) = [("ble", "pin-code" +:+ ":" +:+ pin)].
Proof.
  unfold handleBLEParamMessage.
  destruct (convertToString value) as [str ok].
  destruct (k =? _); [destruct ok; left; reflexivity |].
  destruct (k =? _); [destruct ok; [right; exists str | left]; reflexivity |].
  destruct (k =? _); [right; exists EmptyString; reflexivity |].
  destruct (k =? _); [left; reflexivity |].
  destruct (k =? _); [| left; reflexivity].
  destruct (msgType =? _); [destruct ok |]; left; reflexivity.
Qed.

Lemma published_handlePowerMuxMessage (MaxInt subType : Z) (value : Value) :
  published (handlePowerMuxMessage MaxInt subType value) = [] \/
  exists input : string,
    published (handlePowerMuxMessage MaxInt subType value) =
    [("power-mux", "selected-input" +:+ ":" +:+ input)].
Proof.
  unfold handlePowerMuxMessage.
  destruct (convertToInt MaxInt value) as [powerMuxState ok].
  destruct ok; [| left; reflexivity].
  right. eexists. reflexivity.
Qed.

(** What one entry of an inbound envelope can publish. *)
Lemma published_handleEntry (MaxInt msgType k : Z) (value : Value) :
  published (handleEntry MaxInt msgType k value) = [] \/
  (exists reason : Z,
      published (handleEntry MaxInt msgType k value) =
      [("power-manager", "nrf-reset-reason" +:+ ":" +:+ itoa reason)]) \/
  (exists pin : string,
      published (handleEntry MaxInt msgType k value) = [("ble", "pin-code" +:+ ":" +:+ pin)]) \/
  (exists input : string,
      published (handleEntry MaxInt msgType k value) =
      [("power-mux", "selected-input" +:+ ":" +:+ input)]).
Proof.
  unfold handleEntry, dispatch.
  destruct (msgType =? TypeBattery).
  { left. destruct (negb _); [apply published_handleBatteryMessage | reflexivity]. }
  destruct (msgType =? TypeVehicleState); [left; reflexivity |].
  destruct (msgType =? TypeScooterInfo); [left; apply published_handleScooterInfoMessage |].
  destruct (_ || _).
  { destruct (published_handleBLEParamMessage msgType k value) as [H | H]; tauto. }
  destruct (msgType =? TypeBLEVersion); [left; apply published_handleBLEVersionMessage |].
  destruct (_ || _).
  { destruct (published_handleBLEDebugMessage MaxInt msgType k value) as [H | H]; tauto. }
  destruct (msgType =? TypeDataStream); [left; apply published_handleDataStreamMessage |].
  destruct (msgType =? TypePowerManagement); [left; reflexivity |].
  destruct (msgType =? TypeAuxBattery); [left; apply published_handleAuxBatteryMessage |].
  destruct (msgType =? TypeBLECommand); [left; reflexivity |].
  destruct (msgType =? TypeBatteryInfo); [left; apply published_handleBatteryInfoMessage |].
  destruct (msgType =? TypePowerMux).
  { destruct (published_handlePowerMuxMessage MaxInt
                (relativeSubTypeOf msgType k) value) as [H | H]; tauto. }
  destruct (msgType =? 0); [left; apply published_handleEventMessage |].
  left; reflexivity.
Qed.

(** None of these messages is one the subscribers of the service act on:
    the payload is the field name followed by a colon and the value, never a
    bare field name, and [power-mux] is not subscribed to. *)
Lemma deliver_reset_reason (Atoi : string -> option Z) (st : Store) (tail : string) :
  deliver Atoi st "power-manager" ("nrf-reset-reason" +:+ ":" +:+ tail) = [].
Proof. reflexivity. Qed.

Lemma deliver_pin_code (Atoi : string -> option Z) (st : Store) (tail : string) :
  deliver Atoi st "ble" ("pin-code" +:+ ":" +:+ tail) = [].
Proof. reflexivity. Qed.

Lemma deliver_power_mux (Atoi : string -> option Z) (st : Store) (message : string) :
  deliver Atoi st "power-mux" message = [].
Proof. reflexivity. Qed.

Lemma handleEntry_no_echo (MaxInt : Z) (Atoi : string -> option Z) (msgType k : Z)
    (value : Value) (st : Store) (channel message : string) :
  In (channel, message) (published (handleEntry MaxInt msgType k value)) ->
  deliver Atoi st channel message = [].
Proof.
  intros Hin.
  destruct (published_handleEntry MaxInt msgType k value)
    as [H | [[reason H] | [[pin H] | [input H]]]];
    rewrite H in Hin; cbn [In] in Hin.
  - contradiction.
  - destruct Hin as [Heq | []]. injection Heq as <- <-. apply deliver_reset_reason.
  - destruct Hin as [Heq | []]. injection Heq as <- <-. apply deliver_pin_code.
  - destruct Hin as [Heq | []]. injection Heq as <- <-. apply deliver_power_mux.
Qed.

(** C5.  Whatever inbound message the router handles, none of the messages
    it publishes makes a subscriber of the service send anything to the
    device: the calls [WriteInt], [WriteString] and [HDel] publish nothing,
    and what the router publishes is never a payload the subscribers act
    on.  In particular the pairing-pin-remove signal (absolute subtype
    [0xA083], under each message type routed to the BLE parameter handler)
    deletes [ble.pin-code], writes the empty string to it and publishes
    ["pin-code:"] on channel [ble], on which the subscriber of [ble] sends
    nothing. *)
Theorem C5_echo_suppression (MaxInt : Z) (Atoi : string -> option Z) :
  (forall (frameID : Z) (payload : Usock.Payload) (unmarshalled : option (list (Z * Value)))
          (st : Store) (channel message : string),
      In (channel, message) (published (HandleUSockMessage MaxInt frameID payload unmarshalled)) ->
      deliver Atoi st channel message = []) /\
  (forall (msgType : Z) (value : Value),
      In msgType [0xA080; 0xA082; 0xA083; 0xA084] ->
      handleEntry MaxInt msgType 0xA083 value =
      [EHDel "ble" "pin-code"; EHSet "ble" "pin-code" (RString EmptyString); EPublish "ble" "pin-code:"]) /\
  (forall st : Store, deliver Atoi st "ble" "pin-code:" = []).
Proof.
  split; [| split].
  - intros frameID payload unmarshalled st channel message Hin.
    unfold HandleUSockMessage in Hin.
    destruct unmarshalled as [msgData |]; [| contradiction].
    destruct (negb _).
    { destruct (_ && _); contradiction. }
    destruct msgData as [| [absoluteMsgType params] rest]; [contradiction |].
    destruct params as [| | | | interMap | |]; try contradiction.
    rewrite published_flat_map in Hin.
    apply in_flat_map in Hin as [[k value] [_ Hin]].
    apply (handleEntry_no_echo MaxInt Atoi absoluteMsgType k value st channel message Hin).
  - intros msgType value Hin. cbn [In] in Hin.
    destruct Hin as [<- | [<- | [<- | [<- | []]]]]; reflexivity.
  - intros st. reflexivity.
Qed.

Lemma C5_echo_suppression_witness :
  In ("ble", "pin-code:")
     (published (HandleUSockMessage (2 ^ 31 - 1) 0x80 (Usock.mkPayload 0x80 [] 0)
                   (Some [(0xA080, VMap [(VInteger KUint64 0xA083, VInteger KUint64 1)])]))) /\
  deliver (fun _ => None) ∅ "ble" "pin-code:" = [].
Proof.
  assert (Hin : In ("ble", "pin-code:")
     (published (HandleUSockMessage (2 ^ 31 - 1) 0x80 (Usock.mkPayload 0x80 [] 0)
                   (Some [(0xA080, VMap [(VInteger KUint64 0xA083, VInteger KUint64 1)])]))))
    by (left; reflexivity).
  split; [exact Hin |].
  exact (proj1 (C5_echo_suppression (2 ^ 31 - 1) (fun _ => None)) _ _ _ ∅ _ _ Hin).
Defined.

(** For contrast: the bare field name, as an external producer publishes
    it once the pin is gone, does make the subscriber send the removal. *)
Example external_pin_removal (Atoi : string -> option Z) :
  deliver Atoi ∅ "ble" "pin-code" =
  [EWriteWithFrameID 0x83 (mkEnvelope 0xA083 0xA083 (OUint16 1))].
Proof. reflexivity. Qed.

End Router.

(** * Further properties of the frame codec *)

Module CodecProperties.
Import Usock Reference UsockFacts.

(** ** Feeding in pieces *)

(** Feeding a byte sequence in two pieces, in any split, delivers the same
    payloads and leaves the receiver in the same state as feeding it at
    once. *)
Theorem receiver_feed_composes (u : USOCK) (xs ys : list Z) :
  delivered u (xs ++ ys) = delivered u xs ++ delivered (after u xs) ys /\
  after u (xs ++ ys) = after (after u xs) ys.
Proof. split; [apply delivered_app | apply after_app]. Qed.

(** ** The checksum *)

(** On sequences of bytes the table-driven [calculateCRC16] with seed 0 is
    CRC-16/ARC as defined bit by bit (reflected polynomial [0xA001], initial
    value 0, no final XOR). *)
Theorem calculateCRC16_is_crc16_arc (data : list Z) :
  Forall is_byte data ->
  calculateCRC16 data 0 = crc16_arc data /\
  (forall seed, is_uint16 seed ->
     calculateCRC16 data seed = fold_left crc16_arc_byte data seed) /\
  (forall i, is_byte i -> nth (Z.to_nat i) crc16Table 0 = Nat.iter 8 crc16_arc_bit i).
Proof.
  intros Hd.
  assert (Hseed : forall seed, is_uint16 seed ->
            calculateCRC16 data seed = fold_left crc16_arc_byte data seed).
  { unfold calculateCRC16. induction Hd as [| b data Hb Hd IH]; intros seed Hs; [reflexivity |].
    cbn [fold_left]. rewrite (crc16_update_arc seed b Hs Hb).
    apply IH. apply crc16_arc_byte_bounded; assumption. }
  split; [| split].
  - apply Hseed. unfold is_uint16. lia.
  - exact Hseed.
  - apply crc16Table_entry.
Qed.

Lemma calculateCRC16_is_crc16_arc_witness :
  Forall is_byte [0x31; 0x32; 0x33; 0x34; 0x35; 0x36; 0x37; 0x38; 0x39] /\
  calculateCRC16 [0x31; 0x32; 0x33; 0x34; 0x35; 0x36; 0x37; 0x38; 0x39] 0 =
  crc16_arc [0x31; 0x32; 0x33; 0x34; 0x35; 0x36; 0x37; 0x38; 0x39].
Proof.
  assert (H : Forall is_byte [0x31; 0x32; 0x33; 0x34; 0x35; 0x36; 0x37; 0x38; 0x39])
    by (repeat constructor; unfold is_byte; lia).
  split; [exact H |]. exact (proj1 (calculateCRC16_is_crc16_arc _ H)).
Defined.

(** The check value of CRC-16/ARC. *)
Example calculateCRC16_check_value :
  calculateCRC16 [0x31; 0x32; 0x33; 0x34; 0x35; 0x36; 0x37; 0x38; 0x39] 0 = 0xBB3D.
Proof. vm_compute. reflexivity. Qed.

Lemma calculateCRC16_app (xs ys : list Z) (seed : Z) :
  calculateCRC16 (xs ++ ys) seed = calculateCRC16 ys (calculateCRC16 xs seed).
Proof. unfold calculateCRC16. apply fold_left_app. Qed.

Lemma crc16_update_low_byte (c : Z) :
  is_uint16 c -> crc16_update c (c mod 256) = c / 256.
Proof.
  intros Hc. unfold crc16_update.
  pose proof (lo_is_byte c) as Hlo.
  rewrite (uint16_small (c mod 256)) by (apply byte_is_uint16; exact Hlo).
  rewrite (uint16_small (Z.lxor c (c mod 256)))
    by (apply lxor_uint16; [exact Hc | apply byte_is_uint16; exact Hlo]).
  assert (Hidx : Z.land (Z.lxor c (c mod 256)) 0xff = 0).
  { change 0xff with (Z.ones 8). rewrite Z.land_ones by lia. change (2 ^ 8) with 256.
    apply Z.bits_inj'. intros n Hn. rewrite Z.bits_0.
    change 256 with (2 ^ 8).
    destruct (Z.lt_ge_cases n 8) as [Hlt | Hge].
    - rewrite Z.mod_pow2_bits_low by lia. rewrite Z.lxor_spec.
      rewrite Z.mod_pow2_bits_low by lia. apply xorb_nilpotent.
    - apply Z.mod_pow2_bits_high. lia. }
  rewrite Hidx. change (nth (Z.to_nat 0) crc16Table 0) with 0.
  rewrite Z.lxor_0_r, Z.shiftr_div_pow2 by lia. reflexivity.
Qed.

Lemma crc16_update_self (h : Z) : is_byte h -> crc16_update h h = 0.
Proof.
  intros Hh. unfold crc16_update.
  rewrite (uint16_small h) by (apply byte_is_uint16; exact Hh).
  rewrite Z.lxor_nilpotent. change (Z.land (uint16 0) 255) with 0.
  change (nth (Z.to_nat 0) crc16Table 0) with 0.
  rewrite Z.lxor_0_r, Z.shiftr_div_pow2 by lia.
  apply Z.div_small. exact Hh.
Qed.

(** The residue of the checksum: the CRC of any data followed by the two
    bytes its CRC is sent as (low byte first) is 0. *)
Theorem calculateCRC16_residue (data : list Z) :
  let crc := calculateCRC16 data 0 in
  calculateCRC16 (data ++ [uint8 (Z.land crc 0xFF); uint8 (Z.land (Z.shiftr crc 8) 0xFF)]) 0 = 0.
Proof.
  intros crc.
  assert (Hcrc : is_uint16 crc) by apply calculateCRC16_0_bounded.
  rewrite calculateCRC16_app. fold crc.
  rewrite lo_byte, (hi_byte crc Hcrc).
  unfold calculateCRC16. cbn [fold_left].
  rewrite (crc16_update_low_byte crc Hcrc).
  apply crc16_update_self. apply hi_is_byte. exact Hcrc.
Qed.

Lemma lxor_byte (a b : Z) : is_byte a -> is_byte b -> is_byte (Z.lxor a b).
Proof.
  unfold is_byte. intros [Ha0 Ha] [Hb0 Hb].
  assert (H0 : 0 <= Z.lxor a b) by (apply Z.lxor_nonneg; lia).
  split; [exact H0 |].
  destruct (Z.eq_dec (Z.lxor a b) 0) as [E | N]; [lia |].
  change 256 with (2 ^ 8). apply Z.log2_lt_pow2; [lia |].
  pose proof (Z.log2_lxor a b Ha0 Hb0) as Hl.
  assert (La : Z.log2 a < 8).
  { destruct (Z.eq_dec a 0) as [-> | ?]; [reflexivity |].
    apply Z.log2_lt_pow2; [lia | exact Ha]. }
  assert (Lb : Z.log2 b < 8).
  { destruct (Z.eq_dec b 0) as [-> | ?]; [reflexivity |].
    apply Z.log2_lt_pow2; [lia | exact Hb]. }
  lia.
Qed.

Lemma crc8_fold (data : list Z) (seed : Z) :
  is_byte seed -> Forall is_byte data ->
  fold_left (fun crc b => uint8 (Z.lxor crc b)) data seed =
  Z.lxor seed (calculateCRC8 data) /\
  is_byte (fold_left (fun crc b => uint8 (Z.lxor crc b)) data seed).
Proof.
  unfold calculateCRC8. revert seed.
  induction data as [| b data IH]; intros seed Hs Hd.
  - cbn. rewrite Z.lxor_0_r. split; [reflexivity | exact Hs].
  - apply List.Forall_cons_iff in Hd as [Hb Hd]. cbn [fold_left].
    assert (Hsb : is_byte (Z.lxor seed b)) by (apply lxor_byte; assumption).
    rewrite (uint8_small _ Hsb).
    rewrite Z.lxor_0_l, (uint8_small b Hb).
    destruct (IH (Z.lxor seed b) Hsb Hd) as [E1 B1].
    destruct (IH b Hb Hd) as [E2 _].
    split; [| exact B1].
    rewrite E1, E2. apply Z.lxor_assoc.
Qed.

(** On sequences of bytes, [calculateCRC8] of a concatenation is the XOR of
    the checksums of the parts, the checksum of data followed by its own
    checksum is 0, and the checksum is a byte. *)
Theorem calculateCRC8_checks (xs ys : list Z) :
  Forall is_byte xs -> Forall is_byte ys ->
  calculateCRC8 (xs ++ ys) = Z.lxor (calculateCRC8 xs) (calculateCRC8 ys) /\
  calculateCRC8 (xs ++ [calculateCRC8 xs]) = 0 /\
  is_byte (calculateCRC8 xs).
Proof.
  intros Hx Hy.
  assert (H0 : is_byte 0) by (unfold is_byte; lia).
  destruct (crc8_fold xs 0 H0 Hx) as [_ Bx]. fold (calculateCRC8 xs) in Bx.
  assert (Happ : forall zs, Forall is_byte zs ->
            calculateCRC8 (xs ++ zs) = Z.lxor (calculateCRC8 xs) (calculateCRC8 zs)).
  { intros zs Hz. unfold calculateCRC8 at 1. rewrite fold_left_app.
    fold (calculateCRC8 xs). apply (crc8_fold zs (calculateCRC8 xs) Bx Hz). }
  split; [apply Happ; exact Hy |]. split; [| exact Bx].
  rewrite Happ by (constructor; [exact Bx | constructor]).
  replace (calculateCRC8 [calculateCRC8 xs]) with (calculateCRC8 xs).
  - apply Z.lxor_nilpotent.
  - unfold calculateCRC8 at 2. cbn [fold_left]. rewrite Z.lxor_0_l.
    symmetry. apply uint8_small. exact Bx.
Qed.

Lemma calculateCRC8_checks_witness :
  Forall is_byte [0x12; 0x34; 0x56] /\ Forall is_byte [0x78] /\
  calculateCRC8 ([0x12; 0x34; 0x56] ++ [calculateCRC8 [0x12; 0x34; 0x56]]) = 0.
Proof.
  assert (Hx : Forall is_byte [0x12; 0x34; 0x56]) by (repeat constructor; unfold is_byte; lia).
  assert (Hy : Forall is_byte [0x78]) by (repeat constructor; unfold is_byte; lia).
  split; [exact Hx |]. split; [exact Hy |].
  exact (proj1 (proj2 (calculateCRC8_checks _ _ Hx Hy))).
Defined.

(** ** The encoder *)

Lemma len_app (xs ys : list Z) : len (xs ++ ys) = len xs + len ys.
Proof. unfold len. rewrite length_app. lia. Qed.

Lemma WriteWithFrameID_error (frameID : Z) (data : list Z) :
  WriteWithFrameID frameID data = None <-> 1024 < len data.
Proof.
  unfold WriteWithFrameID, MaxPayloadLength.
  destruct (Z.gtb_spec (len data) 1024) as [Hgt | Hle].
  - split; [intros _; lia | reflexivity].
  - split; [discriminate | lia].
Qed.


Example WriteWithFrameID_largest :
  exists bs, WriteWithFrameID 0x42 (repeat 0xAA 1024) = Some bs /\ length bs = 1033%nat.
Proof. eexists. split; [reflexivity | vm_compute; reflexivity]. Qed.

Example WriteWithFrameID_too_long :
  WriteWithFrameID 0x42 (repeat 0xAA 1025) = None.
Proof. vm_compute. reflexivity. Qed.

(** [Write] refuses the empty argument; otherwise it sends its first byte
    as the frame ID and the rest as the payload, and for a rest of 1 to
    1024 bytes a fresh receiver fed the bytes written delivers exactly that
    frame ID and payload. *)
Theorem Write_round_trip (frameID : Z) (payload : list Z) :
  payload <> [] -> len payload <= 1024 ->
  Write [] = None /\
  exists bs,
    Write (frameID :: payload) = Some bs /\
    delivered New bs = [mkPayload frameID payload (len payload)] /\
    state (after New bs) = StateSync1.
Proof.
  intros Hne Hlen. split; [reflexivity |].
  destruct (WriteWithFrameID frameID payload) as [bs |] eqn:Hw.
  - exists bs. cbn [Write]. split; [exact Hw |].
    unfold delivered, after, New.
    destruct (feed_encoded (mkFrame 0 0 0 [] 0) [] frameID payload bs Hne Hw) as [f' ->].
    split; reflexivity.
  - apply WriteWithFrameID_error in Hw. lia.
Qed.

Lemma Write_round_trip_witness :
  [0xA1; 0x01; 0xC0; 0x01] <> [] /\ len [0xA1; 0x01; 0xC0; 0x01] <= 1024 /\
  exists bs,
    Write [0xC0; 0xA1; 0x01; 0xC0; 0x01] = Some bs /\
    delivered New bs = [mkPayload 0xC0 [0xA1; 0x01; 0xC0; 0x01] 4].
Proof.
  assert (Hne : [0xA1; 0x01; 0xC0; 0x01] <> []) by discriminate.
  assert (Hlen : len [0xA1; 0x01; 0xC0; 0x01] <= 1024) by (vm_compute; discriminate).
  split; [exact Hne |]. split; [exact Hlen |].
  destruct (Write_round_trip 0xC0 _ Hne Hlen) as [_ [bs [Hw [Hd _]]]].
  exists bs. split; [exact Hw | exact Hd].
Defined.

(** ** What the receiver rejects *)

Lemma join_lo_hi (lo hi : Z) :
  is_byte lo -> is_byte hi ->
  Z.lor (uint16 lo) (uint16 (Z.shiftl (uint16 hi) 8)) = lo + 256 * hi.
Proof.
  unfold is_byte. intros Hlo Hhi.
  assert (Hc : is_uint16 (lo + 256 * hi)) by (unfold is_uint16; lia).
  assert (Hmod : (lo + 256 * hi) mod 256 = lo).
  { symmetry. apply (Z.mod_unique _ 256 hi lo); lia. }
  assert (Hdiv : (lo + 256 * hi) / 256 = hi).
  { symmetry. apply (Z.div_unique _ 256 hi lo); lia. }
  pose proof (join_bytes (lo + 256 * hi) Hc) as H.
  rewrite Hmod, Hdiv in H. exact H.
Qed.

(** After the two sync bytes and a frame ID, the two length bytes decide:
    a receiver in [StateSync1] that takes such a header is back in
    [StateSync1] if the little-endian length exceeds 1024, and waits for the
    header CRC otherwise; it delivers nothing. *)
Theorem oversize_length_rejected (f : Frame) (buf : list Z) (frameID lo hi : Z) :
  is_byte lo -> is_byte hi ->
  state (after (mkUSOCK StateSync1 f buf) [0xF6; 0xD9; frameID; lo; hi]) =
    (if lo + 256 * hi >? 1024 then StateSync1 else StateHeaderCRC1) /\
  delivered (mkUSOCK StateSync1 f buf) [0xF6; 0xD9; frameID; lo; hi] = [].
Proof.
  intros Hlo Hhi. unfold after, delivered.
  change 0xF6 with SyncByte1. change 0xD9 with SyncByte2.
  rewrite (feed_none _ _ _ _ (step_Sync1_sync _ _)).
  rewrite (feed_none _ _ _ _ (step_Sync2_sync _ _)).
  rewrite (feed_none _ _ _ _ (step_FrameID _ _ _)).
  rewrite (feed_none _ _ _ _ (step_PayloadLen1 _ _ _)).
  rewrite (feed_none _ _ _ _ (step_PayloadLen2 _ _ _)).
  cbn [frame_ID frame_PayloadLen frame_HeaderCRC frame_Payload frame_PayloadCRC feed fst snd].
  rewrite (join_lo_hi lo hi Hlo Hhi). split; reflexivity.
Qed.

Lemma oversize_length_rejected_witness :
  is_byte 0x01 /\ is_byte 0x04 /\
  state (after New [0xF6; 0xD9; 0x42; 0x01; 0x04]) = StateSync1 /\
  state (after New [0xF6; 0xD9; 0x42; 0x00; 0x04]) = StateHeaderCRC1.
Proof.
  assert (H0 : is_byte 0x00) by (unfold is_byte; lia).
  assert (H1 : is_byte 0x01) by (unfold is_byte; lia).
  assert (H4 : is_byte 0x04) by (unfold is_byte; lia).
  split; [exact H1 |]. split; [exact H4 |]. split.
  - exact (proj1 (oversize_length_rejected (mkFrame 0 0 0 [] 0) [] 0x42 0x01 0x04 H1 H4)).
  - exact (proj1 (oversize_length_rejected (mkFrame 0 0 0 [] 0) [] 0x42 0x00 0x04 H0 H4)).
Defined.

(** A frame whose two last bytes are not the CRC of its payload is dropped:
    a receiver in [StateSync1] that takes the header and payload the encoder
    builds for 1 to 1024 bytes, followed by two bytes that differ from the
    payload CRC, delivers nothing and is back in [StateSync1]. *)
Theorem payload_crc_mismatch_rejected (f : Frame) (buf : list Z) (frameID : Z)
    (data : list Z) (c1 c2 : Z) :
  data <> [] -> len data <= 1024 ->
  is_byte c1 -> is_byte c2 ->
  c1 + 256 * c2 <> calculateCRC16 data 0 ->
  let hcrc := calculateCRC16 (header frameID data) 0 in
  let bs := header frameID data
            ++ [uint8 (Z.land hcrc 0xFF); uint8 (Z.land (Z.shiftr hcrc 8) 0xFF)]
            ++ data ++ [c1; c2] in
  delivered (mkUSOCK StateSync1 f buf) bs = [] /\
  state (after (mkUSOCK StateSync1 f buf) bs) = StateSync1.
Proof.
  intros Hne Hlen Hc1 Hc2 Hcrc hcrc bs. subst bs hcrc.
  assert (H0 : 0 <= len data) by (unfold len; lia).
  unfold delivered, after, header.
  rewrite (uint16_small (len data)) by (unfold is_uint16; lia).
  rewrite (feed_header f buf frameID (len data)) by (unfold MaxPayloadLength; lia).
  rewrite (feed_payload data [] _ frameID (len data));
    [| exact Hne | reflexivity | unfold MaxPayloadLength; exact Hlen].
  cbn [app].
  rewrite (feed_none _ _ _ _ (step_PayloadCRC1 _ _ _)).
  cbn [frame_ID frame_PayloadLen frame_HeaderCRC frame_Payload frame_PayloadCRC].
  pose proof (step_PayloadCRC2
                (mkFrame frameID (len data)
                   (calculateCRC16 ([SyncByte1; SyncByte2; frameID] ++ PutUint16 (len data)) 0)
                   data (uint16 c1)) data c2) as Hstep.
  cbv zeta in Hstep.
  cbn [frame_ID frame_PayloadLen frame_HeaderCRC frame_Payload frame_PayloadCRC] in Hstep.
  rewrite (join_lo_hi c1 c2 Hc1 Hc2) in Hstep.
  replace (calculateCRC16 data 0 =? c1 + 256 * c2) with false in Hstep
    by (symmetry; apply Z.eqb_neq; congruence).
  rewrite (feed_none _ _ _ _ Hstep). split; reflexivity.
Qed.

Lemma payload_crc_mismatch_rejected_witness :
  [0xA1; 0x01; 0xC0; 0x01] <> [] /\
  0xE3 + 256 * 0xFD <> calculateCRC16 [0xA1; 0x01; 0xC0; 0x01] 0 /\
  delivered New [0xF6; 0xD9; 0xC0; 0x04; 0x00; 0xF1; 0xB5; 0xA1; 0x01; 0xC0; 0x01; 0xE3; 0xFD] = [].
Proof.
  assert (Hne : [0xA1; 0x01; 0xC0; 0x01] <> []) by discriminate.
  assert (Hlen : len [0xA1; 0x01; 0xC0; 0x01] <= 1024) by (vm_compute; discriminate).
  assert (Hc1 : is_byte 0xE3) by (unfold is_byte; lia).
  assert (Hc2 : is_byte 0xFD) by (unfold is_byte; lia).
  assert (Hcrc : 0xE3 + 256 * 0xFD <> calculateCRC16 [0xA1; 0x01; 0xC0; 0x01] 0)
    by (vm_compute; discriminate).
  split; [exact Hne |]. split; [exact Hcrc |].
  exact (proj1 (payload_crc_mismatch_rejected (mkFrame 0 0 0 [] 0) [] 0xC0 _ 0xE3 0xFD
                  Hne Hlen Hc1 Hc2 Hcrc)).
Defined.

(** A receiver waiting for a frame ignores every byte other than [0xF6]:
    such bytes change neither its state nor the frame fields and buffer it
    holds, and deliver nothing. *)
Theorem idle_receiver_ignores_other_bytes (u : USOCK) (G : list Z) :
  state u = StateSync1 ->
  Forall (fun b => b <> 0xF6) G ->
  after u G = u /\ delivered u G = [].
Proof.
  intros Hs HG. unfold after, delivered.
  assert (Hfeed : feed u G = (u, [])).
  { induction HG as [| b G Hb HG IH]; [reflexivity |].
    rewrite (state_Sync1_inv u Hs) at 1.
    rewrite (feed_none _ _ _ _ (step_Sync1_other _ _ b Hb)).
    rewrite <- (state_Sync1_inv u Hs). exact IH. }
  rewrite Hfeed. split; reflexivity.
Qed.

Lemma idle_receiver_ignores_other_bytes_witness :
  state New = StateSync1 /\
  Forall (fun b => b <> 0xF6) [0xD9; 0x00; 0xFF; 0xD9] /\
  after New [0xD9; 0x00; 0xFF; 0xD9] = New.
Proof.
  assert (Hs : state New = StateSync1) by reflexivity.
  assert (HG : Forall (fun b => b <> 0xF6) [0xD9; 0x00; 0xFF; 0xD9])
    by (repeat constructor; discriminate).
  split; [exact Hs |]. split; [exact HG |].
  exact (proj1 (idle_receiver_ignores_other_bytes New _ Hs HG)).
Defined.

(** ** What the receiver delivers *)

Lemma receiverInvariant_New : receiverInvariant New.
Proof. exact I. Qed.

(** One byte keeps the invariant of the receiver, and a payload delivered
    at that byte has 1 to 1024 bytes, carries its own length as [Size], and
    has as CRC the value rebuilt from the two CRC bytes received. *)
Lemma processByte_invariant (u : USOCK) (b : Z) :
  receiverInvariant u ->
  receiverInvariant (fst (processByte u b)) /\
  (forall p, snd (processByte u b) = Some p ->
     state u = StatePayloadCRC2 /\
     state (fst (processByte u b)) = StateSync1 /\
     1 <= len (payload_Data p) <= 1024 /\
     payload_Size p = len (payload_Data p) /\
     calculateCRC16 (payload_Data p) 0 =
       Z.lor (frame_PayloadCRC (frame u)) (uint16 (Z.shiftl (uint16 b) 8))).
Proof.
  destruct u as [s f buf]. unfold receiverInvariant.
  destruct s; cbn [state frame buffer]; intros Hinv.
  - (* StateSync1 *)
    unfold processByte. cbn [state frame buffer].
    destruct (b =? SyncByte1); cbn; (split; [exact I | discriminate]).
  - (* StateSync2 *)
    unfold processByte. cbn [state frame buffer].
    destruct (b =? SyncByte2); cbn; (split; [exact I | discriminate]).
  - cbn. split; [exact I | discriminate].
  - cbn. split; [exact I | discriminate].
  - (* StatePayloadLen2 *)
    rewrite step_PayloadLen2. cbn [fst snd state frame frame_PayloadLen].
    split; [| discriminate].
    destruct (Z.gtb_spec (Z.lor (frame_PayloadLen f) (uint16 (Z.shiftl (uint16 b) 8)))
                MaxPayloadLength) as [Hgt | Hle]; [exact I |].
    unfold MaxPayloadLength in Hle. exact Hle.
  - cbn. split; [exact Hinv | discriminate].
  - (* StateHeaderCRC2 *)
    rewrite step_HeaderCRC2.
    destruct (calculateCRC16 buf 0 =? _); cbn; (split; [| discriminate]).
    + split; [exact Hinv |]. split; [reflexivity | left; reflexivity].
    + exact I.
  - (* StatePayload *)
    destruct Hinv as [Hmax [Hbuf Hshort]].
    assert (Hlen : len (frame_Payload f ++ [b]) = len (frame_Payload f) + 1).
    { unfold len. rewrite length_app. cbn [length]. lia. }
    assert (H0 : 0 <= len (frame_Payload f)) by (unfold len; lia).
    assert (Hlt : len (frame_Payload f) < 1024).
    { destruct Hshort as [He | Hs]; [rewrite He; change (len []) with 0; lia | lia]. }
    unfold processByte. cbn [state frame buffer].
    rewrite (uint16_small (len (frame_Payload f ++ [b]))) by (unfold is_uint16; lia).
    destruct (Z.geb_spec (len (frame_Payload f ++ [b])) (frame_PayloadLen f)) as [Hge | Hlow];
      cbn [fst snd state frame buffer frame_PayloadLen frame_Payload];
      (split; [| discriminate]).
    + split; [rewrite Hbuf; reflexivity | lia].
    + split; [exact Hmax |]. split; [rewrite Hbuf; reflexivity | right; lia].
  - cbn. split; [exact Hinv | discriminate].
  - (* StatePayloadCRC2 *)
    destruct Hinv as [Hbuf Hlen].
    rewrite step_PayloadCRC2.
    destruct (Z.eqb_spec (calculateCRC16 buf 0)
                (Z.lor (frame_PayloadCRC f) (uint16 (Z.shiftl (uint16 b) 8)))) as [Heq | Hne];
      cbn [fst snd state]; (split; [exact I |]); [| discriminate].
    intros p Hp. apply (inj Some) in Hp. subst p. cbn [payload_Data payload_Size].
    rewrite <- Hbuf. repeat split; try (rewrite Hbuf; lia). exact Heq.
Qed.

Lemma feed_invariant (bs : list Z) (u : USOCK) :
  receiverInvariant u ->
  receiverInvariant (after u bs) /\
  Forall (fun p => 1 <= len (payload_Data p) <= 1024 /\ payload_Size p = len (payload_Data p))
         (delivered u bs).
Proof.
  revert u. induction bs as [| b bs IH]; intros u Hinv.
  - split; [exact Hinv | constructor].
  - unfold after, delivered. rewrite feed_cons. cbn [fst snd].
    destruct (processByte_invariant u b Hinv) as [Hnext Hout].
    destruct (IH _ Hnext) as [Hafter Hdel].
    split; [exact Hafter |].
    destruct (snd (processByte u b)) as [p |] eqn:Hp; [| exact Hdel].
    constructor; [| exact Hdel].
    destruct (Hout p eq_refl) as [_ [_ [Hb [Hs _]]]]. split; assumption.
Qed.

(** Whatever bytes a fresh receiver is fed, every payload it delivers has
    between 1 and 1024 bytes, and its [Size] is the number of its bytes. *)
Theorem delivered_payload_bounds (bs : list Z) :
  Forall (fun p => 1 <= len (payload_Data p) <= 1024 /\ payload_Size p = len (payload_Data p))
         (delivered New bs).
Proof. apply (feed_invariant bs New receiverInvariant_New). Qed.

(** A payload is delivered only at the second byte of the payload CRC, only
    if CRC-16 of the delivered data is the value the two CRC bytes received
    rebuild, and the receiver is then back in [StateSync1]; this holds at
    every byte of every input to a fresh receiver. *)
Theorem delivery_needs_matching_crc (bs : list Z) (b : Z) (p : Payload) :
  snd (processByte (after New bs) b) = Some p ->
  state (after New bs) = StatePayloadCRC2 /\
  state (after New (bs ++ [b])) = StateSync1 /\
  calculateCRC16 (payload_Data p) 0 =
    Z.lor (frame_PayloadCRC (frame (after New bs))) (uint16 (Z.shiftl (uint16 b) 8)).
Proof.
  intros Hp.
  destruct (feed_invariant bs New receiverInvariant_New) as [Hinv _].
  destruct (processByte_invariant (after New bs) b Hinv) as [_ Hout].
  destruct (Hout p Hp) as [Hs [Hs' [_ [_ Hcrc]]]].
  split; [exact Hs |]. split; [| exact Hcrc].
  rewrite after_app. unfold after at 1. rewrite feed_cons. exact Hs'.
Qed.

Lemma delivery_needs_matching_crc_witness :
  snd (processByte
         (after New [0xF6; 0xD9; 0xC0; 0x04; 0x00; 0xF1; 0xB5; 0xA1; 0x01; 0xC0; 0x01; 0xE3]) 0xFC) =
    Some (mkPayload 0xC0 [0xA1; 0x01; 0xC0; 0x01] 4) /\
  calculateCRC16 [0xA1; 0x01; 0xC0; 0x01] 0 = Z.lor 0xE3 (uint16 (Z.shiftl (uint16 0xFC) 8)).
Proof.
  assert (Hp : snd (processByte
         (after New [0xF6; 0xD9; 0xC0; 0x04; 0x00; 0xF1; 0xB5; 0xA1; 0x01; 0xC0; 0x01; 0xE3]) 0xFC) =
    Some (mkPayload 0xC0 [0xA1; 0x01; 0xC0; 0x01] 4)) by (vm_compute; reflexivity).
  split; [exact Hp |].
  exact (proj2 (proj2 (delivery_needs_matching_crc _ _ _ Hp))).
Defined.

Lemma processByte_bytesTaken (u : USOCK) (b : Z) :
  bytesTaken (state (fst (processByte u b)))
  + 10 * (match snd (processByte u b) with Some _ => 1 | None => 0 end)
  <= bytesTaken (state u) + 1.
Proof.
  destruct u as [s f buf]. unfold processByte. cbn [state frame buffer].
  destruct s;
    repeat match goal with
           | |- context [if ?c then _ else _] =>
               match type of c with bool => destruct c end
           end; cbn; lia.
Qed.

Lemma feed_bytesTaken (bs : list Z) (u : USOCK) :
  bytesTaken (state (after u bs)) + 10 * Z.of_nat (length (delivered u bs))
  <= bytesTaken (state u) + Z.of_nat (length bs).
Proof.
  revert u. induction bs as [| b bs IH]; intros u.
  - cbn. lia.
  - unfold after, delivered. rewrite feed_cons. cbn [fst snd].
    pose proof (processByte_bytesTaken u b) as Hstep.
    pose proof (IH (fst (processByte u b))) as Hrest.
    destruct (snd (processByte u b)); cbn [length] in *; lia.
Qed.

(** No frame comes out of fewer than ten bytes: the number of payloads a
    fresh receiver delivers is at most a tenth of the number of bytes it
    was fed. *)
Theorem ten_bytes_per_frame (bs : list Z) :
  10 * Z.of_nat (length (delivered New bs)) <= Z.of_nat (length bs).
Proof.
  pose proof (feed_bytesTaken bs New) as H.
  assert (H0 : 0 <= bytesTaken (state (after New bs)))
    by (destruct (state (after New bs)); cbn; lia).
  change (bytesTaken (state New)) with 0 in H. lia.
Qed.

(** ** Frames sent one after the other *)

Lemma feed_frames (frames : list (Z * list Z)) (bs : list Z) (f : Frame) (buf : list Z) :
  writeAll frames = Some bs ->
  Forall (fun fr => snd fr <> []) frames ->
  exists f' buf',
    feed (mkUSOCK StateSync1 f buf) bs =
    (mkUSOCK StateSync1 f' buf',
     map (fun fr => mkPayload (fst fr) (snd fr) (len (snd fr))) frames).
Proof.
  revert bs f buf. induction frames as [| [frameID data] frames IH]; intros bs f buf Hw Hne.
  - apply (inj Some) in Hw. subst bs. exists f, buf. reflexivity.
  - cbn [writeAll] in Hw.
    destruct (WriteWithFrameID frameID data) as [b1 |] eqn:H1; [| discriminate].
    destruct (writeAll frames) as [b2 |] eqn:H2; [| discriminate].
    apply (inj Some) in Hw. subst bs.
    apply List.Forall_cons_iff in Hne as [Hd Hne]. cbn [snd] in Hd.
    destruct (feed_encoded f buf frameID data b1 Hd H1) as [f1 Hf1].
    destruct (IH b2 f1 data eq_refl Hne) as [f' [buf' Hf2]].
    exists f', buf'. rewrite feed_app. unfold after, delivered.
    rewrite Hf1. cbn [fst snd]. rewrite Hf2. reflexivity.
Qed.

(** Frames written one after the other, each with a payload of 1 to 1024
    bytes, are delivered by a fresh receiver one by one, in the order
    written and with nothing else, and the receiver ends in [StateSync1]. *)
Theorem frames_back_to_back (frames : list (Z * list Z)) (bs : list Z) :
  writeAll frames = Some bs ->
  Forall (fun fr => snd fr <> []) frames ->
  delivered New bs = map (fun fr => mkPayload (fst fr) (snd fr) (len (snd fr))) frames /\
  state (after New bs) = StateSync1.
Proof.
  intros Hw Hne. unfold delivered, after, New.
  destruct (feed_frames frames bs (mkFrame 0 0 0 [] 0) [] Hw Hne) as [f' [buf' ->]].
  split; reflexivity.
Qed.

Lemma frames_back_to_back_witness :
  writeAll [(0xC0, [0xA1; 0x01]); (0x20, [0x05])] =
    Some ([0xF6; 0xD9; 0xC0; 0x02; 0x00; 0xF2; 0x15; 0xA1; 0x01; 0xB8; 0x50]
          ++ [0xF6; 0xD9; 0x20; 0x01; 0x00; 0xF3; 0x13; 0x05; 0xC0; 0x03]) /\
  Forall (fun fr : Z * list Z => snd fr <> []) [(0xC0, [0xA1; 0x01]); (0x20, [0x05])] /\
  delivered New ([0xF6; 0xD9; 0xC0; 0x02; 0x00; 0xF2; 0x15; 0xA1; 0x01; 0xB8; 0x50]
                 ++ [0xF6; 0xD9; 0x20; 0x01; 0x00; 0xF3; 0x13; 0x05; 0xC0; 0x03]) =
  [mkPayload 0xC0 [0xA1; 0x01] 2; mkPayload 0x20 [0x05] 1].
Proof.
  assert (Hw : writeAll [(0xC0, [0xA1; 0x01]); (0x20, [0x05])] =
    Some ([0xF6; 0xD9; 0xC0; 0x02; 0x00; 0xF2; 0x15; 0xA1; 0x01; 0xB8; 0x50]
          ++ [0xF6; 0xD9; 0x20; 0x01; 0x00; 0xF3; 0x13; 0x05; 0xC0; 0x03]))
    by (vm_compute; reflexivity).
  assert (Hne : Forall (fun fr : Z * list Z => snd fr <> []) [(0xC0, [0xA1; 0x01]); (0x20, [0x05])])
    by (repeat constructor; discriminate).
  split; [exact Hw |]. split; [exact Hne |].
  exact (proj1 (frames_back_to_back _ _ Hw Hne)).
Defined.

End CodecProperties.

(** * Further properties of the router and of the outbound translation *)

Module RouterProperties.
Import Ble Service Reference UsockFacts Router.

(** ** What the inbound side sends *)

Lemma sent_app (es1 es2 : list Effect) : sent (es1 ++ es2) = sent es1 ++ sent es2.
Proof. unfold sent. apply flat_map_app. Qed.

Lemma sent_flat_map {A : Type} (f : A -> list Effect) (l : list A) :
  sent (flat_map f l) = flat_map (fun a => sent (f a)) l.
Proof.
  induction l as [| a l IH]; [reflexivity |].
  cbn [flat_map]. rewrite sent_app, IH. reflexivity.
Qed.

(** The acknowledgement of the reset information: frame ID [0x20], message
    [{0xA020: {0xA023: 0}}]. *)
Lemma sent_handleBLEDebugMessage (MaxInt msgType k : Z) (value : Value) :
  sent (handleBLEDebugMessage MaxInt msgType k value) = [] \/
  (k = 0xA021 /\
   sent (handleBLEDebugMessage MaxInt msgType k value) =
   [(0x20, mkEnvelope 0xA020 0xA023 (OUint16 0))]).
Proof.
  unfold handleBLEDebugMessage.
  destruct (k =? _); [left; reflexivity |].
  destruct (Z.eqb_spec k (uint16 TypeBLEReset)) as [Hk | ?]; [| left; reflexivity].
  destruct value as [| | | l | | |]; try (left; reflexivity).
  destruct l as [| r [| c [| ? ?]]]; try (left; reflexivity).
  destruct (convertToInt MaxInt r) as [reason reasonOk].
  destruct (convertToInt MaxInt c) as [count countOk].
  destruct (reasonOk && countOk); [| left; reflexivity].
  right. split; [exact Hk | reflexivity].
Qed.

Ltac no_send h := unfold h; split_tests; reflexivity.

Lemma sent_handleEntry (MaxInt msgType k : Z) (value : Value) :
  sent (handleEntry MaxInt msgType k value) = [] \/
  ((msgType = 0xA020 \/ msgType = 0xA021) /\ k = 0xA021 /\
   sent (handleEntry MaxInt msgType k value) = [(0x20, mkEnvelope 0xA020 0xA023 (OUint16 0))]).
Proof.
  unfold handleEntry, dispatch.
  destruct (msgType =? TypeBattery).
  { left. destruct (negb _); [no_send handleBatteryMessage | reflexivity]. }
  destruct (msgType =? TypeVehicleState); [left; reflexivity |].
  destruct (msgType =? TypeScooterInfo); [left; no_send handleScooterInfoMessage |].
  destruct (_ || _); [left; no_send handleBLEParamMessage |].
  destruct (msgType =? TypeBLEVersion); [left; no_send handleBLEVersionMessage |].
  destruct (Z.eqb_spec msgType TypeBLEDebug) as [Hd | Hd].
  { cbn [orb]. destruct (sent_handleBLEDebugMessage MaxInt msgType k value) as [H | [Hk H]];
      [left; exact H | right; split; [left; exact Hd | split; assumption]]. }
  destruct (Z.eqb_spec msgType TypeBLEReset) as [Hr | Hr].
  { cbn [orb]. destruct (sent_handleBLEDebugMessage MaxInt msgType k value) as [H | [Hk H]];
      [left; exact H | right; split; [right; exact Hr | split; assumption]]. }
  cbn [orb].
  destruct (msgType =? TypeDataStream); [left; no_send handleDataStreamMessage |].
  destruct (msgType =? TypePowerManagement); [left; reflexivity |].
  destruct (msgType =? TypeAuxBattery); [left; no_send handleAuxBatteryMessage |].
  destruct (msgType =? TypeBLECommand); [left; reflexivity |].
  destruct (msgType =? TypeBatteryInfo).
  { left. unfold handleBatteryInfoMessage, writeFaultToRedis.
    destruct (convertToInt MaxInt value) as [intVal intOk].
    destruct (convertToString value) as [strVal strOk].
    repeat match goal with
           | |- context [if ?c then _ else _] => destruct c
           end; reflexivity. }
  destruct (msgType =? TypePowerMux); [left; no_send handlePowerMuxMessage |].
  destruct (msgType =? 0); [left; no_send handleEventMessage |].
  left; reflexivity.
Qed.

(** Handling an inbound message sends nothing to the device, with one
    exception: each reset-information entry (key [0xA021] in an envelope of
    type [0xA020] or [0xA021]) that decodes is acknowledged with the frame
    of ID [0x20] carrying [{0xA020: {0xA023: 0}}]. *)
Theorem router_sends_only_reset_ack (MaxInt frameID : Z) (payload : Usock.Payload)
    (unmarshalled : option (list (Z * Value))) :
  Forall (fun fr => fr = (0x20, mkEnvelope 0xA020 0xA023 (OUint16 0)))
         (sent (HandleUSockMessage MaxInt frameID payload unmarshalled)) /\
  (forall msgType params,
      unmarshalled = Some [(msgType, params)] ->
      msgType <> 0xA020 -> msgType <> 0xA021 ->
      sent (HandleUSockMessage MaxInt frameID payload unmarshalled) = []).
Proof.
  assert (Hentries : forall msgType (l : list (Z * Value)),
            Forall (fun fr => fr = (0x20, mkEnvelope 0xA020 0xA023 (OUint16 0)))
              (flat_map (fun kv => sent (handleEntry MaxInt msgType (fst kv) (snd kv))) l) /\
            (msgType <> 0xA020 -> msgType <> 0xA021 ->
             flat_map (fun kv => sent (handleEntry MaxInt msgType (fst kv) (snd kv))) l = [])).
  { intros msgType l. induction l as [| [k v] l [IH1 IH2]]; [split; [constructor | reflexivity] |].
    cbn [flat_map fst snd].
    destruct (sent_handleEntry MaxInt msgType k v) as [H | [Hm [_ H]]]; rewrite H.
    - split; [exact IH1 | exact IH2].
    - split; [constructor; [reflexivity | exact IH1] |].
      intros H1 H2. destruct Hm; contradiction. }
  assert (Hnil : Forall (fun fr => fr = (0x20, mkEnvelope 0xA020 0xA023 (OUint16 0))) [])
    by constructor.
  split.
  - unfold HandleUSockMessage.
    destruct unmarshalled as [msgData |]; [| exact Hnil].
    destruct (negb _); [destruct (_ && _); exact Hnil |].
    destruct msgData as [| [msgType params] rest]; [exact Hnil |].
    destruct params; try exact Hnil.
    cbv zeta. rewrite sent_flat_map. apply Hentries.
  - intros msgType params -> H1 H2. unfold HandleUSockMessage. cbn [length].
    change (negb (Z.of_nat 1 =? 1)) with false. cbv iota.
    destruct params; try reflexivity.
    cbv zeta. rewrite sent_flat_map. apply Hentries; assumption.
Qed.

Example reset_info_acknowledged :
  HandleUSockMessage (2 ^ 31 - 1) 0x20 (Usock.mkPayload 0x20 [] 0)
    (Some [(0xA020, VMap [(VInteger KUint64 0xA021,
                           VArray [VInteger KUint64 4; VInteger KUint64 7])])]) =
  [EHSet "power-manager" "nrf-reset-count" (RInt 7);
   EHSet "power-manager" "nrf-reset-reason" (RInt 4);
   EPublish "power-manager" "nrf-reset-reason:4";
   EWriteWithFrameID 0x20 (mkEnvelope 0xA020 0xA023 (OUint16 0))].
Proof. vm_compute. reflexivity. Qed.

(** ** Message types without effect *)

(** Only fourteen message types can make the router do anything: an entry
    of any other type, which includes the vehicle-state ([0x0020]),
    power-management ([0x0800]) and BLE-command ([0xAA00]) families the
    router only logs, causes no call on the store and no frame. *)
Theorem other_message_types_have_no_effect (MaxInt msgType k : Z) (value : Value) :
  ~ In msgType [0x00E0; 0xA040; 0xA080; 0xA082; 0xA083; 0xA084; 0xA000;
                0xA020; 0xA021; 0x00C0; 0x0040; 0x0060; 0x0100; 0x0000] ->
  handleEntry MaxInt msgType k value = [].
Proof.
  intros Hnot. unfold handleEntry, dispatch.
  repeat match goal with
         | |- context [msgType =? ?t] =>
             destruct (Z.eqb_spec msgType t) as [Heq | ?];
             [try (exfalso; apply Hnot; rewrite Heq; cbn; tauto) |]
         end; reflexivity.
Qed.

Lemma other_message_types_have_no_effect_witness :
  ~ In 0x0020 [0x00E0; 0xA040; 0xA080; 0xA082; 0xA083; 0xA084; 0xA000;
               0xA020; 0xA021; 0x00C0; 0x0040; 0x0060; 0x0100; 0x0000] /\
  handleEntry (2 ^ 31 - 1) 0x0020 0x0021 (VInteger KUint64 2) = [].
Proof.
  assert (H : ~ In 0x0020 [0x00E0; 0xA040; 0xA080; 0xA082; 0xA083; 0xA084; 0xA000;
                           0xA020; 0xA021; 0x00C0; 0x0040; 0x0060; 0x0100; 0x0000]).
  { cbn [In]. intros Hin. repeat (destruct Hin as [Hin | Hin]; [discriminate |]). exact Hin. }
  split; [exact H |].
  exact (other_message_types_have_no_effect (2 ^ 31 - 1) 0x0020 0x0021 (VInteger KUint64 2) H).
Defined.

(** ** Events *)

(** [handleEventMessage] does at most one thing, a left push, and only for
    a Go string made of the list key, a space and the item pushed: the list
    key is what precedes the space, never anything else the device sent. *)
Theorem event_push_matches_string (msgType k : Z) (value : Value) (e : Effect) :
  In e (handleEventMessage msgType k value) ->
  exists key item,
    e = ELPush key item /\
    value = VString (key +:+ " " +:+ item) /\
    handleEventMessage msgType k value = [ELPush key item] /\
    In key ["scooter:state"; "scooter:seatbox"; "scooter:blinker"].
Proof.
  unfold handleEventMessage. destruct value as [| s | | | | |]; try contradiction.
  repeat match goal with
         | |- context [String.eqb s ?lit] =>
             destruct (String.eqb_spec s lit) as [-> | ?]
         end; try contradiction;
    intros [<- | []]; do 2 eexists;
    (split; [reflexivity |]); (split; [reflexivity |]); (split; [reflexivity |]);
    cbn; tauto.
Qed.

Lemma event_push_matches_string_witness :
  In (ELPush "scooter:blinker" "right")
     (handleEventMessage 0x0000 0x0000 (VString "scooter:blinker right")) /\
  exists key item,
    ELPush "scooter:blinker" "right" = ELPush key item /\
    VString "scooter:blinker right" = VString (key +:+ " " +:+ item).
Proof.
  assert (H : In (ELPush "scooter:blinker" "right")
     (handleEventMessage 0x0000 0x0000 (VString "scooter:blinker right")))
    by (left; reflexivity).
  split; [exact H |].
  destruct (event_push_matches_string 0 0 _ _ H) as [key [item [H1 [H2 _]]]].
  exists key, item. split; assumption.
Defined.

(** Byte strings and unknown strings are not events. *)
Example event_not_a_string :
  handleEventMessage 0 0 (VBytes [Byte.x73; Byte.x63]) = [] /\
  handleEventMessage 0 0 (VString "scooter:seatbox close") = [].
Proof. split; reflexivity. Qed.

(** ** CB battery faults *)

Lemma testbits_lor (v a b : Z) :
  testbits v (Z.lor a b) = testbits v a || testbits v b.
Proof.
  unfold testbits.
  destruct (Z.eqb_spec (Z.land v (Z.lor a b)) 0) as [H | H];
    destruct (Z.eqb_spec (Z.land v a) 0) as [Ha | Ha];
    destruct (Z.eqb_spec (Z.land v b) 0) as [Hb | Hb]; try reflexivity; exfalso.
  - apply land_lor_zero in H. tauto.
  - apply land_lor_zero in H. tauto.
  - apply land_lor_zero in H. tauto.
  - apply H. apply land_lor_zero. tauto.
Qed.

(** Protection status (battery-info subtype 11) with an integer value
    [v]: if one of the bits [0x003C] is set, "Discharging fault" is written
    to field [fault] of [cb-battery:fault], whatever the charging bits;
    otherwise, if one of the bits [0x7E00] is set, "Charging fault" is
    written; otherwise the field is deleted.  Nothing else is done. *)
Theorem protection_status_fault (MaxInt : Z) (value : Value) (v : Z) :
  convertToInt MaxInt value = (v, true) ->
  handleBatteryInfoMessage MaxInt 11 value =
    if negb (Z.land v 0x003C =? 0) then
      [EHSet "cb-battery:fault" "fault" (RString "Discharging fault")]
    else if negb (Z.land v 0x7E00 =? 0) then
      [EHSet "cb-battery:fault" "fault" (RString "Charging fault")]
    else [EHDel "cb-battery:fault" "fault"].
Proof.
  intros Hv. unfold handleBatteryInfoMessage. rewrite Hv.
  destruct (convertToString value) as [strVal strOk].
  change (11 =? TypeBatteryInfoStatus) with false.
  change (11 =? TypeBatteryInfoProtectionStatus) with true. cbv iota.
  rewrite <- !testbits_lor.
  change (Z.lor (Z.lor (Z.lor MAX1730X_PROTSTATUS_ODCP MAX1730X_PROTSTATUS_UVP)
            MAX1730X_PROTSTATUS_TOOHOTD) MAX1730X_PROTSTATUS_DIEHOT) with 0x003C.
  change (Z.lor (Z.lor (Z.lor (Z.lor (Z.lor (Z.lor MAX1730X_PROTSTATUS_TOOCOLDC
            MAX1730X_PROTSTATUS_OVP) MAX1730X_PROTSTATUS_OCCP) MAX1730X_PROTSTATUS_QOVFLW)
            MAX1730X_PROTSTATUS_TOOHOTC) MAX1730X_PROTSTATUS_FULL) MAX1730X_PROTSTATUS_DIEHOT)
    with (Z.lor 0x0020 0x7E00).
  change CB_BATTERY_PROTECTION_STATUS_FILTER with (Z.lor 0x003C 0x7E00).
  unfold testbits.
  destruct (Z.eqb_spec (Z.land v 0x003C) 0) as [Hd | Hd]; [| reflexivity].
  cbn [negb].
  assert (H20 : Z.land v 0x0020 = 0).
  { change 0x003C with (Z.lor 0x001C 0x0020) in Hd. apply land_lor_zero in Hd. tauto. }
  destruct (Z.eqb_spec (Z.land v 0x7E00) 0) as [Hc | Hc].
  - assert (Hc' : Z.land v (Z.lor 0x0020 0x7E00) = 0) by (apply land_lor_zero; tauto).
    assert (Hf : Z.land v (Z.lor 0x003C 0x7E00) = 0) by (apply land_lor_zero; tauto).
    rewrite Hc', Hf. reflexivity.
  - destruct (Z.eqb_spec (Z.land v (Z.lor 0x0020 0x7E00)) 0) as [Hc' | Hc'].
    + apply land_lor_zero in Hc'. tauto.
    + reflexivity.
Qed.

Lemma protection_status_fault_witness :
  convertToInt (2 ^ 31 - 1) (VInteger KUint64 0x1004) = (0x1004, true) /\
  handleBatteryInfoMessage (2 ^ 31 - 1) 11 (VInteger KUint64 0x1004) =
  [EHSet "cb-battery:fault" "fault" (RString "Discharging fault")].
Proof.
  assert (Hv : convertToInt (2 ^ 31 - 1) (VInteger KUint64 0x1004) = (0x1004, true))
    by reflexivity.
  split; [exact Hv |].
  exact (protection_status_fault (2 ^ 31 - 1) _ 0x1004 Hv).
Defined.

(** Battery status (battery-info subtype 15) with an integer value [v]:
    the first of the bits [0x1000], [0x0800], [0x0400] that is set decides
    the message written to field [fault] of [cb-battery:fault]; if none is
    set the field is deleted.  Nothing else is done. *)
Theorem battery_status_fault (MaxInt : Z) (value : Value) (v : Z) :
  convertToInt MaxInt value = (v, true) ->
  handleBatteryInfoMessage MaxInt 15 value =
    if negb (Z.land v 0x1000 =? 0) then
      [EHSet "cb-battery:fault" "fault" (RString "ChargeFET Failure-Short Detected")]
    else if negb (Z.land v 0x0800 =? 0) then
      [EHSet "cb-battery:fault" "fault" (RString "DischargeFET Failure-Short Detected")]
    else if negb (Z.land v 0x0400 =? 0) then
      [EHSet "cb-battery:fault" "fault" (RString "FET Failure open")]
    else [EHDel "cb-battery:fault" "fault"].
Proof.
  intros Hv. unfold handleBatteryInfoMessage. rewrite Hv.
  destruct (convertToString value) as [strVal strOk].
  change (15 =? TypeBatteryInfoStatus) with false.
  change (15 =? TypeBatteryInfoProtectionStatus) with false.
  change (15 =? TypeBatteryInfoBattStatus) with true. cbv iota.
  unfold testbits.
  change MAX1730X_BATTSTATUS_CHG_FET_FAIL with 0x1000.
  change MAX1730X_BATTSTATUS_DISCHG_FET_FAIL with 0x0800.
  change MAX1730X_BATTSTATUS_FET_FAIL_OPEN with 0x0400.
  change CB_BATTERY_BATT_STATUS_FILTER with (Z.lor 0x1000 (Z.lor 0x0800 0x0400)).
  destruct (Z.eqb_spec (Z.land v 0x1000) 0) as [H1 | ?]; [| reflexivity].
  destruct (Z.eqb_spec (Z.land v 0x0800) 0) as [H2 | ?]; [| reflexivity].
  destruct (Z.eqb_spec (Z.land v 0x0400) 0) as [H3 | ?]; [| reflexivity].
  cbn [negb].
  assert (Hf : Z.land v (Z.lor 0x1000 (Z.lor 0x0800 0x0400)) = 0)
    by (rewrite !land_lor_zero; tauto).
  rewrite Hf. reflexivity.
Qed.

Lemma battery_status_fault_witness :
  convertToInt (2 ^ 31 - 1) (VInteger KUint64 0x0C00) = (0x0C00, true) /\
  handleBatteryInfoMessage (2 ^ 31 - 1) 15 (VInteger KUint64 0x0C00) =
  [EHSet "cb-battery:fault" "fault" (RString "DischargeFET Failure-Short Detected")].
Proof.
  assert (Hv : convertToInt (2 ^ 31 - 1) (VInteger KUint64 0x0C00) = (0x0C00, true))
    by reflexivity.
  split; [exact Hv |].
  exact (battery_status_fault (2 ^ 31 - 1) _ 0x0C00 Hv).
Defined.

(** ** CB battery fields *)

(** The ten integer subtypes of battery-info store an integer value
    unchanged in their field of [cb-battery], and do nothing for a value
    that is not an integer (a string is not parsed); the two string
    subtypes store a string or byte-string value, and do nothing for an
    integer. *)
Theorem cb_battery_typed_fields (MaxInt subType : Z) (field : string) (value : Value) :
  (In (subType, field) cbBatteryIntFields ->
   handleBatteryInfoMessage MaxInt subType value =
   if snd (convertToInt MaxInt value)
   then [EHSet "cb-battery" field (RInt (fst (convertToInt MaxInt value)))]
   else []) /\
  (In (subType, field) cbBatteryStringFields ->
   handleBatteryInfoMessage MaxInt subType value =
   if negb (snd (convertToInt MaxInt value)) && snd (convertToString value)
   then [EHSet "cb-battery" field (RString (fst (convertToString value)))]
   else []).
Proof.
  split; intros Hin; cbn [In cbBatteryIntFields cbBatteryStringFields] in Hin;
    repeat (destruct Hin as [Heq | Hin];
            [injection Heq as <- <-; unfold handleBatteryInfoMessage;
             destruct (convertToInt MaxInt value) as [intVal [|]];
             destruct (convertToString value) as [strVal [|]]; reflexivity |]);
    contradiction.
Qed.

Example cb_battery_string_for_integer_field :
  handleBatteryInfoMessage (2 ^ 31 - 1) 1 (VString "87") = [] /\
  handleBatteryInfoMessage (2 ^ 31 - 1) 1 (VInteger KUint64 87) =
    [EHSet "cb-battery" "charge" (RInt 87)] /\
  handleBatteryInfoMessage (2 ^ 31 - 1) 13 (VInteger KUint64 87) = [] /\
  handleBatteryInfoMessage (2 ^ 31 - 1) 13 (VBytes [Byte.x41; Byte.x42]) =
    [EHSet "cb-battery" "unique-id" (RString "AB")].
Proof. repeat split. Qed.

(** Whatever the subtype and the value, [handleBatteryInfoMessage] makes at
    most one call, a write or a delete on one of the keys [cb-battery],
    [cb-battery:alert], [cb-battery:fault]; it never publishes, pushes or
    sends. *)
Theorem cb_battery_keys_confined (MaxInt subType : Z) (value : Value) :
  (length (handleBatteryInfoMessage MaxInt subType value) <= 1)%nat /\
  Forall (fun e => match e with
                   | EHSet key _ _ | EHDel key _ => In key cbBatteryKeys
                   | _ => False
                   end)
         (handleBatteryInfoMessage MaxInt subType value).
Proof.
  unfold handleBatteryInfoMessage, writeFaultToRedis.
  destruct (convertToInt MaxInt value) as [intVal intOk].
  destruct (convertToString value) as [strVal strOk].
  repeat match goal with
         | |- context [if ?c then _ else _] =>
             match type of c with bool => destruct c end
         end;
    (split; [cbn; lia | repeat constructor; cbn; tauto]).
Qed.

(** The protection status and the battery status are written to the same
    field, and the entries of an envelope are handled in the order of Go's
    map iteration: for an envelope carrying a protection status with a
    discharge bit and a battery status without fault bits, the field
    [fault] ends up deleted in one order and set to "Discharging fault" in
    the other. *)
Theorem fault_field_depends_on_entry_order (MaxInt : Z) (st : Store)
    (prot batt : Value) (p b : Z) :
  convertToInt MaxInt prot = (p, true) -> Z.land p 0x003C <> 0 ->
  convertToInt MaxInt batt = (b, true) -> Z.land b 0x1C00 = 0 ->
  apply_effects st
    (HandleUSockMessage MaxInt 0x60 (Usock.mkPayload 0x60 [] 0)
       (Some [(0x0060, VMap [(VInteger KUint64 0x006B, prot); (VInteger KUint64 0x006F, batt)])]))
    !! ("cb-battery:fault", "fault") = None /\
  apply_effects st
    (HandleUSockMessage MaxInt 0x60 (Usock.mkPayload 0x60 [] 0)
       (Some [(0x0060, VMap [(VInteger KUint64 0x006F, batt); (VInteger KUint64 0x006B, prot)])]))
    !! ("cb-battery:fault", "fault") = Some "Discharging fault".
Proof.
  intros Hp Hpb Hb Hbb.
  assert (Hprot : handleEntry MaxInt 0x0060 0x006B prot =
                  [EHSet "cb-battery:fault" "fault" (RString "Discharging fault")]).
  { change (handleEntry MaxInt 0x0060 0x006B prot)
      with (handleBatteryInfoMessage MaxInt 11 prot).
    unfold handleBatteryInfoMessage. rewrite Hp.
    destruct (convertToString prot) as [strVal strOk].
    change (11 =? TypeBatteryInfoStatus) with false.
    change (11 =? TypeBatteryInfoProtectionStatus) with true. cbv iota.
    rewrite <- !testbits_lor.
    change (Z.lor (Z.lor (Z.lor MAX1730X_PROTSTATUS_ODCP MAX1730X_PROTSTATUS_UVP)
              MAX1730X_PROTSTATUS_TOOHOTD) MAX1730X_PROTSTATUS_DIEHOT) with 0x003C.
    unfold testbits at 1.
    destruct (Z.eqb_spec (Z.land p 0x003C) 0); [contradiction | reflexivity]. }
  assert (Hbatt : handleEntry MaxInt 0x0060 0x006F batt = [EHDel "cb-battery:fault" "fault"]).
  { change (handleEntry MaxInt 0x0060 0x006F batt)
      with (handleBatteryInfoMessage MaxInt 15 batt).
    unfold handleBatteryInfoMessage. rewrite Hb.
    destruct (convertToString batt) as [strVal strOk].
    change (15 =? TypeBatteryInfoStatus) with false.
    change (15 =? TypeBatteryInfoProtectionStatus) with false.
    change (15 =? TypeBatteryInfoBattStatus) with true. cbv iota.
    unfold testbits.
    change MAX1730X_BATTSTATUS_CHG_FET_FAIL with 0x1000.
    change MAX1730X_BATTSTATUS_DISCHG_FET_FAIL with 0x0800.
    change MAX1730X_BATTSTATUS_FET_FAIL_OPEN with 0x0400.
    change CB_BATTERY_BATT_STATUS_FILTER with 0x1C00.
    pose proof Hbb as Hbits.
    change 0x1C00 with (Z.lor 0x1000 (Z.lor 0x0800 0x0400)) in Hbits.
    rewrite !land_lor_zero in Hbits. destruct Hbits as [H1 [H2 H3]].
    rewrite H1, H2, H3, Hbb. reflexivity. }
  assert (Hmsg : forall k1 v1 k2 v2,
            0 <= k1 <= 0xFFFF -> 0 <= k2 <= 0xFFFF ->
            HandleUSockMessage MaxInt 0x60 (Usock.mkPayload 0x60 [] 0)
              (Some [(0x0060, VMap [(VInteger KUint64 k1, v1); (VInteger KUint64 k2, v2)])]) =
            handleEntry MaxInt 0x0060 k1 v1 ++ handleEntry MaxInt 0x0060 k2 v2).
  { intros k1 v1 k2 v2 H1 H2. unfold HandleUSockMessage, paramMapOf.
    cbn [length flat_map fst snd app].
    change (negb (Z.of_nat 1 =? 1)) with false. cbv iota.
    replace (k1 >? 0xFFFF) with false by (symmetry; rewrite Z.gtb_ltb; apply Z.ltb_ge; lia).
    replace (k2 >? 0xFFFF) with false by (symmetry; rewrite Z.gtb_ltb; apply Z.ltb_ge; lia).
    cbn [flat_map fst snd app].
    rewrite !(uint16_small) by (unfold is_uint16; lia).
    rewrite app_nil_r. reflexivity. }
  rewrite !Hmsg by lia. rewrite Hprot, Hbatt. split.
  - cbn. apply lookup_delete_eq.
  - cbn. apply lookup_insert_eq.
Qed.

Lemma fault_field_depends_on_entry_order_witness :
  convertToInt (2 ^ 31 - 1) (VInteger KUint64 0x0004) = (0x0004, true) /\
  Z.land 0x0004 0x003C <> 0 /\
  convertToInt (2 ^ 31 - 1) (VInteger KUint64 0) = (0, true) /\
  Z.land 0 0x1C00 = 0 /\
  apply_effects ∅
    (HandleUSockMessage (2 ^ 31 - 1) 0x60 (Usock.mkPayload 0x60 [] 0)
       (Some [(0x0060, VMap [(VInteger KUint64 0x006B, VInteger KUint64 0x0004);
                              (VInteger KUint64 0x006F, VInteger KUint64 0)])]))
    !! ("cb-battery:fault", "fault") = None.
Proof.
  assert (Hp : convertToInt (2 ^ 31 - 1) (VInteger KUint64 0x0004) = (0x0004, true))
    by reflexivity.
  assert (Hpb : Z.land 0x0004 0x003C <> 0) by (vm_compute; discriminate).
  assert (Hb : convertToInt (2 ^ 31 - 1) (VInteger KUint64 0) = (0, true)) by reflexivity.
  assert (Hbb : Z.land 0 0x1C00 = 0) by reflexivity.
  split; [exact Hp |]. split; [exact Hpb |]. split; [exact Hb |]. split; [exact Hbb |].
  exact (proj1 (fault_field_depends_on_entry_order (2 ^ 31 - 1) ∅ _ _ _ _ Hp Hpb Hb Hbb)).
Defined.

(** ** The parameter map *)

(** Every entry the router handles comes from an entry of the inner map
    whose key is a [uint64] of at most [0xFFFF], with that key and that
    value; keys above [0xFFFF] and keys of another type are skipped, not
    truncated. *)
Theorem paramMap_keys (interMap : list (Value * Value)) (k : Z) (v : Value) :
  In (k, v) (paramMapOf interMap) ->
  is_uint16 k /\
  exists n, In (VInteger KUint64 n, v) interMap /\ n <= 0xFFFF /\ k = uint16 n.
Proof.
  unfold paramMapOf. intros Hin.
  apply in_flat_map in Hin as [[key val] [Hmem Hin]]. cbn [fst snd] in Hin.
  destruct key as [kind n | | | | | |]; try contradiction.
  destruct kind; try contradiction.
  destruct (Z.gtb_spec n 0xFFFF) as [Hgt | Hle]; [contradiction |].
  destruct Hin as [Heq | []]. injection Heq as <- <-.
  split.
  - unfold is_uint16, uint16. apply Z.mod_pos_bound. lia.
  - exists n. split; [exact Hmem |]. split; [exact Hle | reflexivity].
Qed.

Lemma paramMap_keys_witness :
  In (0x0068, VInteger KUint64 4)
     (paramMapOf [(VInteger KUint64 0x10068, VNil); (VString "x", VNil);
                  (VInteger KUint64 0x0068, VInteger KUint64 4)]) /\
  is_uint16 0x0068.
Proof.
  assert (H : In (0x0068, VInteger KUint64 4)
     (paramMapOf [(VInteger KUint64 0x10068, VNil); (VString "x", VNil);
                  (VInteger KUint64 0x0068, VInteger KUint64 4)]))
    by (left; reflexivity).
  split; [exact H |]. exact (proj1 (paramMap_keys _ _ _ H)).
Defined.

(** ** Subscriptions *)

Lemma existsb_eqb_In (c : string) (l : list string) :
  existsb (String.eqb c) l = true <-> In c l.
Proof.
  rewrite existsb_exists. split.
  - intros [x [Hin Heq]]. apply String.eqb_eq in Heq. subst x. exact Hin.
  - intros Hin. exists c. split; [exact Hin | apply String.eqb_refl].
Qed.

Lemma uniqueOf_spec (chs processedKeys : list string) :
  List.NoDup (uniqueOf processedKeys chs) /\
  (forall c, In c (uniqueOf processedKeys chs) <-> In c chs /\ ~ In c processedKeys).
Proof.
  revert processedKeys. induction chs as [| ch chs IH]; intros seen.
  - split; [constructor | cbn; tauto].
  - cbn [uniqueOf].
    destruct (existsb (String.eqb ch) seen) eqn:Hseen.
    + apply existsb_eqb_In in Hseen. destruct (IH seen) as [Hnd Hin].
      split; [exact Hnd |]. intros c. rewrite Hin. cbn [In].
      split; [tauto |]. intros [[-> | Hc] Hn]; tauto.
    + assert (Hnot : ~ In ch seen).
      { intros Hc. apply existsb_eqb_In in Hc. congruence. }
      destruct (IH (ch :: seen)) as [Hnd Hin]. split.
      * constructor; [| exact Hnd]. rewrite Hin. cbn [In]. tauto.
      * intros c. cbn [In]. rewrite Hin. cbn [In].
        destruct (String.eqb_spec ch c) as [-> | Hne]; tauto.
Qed.

(** The loop of [SubscribeToRedisChannels] that removes duplicates keeps
    every channel of its input exactly once, in the order of first
    occurrence, so no subscriber is started twice for one channel; for the
    channels of the service this is seven subscribers. *)
Theorem channels_subscribed_once (chs : list string) :
  List.NoDup (uniqueOf [] chs) /\
  (forall c, In c (uniqueOf [] chs) <-> In c chs) /\
  (List.NoDup chs -> uniqueOf [] chs = chs) /\
  length uniqueChannels = 7%nat.
Proof.
  destruct (uniqueOf_spec chs []) as [Hnd Hin].
  split; [exact Hnd |]. split.
  - intros c. rewrite Hin. cbn [In]. tauto.
  - split; [| reflexivity].
    assert (Hgen : forall seen, List.NoDup chs -> (forall c, In c chs -> ~ In c seen) ->
                                uniqueOf seen chs = chs).
    { induction chs as [| ch chs IH]; intros seen Hd Hdisj; [reflexivity |].
      cbn [uniqueOf]. apply List.NoDup_cons_iff in Hd as [Hnotin Hd].
      destruct (existsb (String.eqb ch) seen) eqn:Hseen.
      - apply existsb_eqb_In in Hseen. exfalso. apply (Hdisj ch); [left; reflexivity | exact Hseen].
      - f_equal. apply IH.
        + apply uniqueOf_spec.
        + intros c. destruct (uniqueOf_spec chs []) as [_ H]. rewrite H. cbn [In]. tauto.
        + exact Hd.
        + intros c Hc [<- | Hs]; [contradiction |].
          apply (Hdisj c); [right; exact Hc | exact Hs]. }
    intros Hd. apply Hgen; [exact Hd | intros c _ []].
Qed.

Example channels_with_duplicates :
  uniqueOf [] ["ble"; "vehicle"; "ble"; "ble"; "system"; "vehicle"] =
  ["ble"; "vehicle"; "system"].
Proof. reflexivity. Qed.

(** ** What the outbound side does *)

Ltac split_bool_tests :=
  repeat match goal with
         | |- context [if ?c then _ else _] =>
             match type of c with bool => destruct c end
         end.

(** The outbound side never touches the store: whatever the store holds
    and whatever the channel, the payload or the command, the reaction of a
    subscriber is at most two frames and nothing else, the reaction to a
    command popped from the list is at most one frame and nothing else, and
    the initialization sequence is six frames and nothing else. *)
Theorem outbound_only_sends (Atoi : string -> option Z) (st : Store)
    (chName field command : string) :
  forallb isSend (onRedisMessage Atoi st chName field) = true /\
  (length (onRedisMessage Atoi st chName field) <= 2)%nat /\
  forallb isSend (handleCommand command) = true /\
  (length (handleCommand command) <= 1)%nat /\
  forallb isSend InitializeNRF52 = true /\
  length InitializeNRF52 = 6%nat.
Proof.
  split; [| split; [| split; [| split; [| split]]]]; try reflexivity.
  - unfold onRedisMessage, UpdatePowerManagementState, writeUARTMessage.
    destruct (GetString st KeyBLEPairingPin "pin-code");
      destruct (GetString st KeyPowerManager "state");
      split_bool_tests; reflexivity.
  - unfold onRedisMessage, UpdatePowerManagementState, writeUARTMessage.
    destruct (GetString st KeyBLEPairingPin "pin-code");
      destruct (GetString st KeyPowerManager "state");
      split_bool_tests; cbn; lia.
  - unfold handleCommand. split_bool_tests; reflexivity.
  - unfold handleCommand. split_bool_tests; cbn; lia.
Qed.

(** Integers read from the store are sent as 16-bit values: the mileage
    sent is the stored number modulo 65536, and 0 when the field is missing
    or is not a number. *)
Theorem mileage_sent_modulo_65536 (Atoi : string -> option Z) (st : Store) :
  exists value,
    UpdateMileage Atoi st = [EWriteWithFrameID 0x40 (mkEnvelope 0xA040 0xA042 (OUint16 value))] /\
    0 <= value < 65536 /\
    (st !! ("engine-ecu", "odometer") = None -> value = 0) /\
    (forall s, st !! ("engine-ecu", "odometer") = Some s -> Atoi s = None -> value = 0) /\
    (forall s n, st !! ("engine-ecu", "odometer") = Some s -> Atoi s = Some n ->
                 value = n mod 65536).
Proof.
  unfold UpdateMileage, GetInt, writeUARTMessage.
  change (uint8 (Z.land TypeScooterInfo 255)) with 0x40.
  change (uint16 TypeScooterInfo) with 0xA040.
  change (uint16 (0xA040 + uint16 TypeMileage)) with 0xA042.
  change (st !! (KeyMileage, "odometer")) with (st !! ("engine-ecu", "odometer")).
  eexists. split; [reflexivity |]. split.
  - unfold uint16. apply Z.mod_pos_bound. lia.
  - destruct (st !! ("engine-ecu", "odometer")) as [s |].
    + split; [discriminate |]. split.
      * intros s' Hs Ha. injection Hs as <-. rewrite Ha. reflexivity.
      * intros s' n Hs Ha. injection Hs as <-. rewrite Ha. reflexivity.
    + split; [reflexivity |]. split; intros; discriminate.
Qed.

(** The removal of the pairing pin, seen through the store: after the
    inbound removal signal ([0xA083]) the field [ble.pin-code] holds the
    empty string, and a later notification with the bare field name makes
    the subscriber send the removal command; after an inbound display of a
    non-empty pin ([0xA082]) the field holds that pin and such a
    notification sends nothing. *)
Theorem pin_code_through_the_store (MaxInt : Z) (Atoi : string -> option Z) (st : Store)
    (value : Value) (pin : string) :
  pin <> EmptyString ->
  (let st1 := apply_effects st (handleEntry MaxInt 0xA080 0xA083 value) in
   GetString st1 "ble" "pin-code" = Some EmptyString /\
   deliver Atoi st1 "ble" "pin-code" =
     [EWriteWithFrameID 0x83 (mkEnvelope 0xA083 0xA083 (OUint16 1))]) /\
  (let st2 := apply_effects st (handleEntry MaxInt 0xA080 0xA082 (VString pin)) in
   GetString st2 "ble" "pin-code" = Some pin /\
   deliver Atoi st2 "ble" "pin-code" = []).
Proof.
  intros Hpin. split.
  - change (handleEntry MaxInt 0xA080 0xA083 value)
      with [EHDel "ble" "pin-code"; EHSet "ble" "pin-code" (RString EmptyString);
            EPublish "ble" "pin-code:"].
    cbv zeta.
    assert (Hget : GetString
              (apply_effects st
                 [EHDel "ble" "pin-code"; EHSet "ble" "pin-code" (RString EmptyString);
                  EPublish "ble" "pin-code:"]) "ble" "pin-code" = Some EmptyString).
    { unfold GetString. cbn. apply lookup_insert_eq. }
    split; [exact Hget |].
    change (deliver Atoi ?s "ble" "pin-code")
      with (match GetString s KeyBLEPairingPin "pin-code" with
            | None => writeUARTMessage TypeBLEPairingPinRemove 0 1
            | Some p => if String.eqb p EmptyString
                        then writeUARTMessage TypeBLEPairingPinRemove 0 1 else []
            end).
    change KeyBLEPairingPin with "ble". rewrite Hget. reflexivity.
  - change (handleEntry MaxInt 0xA080 0xA082 (VString pin))
      with [EHSet "ble" "pin-code" (RString pin); EPublish "ble" ("pin-code" +:+ ":" +:+ pin)].
    cbv zeta.
    assert (Hget : GetString
              (apply_effects st
                 [EHSet "ble" "pin-code" (RString pin);
                  EPublish "ble" ("pin-code" +:+ ":" +:+ pin)]) "ble" "pin-code" = Some pin).
    { unfold GetString. cbn. apply lookup_insert_eq. }
    split; [exact Hget |].
    change (deliver Atoi ?s "ble" "pin-code")
      with (match GetString s KeyBLEPairingPin "pin-code" with
            | None => writeUARTMessage TypeBLEPairingPinRemove 0 1
            | Some p => if String.eqb p EmptyString
                        then writeUARTMessage TypeBLEPairingPinRemove 0 1 else []
            end).
    change KeyBLEPairingPin with "ble". rewrite Hget.
    destruct (String.eqb_spec pin EmptyString); [contradiction | reflexivity].
Qed.

Lemma pin_code_through_the_store_witness :
  "123456" <> EmptyString /\
  deliver (fun _ => None)
    (apply_effects ∅ (handleEntry (2 ^ 31 - 1) 0xA080 0xA082 (VString "123456")))
    "ble" "pin-code" = [].
Proof.
  assert (H : "123456" <> EmptyString) by discriminate.
  split; [exact H |].
  exact (proj2 (proj2 (pin_code_through_the_store (2 ^ 31 - 1) (fun _ => None) ∅ VNil
                         "123456" H))).
Defined.

(** ** Battery messages in both directions *)

(** The two directions agree on the keys of the battery family: for both
    slots and each of the four fields, the inner key under which the
    outbound translation sends the field is a key the router takes as that
    field of the same slot. *)
Theorem battery_keys_agree (MaxInt : Z) (Atoi : string -> option Z) (st : Store) (slot n : Z) :
  slot = 1 \/ slot = 2 ->
  let key := if slot =? 2 then "battery:1" else "battery:0" in
  (exists k x,
      UpdateBatteryActiveStatus st slot =
        [EWriteWithFrameID 0xE0 (mkEnvelope 0x00E0 k (OUint16 x))] /\
      handleEntry MaxInt 0x00E0 k (VInteger KUint16 n) = [EHSet key "state" (RInt n)]) /\
  (exists k x,
      UpdateBatteryPresentStatus Atoi st slot =
        [EWriteWithFrameID 0xE0 (mkEnvelope 0x00E0 k (OUint16 x))] /\
      handleEntry MaxInt 0x00E0 k (VInteger KUint16 n) =
        [EHSet key "present" (RString (if negb (n =? 0) then "true" else "false"))]) /\
  (exists k x,
      UpdateBatteryCycleCount Atoi st slot =
        [EWriteWithFrameID 0xE0 (mkEnvelope 0x00E0 k (OUint16 x))] /\
      handleEntry MaxInt 0x00E0 k (VInteger KUint16 n) = [EHSet key "cycle-count" (RInt n)]) /\
  (exists k x,
      UpdateBatteryRemainingCharge Atoi st slot =
        [EWriteWithFrameID 0xE0 (mkEnvelope 0x00E0 k (OUint16 x))] /\
      handleEntry MaxInt 0x00E0 k (VInteger KUint16 n) = [EHSet key "charge" (RInt n)]).
Proof.
  intros [-> | ->]; cbv zeta;
    (split; [| split; [| split]]); do 2 eexists; (split; [reflexivity |]);
    reflexivity.
Qed.

Lemma battery_keys_agree_witness :
  (2 = 1 \/ 2 = 2) /\
  exists k x,
    UpdateBatteryRemainingCharge (fun _ => None) ∅ 2 =
      [EWriteWithFrameID 0xE0 (mkEnvelope 0x00E0 k (OUint16 x))] /\
    handleEntry (2 ^ 31 - 1) 0x00E0 k (VInteger KUint16 55) =
      [EHSet "battery:1" "charge" (RInt 55)].
Proof.
  assert (H : 2 = 1 \/ 2 = 2) by (right; reflexivity).
  split; [exact H |].
  exact (proj2 (proj2 (proj2 (battery_keys_agree (2 ^ 31 - 1) (fun _ => None) ∅ 2 55 H)))).
Defined.



End RouterProperties.
